(** * stock-cli: the polling dashboards [price.py], [price_stock.py], [graph.py]

    A shallow embedding of the three dashboard variants.  Python values are
    a tagged union, dictionaries are finite maps with string keys, raised
    exceptions are the [Raise] branch of an error monad, [try]/[except]
    blocks are handlers over that monad, and [asyncio.gather] is a slot
    array filled in the order in which the event loop completes the tasks. *)

From Stdlib Require Import ZArith String List Ascii Lia.
From Stdlib Require Import Floats.SpecFloat.
From stdpp Require Import base option list gmap strings pretty.

#[local] Set Warnings "-register-all".
#[local] Open Scope Z_scope.

(** ** Exceptions and the error monad *)

(** The exception classes the three modules can meet.  The last three derive
    from [BaseException] only, so an [except Exception] clause lets them
    pass. *)
Inductive PyExc : Type :=
  | ClientError            (* aiohttp.ClientError and its subclasses *)
  | TimeoutError           (* asyncio.TimeoutError *)
  | KeyError
  | IndexError
  | TypeError
  | AttributeError
  | ValueError
  | OverflowError
  | NotRenderableError     (* rich.errors.NotRenderableError *)
  | OtherException (name : string)
  | CancelledError
  | KeyboardInterrupt
  | SystemExit.

Definition is_Exception (e : PyExc) : bool :=
  match e with
  | CancelledError | KeyboardInterrupt | SystemExit => false
  | _ => true
  end.

Definition is_ClientError (e : PyExc) : bool :=
  match e with ClientError => true | _ => false end.

Definition is_TimeoutError (e : PyExc) : bool :=
  match e with TimeoutError => true | _ => false end.

Inductive Exc (A : Type) : Type :=
  | Ok (a : A)
  | Raise (e : PyExc).
Arguments Ok {A} a.
Arguments Raise {A} e.

#[global] Instance Exc_ret : MRet Exc := fun A a => Ok a.
#[global] Instance Exc_bind : MBind Exc := fun A B k m =>
  match m with
  | Ok a => k a
  | Raise e => Raise e
  end.

(** [try: body except handlers]: the first clause whose class test accepts
    the exception runs; with no such clause the exception propagates. *)
Fixpoint try_except {A} (body : Exc A)
    (handlers : list ((PyExc -> bool) * (PyExc -> Exc A))) : Exc A :=
  match body with
  | Ok a => Ok a
  | Raise e =>
      match handlers with
      | [] => Raise e
      | (cls, h) :: rest => if cls e then h e else try_except (Raise e) rest
      end
  end.

(** ** Python values *)

Inductive PyVal : Type :=
  | PyNone
  | PyBool (b : bool)
  | PyInt (n : Z)
  | PyFloat (f : spec_float)
  | PyStr (s : string)
  | PyList (l : list PyVal)
  | PyDict (d : gmap string PyVal).

(** [bool(v)]: what [if v:] tests. *)
Definition truthy (v : PyVal) : bool :=
  match v with
  | PyNone => false
  | PyBool b => b
  | PyInt n => negb (n =? 0)
  | PyFloat (S754_zero _) => false
  | PyFloat _ => true
  | PyStr s => negb (String.eqb s "")
  | PyList l => match l with [] => false | _ => true end
  | PyDict d => negb (Nat.eqb (size d) 0)
  end.

(** [v.get(key, dflt)]: only a dict has the method. *)
Definition py_get (v : PyVal) (key : string) (dflt : PyVal) : Exc PyVal :=
  match v with
  | PyDict d => Ok (default dflt (d !! key))
  | _ => Raise AttributeError
  end.

(** [v[i]] with an [int] subscript.  JSON objects have string keys only, so
    an integer subscript of a dict is a [KeyError]. *)
Definition py_getitem_int (v : PyVal) (i : nat) : Exc PyVal :=
  match v with
  | PyList l => match l !! i with Some x => Ok x | None => Raise IndexError end
  | PyStr s =>
      match String.get i s with
      | Some c => Ok (PyStr (String c EmptyString))
      | None => Raise IndexError
      end
  | PyDict _ => Raise KeyError
  | _ => Raise TypeError
  end.

(** [v[key]] with a [str] subscript. *)
Definition py_getitem_str (v : PyVal) (key : string) : Exc PyVal :=
  match v with
  | PyDict d => match d !! key with Some x => Ok x | None => Raise KeyError end
  | _ => Raise TypeError
  end.

(** [reversed(v)], run to exhaustion. *)
Definition py_reversed (v : PyVal) : Exc (list PyVal) :=
  match v with
  | PyList l => Ok (reverse l)
  | PyStr s =>
      Ok (reverse (map (fun c => PyStr (String c EmptyString))
                       (list_ascii_of_string s)))
  | PyDict d => Ok (reverse (map (fun kv => PyStr kv.1) (map_to_list d)))
  | _ => Raise TypeError
  end.

(** [isinstance(v, (int, float))]; [bool] is a subclass of [int]. *)
Definition isinstance_int_float (v : PyVal) : bool :=
  match v with
  | PyBool _ | PyInt _ | PyFloat _ => true
  | _ => false
  end.

(** ** Binary64 arithmetic *)

Module B64.

Definition prec : Z := 53.
Definition emax : Z := 1024.

Definition mul : spec_float -> spec_float -> spec_float := SFmul prec emax.
Definition div : spec_float -> spec_float -> spec_float := SFdiv prec emax.
Definition sub : spec_float -> spec_float -> spec_float := SFsub prec emax.
Definition leb : spec_float -> spec_float -> bool := SFleb.

(** The integer [n], rounded to nearest even. *)
Definition of_Z (n : Z) : spec_float := binary_normalize prec emax n 0 false.

(** The decimal literal [num / 10^scale], as a JSON or Python parser reads
    it: numerator and power of ten are exact here, so the one rounding of
    the division gives the nearest double. *)
Definition of_decimal (num : Z) (scale : N) : spec_float :=
  div (of_Z num) (of_Z (10 ^ Z.of_N scale)).

Definition zero : spec_float := S754_zero false.

Definition is_finite (f : spec_float) : bool :=
  match f with
  | S754_zero _ | S754_finite _ _ _ => true
  | _ => false
  end.

End B64.

(** [float(n)] for an [int]: an integer beyond the double range raises. *)
Definition float_of_int (n : Z) : Exc spec_float :=
  let f := B64.of_Z n in
  if B64.is_finite f then Ok f else Raise OverflowError.

(** ** Fixed-point formatting: the format specs [.2f], [,.2f], [,.0f] *)

Definition round_half_even (n d : Z) : Z :=
  let q := n / d in
  match (2 * (n mod d)) ?= d with
  | Lt => q
  | Gt => q + 1
  | Eq => if Z.even q then q else q + 1
  end.

(** [|m * 2^e| * 10^digits], rounded to the nearest integer. *)
Definition scaled (digits : nat) (m : positive) (e : Z) : Z :=
  match e with
  | Zneg p => round_half_even (Zpos m * 10 ^ Z.of_nat digits) (2 ^ Zpos p)
  | _ => Zpos m * 2 ^ e * 10 ^ Z.of_nat digits
  end.

Fixpoint zeros (n : nat) : string :=
  match n with
  | O => EmptyString
  | S n' => String "0" (zeros n')
  end.

Definition pad_left (width : nat) (s : string) : string :=
  zeros (width - String.length s) +:+ s.

(** Thousands separators, on the reversed integer digits. *)
Fixpoint group3 (rdigits : list ascii) : list ascii :=
  match rdigits with
  | a :: b :: c :: rest =>
      match rest with
      | [] => rdigits
      | _ => a :: b :: c :: ","%char :: group3 rest
      end
  | _ => rdigits
  end.

Definition grouped (s : string) : string :=
  string_of_list_ascii (rev (group3 (rev (list_ascii_of_string s)))).

Definition fixed_digits (grouping : bool) (digits : nat) (n : Z) : string :=
  let ip := pretty (Z.to_N (n / 10 ^ Z.of_nat digits)) in
  let ip := if grouping then grouped ip else ip in
  match digits with
  | O => ip
  | _ => ip +:+ "." +:+ pad_left digits (pretty (Z.to_N (n mod 10 ^ Z.of_nat digits)))
  end.

Definition sign_str (s : bool) : string := if s then "-" else "".

(** [format(f, ",.<digits>f")] (or without the comma) for a float. *)
Definition format_float (grouping : bool) (digits : nat) (f : spec_float) : string :=
  match f with
  | S754_nan => "nan"
  | S754_infinity s => sign_str s +:+ "inf"
  | S754_zero s => sign_str s +:+ fixed_digits grouping digits 0
  | S754_finite s m e => sign_str s +:+ fixed_digits grouping digits (scaled digits m e)
  end.

(** [format(v, spec)] for a fixed-point spec: an [int] (and so a [bool]) is
    converted to [float] first; other types reject the spec. *)
Definition py_format_f (grouping : bool) (digits : nat) (v : PyVal) : Exc string :=
  match v with
  | PyFloat f => Ok (format_float grouping digits f)
  | PyInt n => f ← float_of_int n; Ok (format_float grouping digits f)
  | PyBool b => f ← float_of_int (Z.b2z b); Ok (format_float grouping digits f)
  | PyStr _ => Raise ValueError
  | _ => Raise TypeError
  end.

(** ** Operators *)

Fixpoint repeat_string (n : nat) (s : string) : string :=
  match n with
  | O => EmptyString
  | S n' => s +:+ repeat_string n' s
  end.

(** [v * k] for an [int] constant [k]: a float operand has [k] converted to
    [float]; a [str] or a [list] is repeated. *)
Definition py_mul_int (v : PyVal) (k : Z) : Exc PyVal :=
  match v with
  | PyBool b => Ok (PyInt (Z.b2z b * k))
  | PyInt n => Ok (PyInt (n * k))
  | PyFloat f => g ← float_of_int k; Ok (PyFloat (B64.mul f g))
  | PyStr s => Ok (PyStr (repeat_string (Z.to_nat k) s))
  | PyList l => Ok (PyList (concat (replicate (Z.to_nat k) l)))
  | PyNone | PyDict _ => Raise TypeError
  end.

(** [v >= 0]. *)
Definition py_ge0 (v : PyVal) : Exc bool :=
  match v with
  | PyBool _ => Ok true
  | PyInt n => Ok (0 <=? n)
  | PyFloat f => Ok (B64.leb B64.zero f)
  | _ => Raise TypeError
  end.

(** ** [asyncio.gather] *)

(** What the awaiting coroutine sees: the batch finished (with a value or an
    exception), or some task has not completed yet. *)
Inductive Await (A : Type) : Type :=
  | Done (r : Exc A)
  | Pending.
Arguments Done {A} r.
Arguments Pending {A}.

(** The event loop completes the tasks in the order [completion] (task
    indices).  A task that returns stores its value in the slot of its own
    position; with [return_exceptions=False] the first exception raised is
    handed to the awaiting coroutine at once. *)
Fixpoint run_tasks {A} (aws : list (Exc A)) (completion : list nat)
    (slots : list (option A)) : Exc (list (option A)) :=
  match completion with
  | [] => Ok slots
  | i :: later =>
      match aws !! i with
      | Some (Ok a) => run_tasks aws later (<[i := Some a]> slots)
      | Some (Raise e) => Raise e
      | None => run_tasks aws later slots
      end
  end.

Fixpoint all_filled {A} (slots : list (option A)) : option (list A) :=
  match slots with
  | [] => Some []
  | Some a :: rest => cons a <$> all_filled rest
  | None :: _ => None
  end.

Definition gather {A} (aws : list (Exc A)) (completion : list nat) : Await (list A) :=
  match run_tasks aws completion (replicate (length aws) None) with
  | Raise e => Done (Raise e)
  | Ok slots =>
      match all_filled slots with
      | Some results => Done (Ok results)
      | None => Pending
      end
  end.

(** ** The upstream HTTP API, as the fetchers see it *)

Inductive HttpOutcome : Type :=
  | GetRaises (e : PyExc)                     (* [session.get(url)] raises *)
  | Response (status : Z) (json : Exc PyVal). (* [await response.json()] *)

(** A client session within one polling cycle: the outcome of a GET per URL. *)
Definition Session : Type := string -> HttpOutcome.

Definition UPBIT_API_URL : string := "https://api.upbit.com/v1/".

(** ** The renderer's table ([rich.table.Table]) *)

Record Column : Type := mkColumn {
  col_name : string;
  col_style : option string;
  col_justify : option string
}.

(** A table as the program makes it: the columns it declares with
    [add_column] and the rows it hands to [add_row]. *)
Record Table : Type := mkTable {
  title : string;
  columns : list (string * string * string);
  rows : list (list string)
}.

Definition new_table (title : string) : Table := mkTable title [] [].

Definition add_column (table : Table) (name style justify : string) : Table :=
  mkTable (title table) (columns table ++ [(name, style, justify)]) (rows table).

(** [Table.add_row] takes [None] as an empty cell and a [str] as it is; any
    other object is not renderable.  A row is kept as the cells handed
    over (the renderer pads a short row with empty cells when it draws). *)
Definition render_cell (cell : PyVal) : Exc string :=
  match cell with
  | PyNone => Ok ""
  | PyStr s => Ok s
  | _ => Raise NotRenderableError
  end.

Fixpoint render_cells (cells : list PyVal) : Exc (list string) :=
  match cells with
  | [] => Ok []
  | c :: rest => s ← render_cell c; ss ← render_cells rest; Ok (s :: ss)
  end.

Definition add_row (table : Table) (cells : list PyVal) : Exc Table :=
  ss ← render_cells cells;
  Ok (mkTable (title table) (columns table) (rows table ++ [ss])).

Definition add_columns (table : Table) (cols : list Column) : Table :=
  foldl (fun table column =>
           add_column table (col_name column)
             (default "dim" (col_style column))
             (default "left" (col_justify column)))
        table cols.

(** A [for] loop whose body may raise. *)
Fixpoint for_each {S A} (body : S -> A -> Exc S) (l : list A) (s : S) : Exc S :=
  match l with
  | [] => Ok s
  | x :: l' => s' ← body s x; for_each body l' s'
  end.

(** ** The Upbit ticker code shared by [price.py] and [graph.py]

    [fetch_ticker] (price.py 35-61, graph.py 43-69) and the loop body of
    [create_table] (price.py 90-138, graph.py 164-212) are the same text in
    both files, up to the wording of the log messages. *)
Module Upbit.

Definition ticker_url (symbol : string) : string :=
  UPBIT_API_URL +:+ "ticker?markets=" +:+ symbol.

Definition fetch_ticker (session : Session) (symbol : string) : Exc PyVal :=
  let url := ticker_url symbol in
  try_except
    match session url with
    | GetRaises e => Raise e
    | Response status json =>
        if status =? 200 then
          data ← json;
          if truthy data then py_getitem_int data 0 else Ok PyNone
        else Ok PyNone
    end
    [ (is_ClientError, fun _ => Ok PyNone);
      (is_TimeoutError, fun _ => Ok PyNone);
      (is_Exception, fun _ => Ok PyNone) ].

(** [f"[{change_color}]{change_rate:.2f}%[/{change_color}]"], with the
    colour picked by [change_rate >= 0]. *)
Definition change_display (change_rate : PyVal) : Exc string :=
  nonneg ← py_ge0 change_rate;
  let change_color := if nonneg : bool then "green dim" else "red dim" in
  text ← py_format_f false 2 change_rate;
  Ok ("[" +:+ change_color +:+ "]" +:+ text +:+ "%[/" +:+ change_color +:+ "]").

(** [f"{v:,.0f} KRW" if isinstance(v, (int, float)) else "N/A"] *)
Definition krw_str (v : PyVal) : Exc string :=
  if isinstance_int_float v
  then text ← py_format_f true 0 v; Ok (text +:+ " KRW")
  else Ok "N/A".

(** [f"{v:,.2f}" if isinstance(v, (int, float)) else "N/A"] *)
Definition volume_str (v : PyVal) : Exc string :=
  if isinstance_int_float v then py_format_f true 2 v else Ok "N/A".

Definition ticker_cells (ticker : PyVal) : Exc (list PyVal) :=
  symbol ← py_get ticker "market" (PyStr "N/A");
  trade_price ← py_get ticker "trade_price" (PyStr "N/A");
  rate ← py_get ticker "signed_change_rate" (PyFloat B64.zero);
  change_rate ← py_mul_int rate 100;
  trade_volume ← py_get ticker "trade_volume" (PyInt 0);
  high_price ← py_get ticker "high_price" (PyStr "N/A");
  low_price ← py_get ticker "low_price" (PyStr "N/A");
  change_display ← change_display change_rate;
  trade_price_str ← krw_str trade_price;
  trade_volume_str ← volume_str trade_volume;
  high_price_str ← krw_str high_price;
  low_price_str ← krw_str low_price;
  Ok [ symbol; PyStr trade_price_str; PyStr change_display;
       PyStr trade_volume_str; PyStr high_price_str; PyStr low_price_str ].

Definition placeholder_cells : list PyVal := replicate 6 (PyStr "N/A").

(** The body of [for ticker in tickers]. *)
Definition add_ticker (table : Table) (ticker : PyVal) : Exc Table :=
  if truthy ticker
  then cells ← ticker_cells ticker; add_row table cells
  else add_row table placeholder_cells.

End Upbit.

(** ** price.py *)
Module Price.

Definition fetch_ticker := Upbit.fetch_ticker.

Definition fetch_all_tickers (session : Session) (symbols : list string)
    (completion : list nat) : Await (list PyVal) :=
  let tasks := map (fetch_ticker session) symbols in
  gather tasks completion.

(** [now] is the text of [datetime.now().strftime(...)]; the title and the
    columns come from the configuration. *)
Definition create_table (DEFAULT_PRICE_TABLE_TITLE : string)
    (DEFAULT_PRICE_COLUMNS : list Column) (now : string)
    (tickers : list PyVal) : Exc Table :=
  let table := new_table (DEFAULT_PRICE_TABLE_TITLE +:+ " - " +:+ now) in
  let table := add_columns table DEFAULT_PRICE_COLUMNS in
  for_each Upbit.add_ticker tickers table.

End Price.

(** ** price_stock.py *)
Module PriceStock.

(** What [yf.Ticker(symbol).history(...)] hands back: the rows of a
    [DataFrame], oldest first, each row keyed by column name.  The cells are
    [numpy.float64]: their arithmetic is IEEE 754 (a zero divisor gives an
    infinity or a NaN, with a warning and no exception), and since
    [numpy.float64] subclasses [float] they format and compare as floats. *)
Definition DataFrame : Type := list (gmap string spec_float).

(** The library call of one symbol: a frame, or an exception. *)
Definition History : Type := string -> Exc DataFrame.

(** [data.empty]: no rows, or no columns. *)
Definition df_empty (data : DataFrame) : bool :=
  forallb (fun row => Nat.eqb (size row) 0) data.

(** [data.iloc[-1]] *)
Definition iloc_last (data : DataFrame) : Exc (gmap string spec_float) :=
  match last data with
  | Some row => Ok row
  | None => Raise IndexError
  end.

(** [row[column]] *)
Definition row_getitem (row : gmap string spec_float) (column : string)
    : Exc spec_float :=
  match row !! column with
  | Some x => Ok x
  | None => Raise KeyError
  end.

Definition fetch_ticker (history : History) (symbol : string) : Exc PyVal :=
  try_except
    (data ← history symbol;
     if df_empty data then Ok PyNone
     else
       last_row ← iloc_last data;
       yesterday_price ← row_getitem last_row "Open";
       today_price ← row_getitem last_row "Close";
       high_price ← row_getitem last_row "High";
       low_price ← row_getitem last_row "Low";
       volume ← row_getitem last_row "Volume";
       let change_rate :=
         B64.mul (B64.div (B64.sub today_price yesterday_price) yesterday_price)
                 (B64.of_Z 100) in
       Ok (PyDict (list_to_map
             [ ("symbol", PyStr symbol);
               ("yesterday", PyFloat yesterday_price);
               ("today", PyFloat today_price);
               ("change_rate", PyFloat change_rate);
               ("volume", PyFloat volume);
               ("high", PyFloat high_price);
               ("low", PyFloat low_price) ])))
    [ (is_Exception, fun _ => Ok PyNone) ].

Definition fetch_all_tickers (history : History) (symbols : list string)
    (completion : list nat) : Await (list PyVal) :=
  let tasks := map (fetch_ticker history) symbols in
  gather tasks completion.

(** [f"{v:,.2f}" if isinstance(v, (int, float)) else "N/A"] *)
Definition price_str (v : PyVal) : Exc string :=
  if isinstance_int_float v then py_format_f true 2 v else Ok "N/A".

(** [f"{v:,.0f}" if isinstance(v, (int, float)) else "N/A"] *)
Definition volume_str (v : PyVal) : Exc string :=
  if isinstance_int_float v then py_format_f true 0 v else Ok "N/A".

Definition change_display (change_rate : PyVal) : Exc string :=
  nonneg ← py_ge0 change_rate;
  let change_color := if nonneg : bool then "green dim" else "red dim" in
  text ← py_format_f false 2 change_rate;
  Ok ("[" +:+ change_color +:+ "]" +:+ text +:+ "%[/" +:+ change_color +:+ "]").

Definition ticker_cells (ticker : PyVal) : Exc (list PyVal) :=
  symbol ← py_get ticker "symbol" (PyStr "N/A");
  yesterday_price ← py_get ticker "yesterday" (PyStr "N/A");
  today_price ← py_get ticker "today" (PyStr "N/A");
  change_rate ← py_get ticker "change_rate" (PyFloat B64.zero);
  volume ← py_get ticker "volume" (PyInt 0);
  high_price ← py_get ticker "high" (PyStr "N/A");
  low_price ← py_get ticker "low" (PyStr "N/A");
  change_display ← change_display change_rate;
  yesterday_price_str ← price_str yesterday_price;
  today_price_str ← price_str today_price;
  volume_str ← volume_str volume;
  high_price_str ← price_str high_price;
  low_price_str ← price_str low_price;
  Ok [ symbol; PyStr yesterday_price_str; PyStr today_price_str;
       PyStr change_display; PyStr volume_str;
       PyStr high_price_str; PyStr low_price_str ].

Definition placeholder_cells : list PyVal := replicate 7 (PyStr "N/A").

Definition add_ticker (table : Table) (ticker : PyVal) : Exc Table :=
  if truthy ticker
  then cells ← ticker_cells ticker; add_row table cells
  else add_row table placeholder_cells.

Definition DEFAULT_STOCK_PRICE_TABLE_TITLE : string := "Stock Dashboard".

Definition create_table (DEFAULT_STOCK_PRICE_COLUMNS : list Column)
    (now : string) (tickers : list PyVal) : Exc Table :=
  let table := new_table (DEFAULT_STOCK_PRICE_TABLE_TITLE +:+ " - " +:+ now) in
  let table := add_columns table DEFAULT_STOCK_PRICE_COLUMNS in
  for_each add_ticker tickers table.

End PriceStock.

(** ** graph.py *)
Module Graph.

Record Timeframe : Type := mkTimeframe {
  name : string;
  unit : Z;
  count : Z
}.

Definition fetch_ticker := Upbit.fetch_ticker.

Definition candles_url (symbol : string) (unit count : Z) : string :=
  UPBIT_API_URL +:+ "candles/minutes/" +:+ pretty unit
  +:+ "?market=" +:+ symbol +:+ "&count=" +:+ pretty count.

Definition fetch_candles (session : Session) (symbol : string) (unit count : Z)
    : Exc PyVal :=
  let url := candles_url symbol unit count in
  try_except
    match session url with
    | GetRaises e => Raise e
    | Response status json =>
        if status =? 200 then
          data ← json;
          if truthy data then Ok data else Ok PyNone
        else Ok PyNone
    end
    [ (is_ClientError, fun _ => Ok PyNone);
      (is_TimeoutError, fun _ => Ok PyNone);
      (is_Exception, fun _ => Ok PyNone) ].

Definition fetch_all_tickers (session : Session) (symbols : list string)
    (completion : list nat) : Await (list PyVal) :=
  let tasks := map (fetch_ticker session) symbols in
  gather tasks completion.

(** One entry of [tasks]: the symbol, the timeframe and the coroutine. *)
Definition Task : Type := string * Timeframe * Exc PyVal.

(** The two nested [for] loops that reset [candle_data[symbol]] and queue one
    task per timeframe. *)
Definition queue_tasks (session : Session) (symbols : list string)
    (timeframes : list Timeframe)
    : gmap string (gmap string PyVal) * list Task :=
  foldl (fun '(candle_data, tasks) symbol =>
           (<[symbol := ∅]> candle_data,
            foldl (fun tasks timeframe =>
                     tasks ++ [(symbol, timeframe,
                                fetch_candles session symbol
                                  (unit timeframe) (count timeframe))])
                  tasks timeframes))
        (∅, []) symbols.

(** [candle_data[symbol][timeframe["name"]] = results[i]] *)
Definition assign_result (results : list PyVal)
    (candle_data : gmap string (gmap string PyVal)) (entry : nat * Task)
    : Exc (gmap string (gmap string PyVal)) :=
  let '(i, (symbol, timeframe, _)) := entry in
  match results !! i with
  | None => Raise IndexError
  | Some result =>
      match candle_data !! symbol with
      | None => Raise KeyError
      | Some inner => Ok (<[symbol := <[name timeframe := result]> inner]> candle_data)
      end
  end.

Definition fetch_all_candles (session : Session) (symbols : list string)
    (timeframes : list Timeframe) (completion : list nat)
    : Await (gmap string (gmap string PyVal)) :=
  let '(candle_data, tasks) := queue_tasks session symbols timeframes in
  match gather (map (fun task : Task => task.2) tasks) completion with
  | Pending => Pending
  | Done (Raise e) => Done (Raise e)
  | Done (Ok results) =>
      Done (for_each (assign_result results) (imap pair tasks) candle_data)
  end.

Definition create_table (DEFAULT_GRAPH_COLUMNS : list Column)
    (now : string) (tickers : list PyVal) (table_title : string) : Exc Table :=
  let table := new_table (table_title +:+ " - " +:+ now) in
  let table := add_columns table DEFAULT_GRAPH_COLUMNS in
  for_each Upbit.add_ticker tickers table.

(** What [plotille.Figure] is given before [fig.show(legend=True)] draws
    it; the drawing itself belongs to the library. *)
Record Figure : Type := mkFigure {
  fig_width : Z;
  fig_height : Z;
  x_label : string;
  y_label : string;
  fig_title : string;
  plot_xs : list nat;
  plot_ys : list PyVal
}.

(** The body of a panel: plain text, or the drawing of a figure. *)
Inductive Content : Type :=
  | Text (s : string)
  | Chart (fig : Figure).

Definition NO_DATA : string := "데이터 없음".

Definition create_plotille_line_chart (prices : list PyVal) (width height : Z)
    : Content :=
  match prices with
  | [] => Text NO_DATA
  | _ =>
      Chart (mkFigure width height "Time" "Price" "Price Chart"
               (seq 0 (length prices)) prices)
  end.

Record Panel : Type := mkPanel {
  panel_title : string;
  panel_content : Content;
  border_style : string
}.

(** [[candle["trade_price"] for candle in reversed(candles)]] *)
Fixpoint closing_prices_of (reversed_candles : list PyVal) : Exc (list PyVal) :=
  match reversed_candles with
  | [] => Ok []
  | candle :: rest =>
      price ← py_getitem_str candle "trade_price";
      prices ← closing_prices_of rest;
      Ok (price :: prices)
  end.

Definition closing_prices (candles : PyVal) : Exc (list PyVal) :=
  reversed_candles ← py_reversed candles;
  closing_prices_of reversed_candles.

Definition create_plot_graph_panel (symbol timeframe : string)
    (candles : PyVal) (width height : Z) : Exc Panel :=
  content ←
    match candles with
    | PyNone => Ok (Text NO_DATA)
    | _ =>
        closing_prices ← closing_prices candles;
        Ok (create_plotille_line_chart closing_prices width height)
    end;
  let title := symbol +:+ " - " +:+ timeframe in
  Ok (mkPanel title content "blue").

End Graph.

(** ** Vocabulary of the statements *)

(** No request of the cycle is cut short by an interpreter-level signal
    (task cancellation, keyboard interrupt, exit): whatever a request
    raises is an instance of [Exception]. *)
Definition uninterrupted (outcome : HttpOutcome) : Prop :=
  match outcome with
  | GetRaises e => is_Exception e = true
  | Response _ (Raise e) => is_Exception e = true
  | Response _ (Ok _) => True
  end.

(** The failure classes of a fetch. *)
Inductive FetchFailure : HttpOutcome -> Prop :=
  | transportError : FetchFailure (GetRaises ClientError)
  | transportTimeout : FetchFailure (GetRaises TimeoutError)
  | upstreamError status json : status <> 200 -> FetchFailure (Response status json)
  | emptyResult data : truthy data = false -> FetchFailure (Response 200 (Ok data))
  | unexpectedError e : is_Exception e = true -> FetchFailure (GetRaises e)
  | unexpectedPayloadError e :
      is_Exception e = true -> FetchFailure (Response 200 (Raise e)).

(** The failures of [fetch_ticker]: those of any fetch, and a payload of
    status 200 that is not empty but has no element 0 ([data[0]] raises: an
    object, a number). *)
Inductive TickerFailure : HttpOutcome -> Prop :=
  | fetchFailure outcome : FetchFailure outcome -> TickerFailure outcome
  | unexpectedIndexError data e :
      truthy data = true -> py_getitem_int data 0 = Raise e ->
      TickerFailure (Response 200 (Ok data)).

(** The text of the cell in row [i], column [j]. *)
Definition cell (table : Table) (i j : nat) : option string :=
  rows table !! i ≫= fun row => row !! j.

(** [renders create ticker j text]: in every table that [create] builds,
    the row of [ticker] shows [text] in column [j]. *)
Definition renders (create : list PyVal -> Exc Table) (ticker : PyVal)
    (j : nat) (text : string) : Prop :=
  forall tickers i table,
    tickers !! i = Some ticker ->
    create tickers = Ok table ->
    cell table i j = Some text.

(** [tabulates create ok ticker j text]: from every list of tickers that
    all satisfy [ok], [create] builds a table, and the row of [ticker] shows
    [text] in column [j]. *)
Definition tabulates (create : list PyVal -> Exc Table) (ok : PyVal -> bool)
    (ticker : PyVal) (j : nat) (text : string) : Prop :=
  forall tickers i,
    Forall (fun t => ok t = true) tickers ->
    tickers !! i = Some ticker ->
    exists table, create tickers = Ok table /\ cell table i j = Some text.

(** The statements of the Upbit loop body that compute one cell each. *)
Module UpbitCell.

Definition change (ticker : PyVal) : Exc string :=
  rate ← py_get ticker "signed_change_rate" (PyFloat B64.zero);
  change_rate ← py_mul_int rate 100;
  Upbit.change_display change_rate.

Definition price (ticker : PyVal) : Exc string :=
  trade_price ← py_get ticker "trade_price" (PyStr "N/A");
  Upbit.krw_str trade_price.

Definition volume (ticker : PyVal) : Exc string :=
  trade_volume ← py_get ticker "trade_volume" (PyInt 0);
  Upbit.volume_str trade_volume.

Definition high (ticker : PyVal) : Exc string :=
  high_price ← py_get ticker "high_price" (PyStr "N/A");
  Upbit.krw_str high_price.

Definition low (ticker : PyVal) : Exc string :=
  low_price ← py_get ticker "low_price" (PyStr "N/A");
  Upbit.krw_str low_price.

End UpbitCell.

(** The same for the stock table. *)
Module StockCell.

Definition change (ticker : PyVal) : Exc string :=
  change_rate ← py_get ticker "change_rate" (PyFloat B64.zero);
  PriceStock.change_display change_rate.

Definition price (key : string) (ticker : PyVal) : Exc string :=
  v ← py_get ticker key (PyStr "N/A");
  PriceStock.price_str v.

Definition volume (ticker : PyVal) : Exc string :=
  volume ← py_get ticker "volume" (PyInt 0);
  PriceStock.volume_str volume.

End StockCell.

(** A candle that carries the closing price [price]. *)
Definition candle_closing (candle price : PyVal) : Prop :=
  exists d, candle = PyDict d /\ d !! "trade_price" = Some price.

(** The candles of closing prices 110, 95, 105, 100, newest first. *)
Definition demo_candles : list PyVal :=
  [ PyDict {[ "trade_price" := PyInt 110 ]};
    PyDict {[ "trade_price" := PyInt 95 ]};
    PyDict {[ "trade_price" := PyInt 105 ]};
    PyDict {[ "trade_price" := PyInt 100 ]} ].

(** What a change rate computed with a zero or a NaN divisor is displayed
    as. *)
Definition non_finite_displays : list string :=
  [ "[green dim]inf%[/green dim]"; "[red dim]-inf%[/red dim]";
    "[red dim]nan%[/red dim]" ].

(** A one-day history whose bar opened at zero and closed at five. *)
Definition zero_open_history : PriceStock.History := fun _ =>
  Ok [ {[ "Open" := B64.zero; "Close" := B64.of_Z 5; "High" := B64.of_Z 6;
          "Low" := B64.of_Z 4; "Volume" := B64.of_Z 1000 ]} ].

(** The default timeframes of the configuration, and a session in which
    every request is refused. *)
Definition demo_timeframes : list Graph.Timeframe :=
  [ Graph.mkTimeframe "1H" 60 60; Graph.mkTimeframe "15M" 15 60;
    Graph.mkTimeframe "5M" 5 60 ].

Definition failing_session : Session := fun _ => GetRaises ClientError.

(** *** Records a table can present *)

(** A number the fixed-point formats accept: a float, a [bool], or an [int]
    within the range of a double. *)
Definition formattable (v : PyVal) : bool :=
  match v with
  | PyFloat _ | PyBool _ => true
  | PyInt n => B64.is_finite (B64.of_Z n)
  | _ => false
  end.

Definition missing_or_non_numeric (field : option PyVal) : bool :=
  match field with
  | None => true
  | Some v => negb (isinstance_int_float v)
  end.

Definition non_numeric (field : option PyVal) : bool :=
  match field with
  | None => false
  | Some v => negb (isinstance_int_float v)
  end.

(** A field behind an [isinstance] guard: anything but an [int] too large
    for a double. *)
Definition guarded (field : option PyVal) : bool :=
  missing_or_non_numeric field || from_option formattable false field.

(** The symbol cell goes to the renderer as it is. *)
Definition renderable (field : option PyVal) : bool :=
  match field with
  | None | Some PyNone | Some (PyStr _) => true
  | Some _ => false
  end.

(** The change rate of an Upbit record: absent, or a number whose
    hundredfold can be formatted. *)
Definition upbit_rate_ok (field : option PyVal) : bool :=
  match field with
  | None | Some (PyFloat _) | Some (PyBool _) => true
  | Some (PyInt n) => B64.is_finite (B64.of_Z (n * 100))
  | Some _ => false
  end.

Definition upbit_presentable (ticker : PyVal) : bool :=
  match ticker with
  | PyNone => true
  | PyDict d =>
      renderable (d !! "market") && upbit_rate_ok (d !! "signed_change_rate")
      && guarded (d !! "trade_price") && guarded (d !! "trade_volume")
      && guarded (d !! "high_price") && guarded (d !! "low_price")
  | _ => false
  end.

Definition stock_presentable (ticker : PyVal) : bool :=
  match ticker with
  | PyNone => true
  | PyDict d =>
      renderable (d !! "symbol")
      && from_option formattable true (d !! "change_rate")
      && guarded (d !! "yesterday") && guarded (d !! "today")
      && guarded (d !! "volume") && guarded (d !! "high") && guarded (d !! "low")
  | _ => false
  end.

(** What the row of an Upbit ticker shows. *)
Definition upbit_row_shows (ticker : PyVal) (row : list string) : Prop :=
  match ticker with
  | PyDict d =>
      if truthy ticker then
        length row = 6%nat /\
        (missing_or_non_numeric (d !! "trade_price") = true -> row !! 1%nat = Some "N/A") /\
        (d !! "signed_change_rate" = None ->
         row !! 2%nat = Some "[green dim]0.00%[/green dim]") /\
        (non_numeric (d !! "trade_volume") = true -> row !! 3%nat = Some "N/A") /\
        (d !! "trade_volume" = None -> row !! 3%nat = Some "0.00") /\
        (missing_or_non_numeric (d !! "high_price") = true -> row !! 4%nat = Some "N/A") /\
        (missing_or_non_numeric (d !! "low_price") = true -> row !! 5%nat = Some "N/A")
      else row = replicate 6 "N/A"
  | _ => row = replicate 6 "N/A"
  end.

(** What the row of a stock ticker shows. *)
Definition stock_row_shows (ticker : PyVal) (row : list string) : Prop :=
  match ticker with
  | PyDict d =>
      if truthy ticker then
        length row = 7%nat /\
        (missing_or_non_numeric (d !! "yesterday") = true -> row !! 1%nat = Some "N/A") /\
        (missing_or_non_numeric (d !! "today") = true -> row !! 2%nat = Some "N/A") /\
        (d !! "change_rate" = None ->
         row !! 3%nat = Some "[green dim]0.00%[/green dim]") /\
        (non_numeric (d !! "volume") = true -> row !! 4%nat = Some "N/A") /\
        (d !! "volume" = None -> row !! 4%nat = Some "0") /\
        (missing_or_non_numeric (d !! "high") = true -> row !! 5%nat = Some "N/A") /\
        (missing_or_non_numeric (d !! "low") = true -> row !! 6%nat = Some "N/A")
      else row = replicate 7 "N/A"
  | _ => row = replicate 7 "N/A"
  end.

(** The queue of [fetch_all_candles] in closed form: one task per symbol
    and timeframe, symbol by symbol; and the mapping once every symbol has
    been given an empty inner mapping. *)
Definition candle_task (session : Session) (symbol : string)
    (timeframe : Graph.Timeframe) : Graph.Task :=
  (symbol, timeframe,
   Graph.fetch_candles session symbol (Graph.unit timeframe) (Graph.count timeframe)).

Definition candle_tasks (session : Session) (timeframes : list Graph.Timeframe)
    (symbols : list string) : list Graph.Task :=
  symbols ≫= fun symbol => candle_task session symbol <$> timeframes.

Definition reset_candles (candle_data : gmap string (gmap string PyVal))
    (symbols : list string) : gmap string (gmap string PyVal) :=
  foldl (fun candle_data symbol => <[symbol := ∅]> candle_data) candle_data symbols.

(** A session for the examples: one market answers, every other request
    times out. *)
Definition demo_session : Session := fun url =>
  if String.eqb url (Upbit.ticker_url "KRW-BTC")
  then Response 200 (Ok (PyList [PyDict {[ "market" := PyStr "KRW-BTC" ]}]))
  else GetRaises TimeoutError.

(** ** The rest of graph.py: panels, layout, command line *)
Module GraphView.

(** [candle_data.items()] with each [timeframes.items()]: a dict is iterated
    in the order its keys were first inserted, and [create_graphs] only
    iterates, so the mapping is given as its items. *)
Definition Items : Type := list (string * list (string * PyVal)).

Definition create_graphs (candle_data : Items) : Exc (list Graph.Panel) :=
  for_each
    (fun panels '(symbol, timeframes) =>
       for_each
         (fun panels '(timeframe, candles) =>
            panel ← Graph.create_plot_graph_panel symbol timeframe candles 60 20;
            Ok (panels ++ [panel]))
         timeframes panels)
    candle_data [].

(** [rich.layout.Layout]: a renderable, and the sub-layouts of its last
    split.  [split_row] and [split_column] replace the sub-layouts a layout
    had. *)
Inductive Splitter : Type := ColumnSplitter | RowSplitter.

Inductive Layout : Type :=
  | mkLayout (renderable : option Graph.Panel) (splitter : Splitter)
      (children : list Layout).

Definition new_layout (renderable : option Graph.Panel) : Layout :=
  mkLayout renderable ColumnSplitter [].

Definition children (self : Layout) : list Layout :=
  match self with mkLayout _ _ children => children end.

Definition split_column (self : Layout) (layouts : list Layout) : Layout :=
  match self with mkLayout r _ _ => mkLayout r ColumnSplitter layouts end.

Definition split_row (self : Layout) (layouts : list Layout) : Layout :=
  match self with mkLayout r _ _ => mkLayout r RowSplitter layouts end.

(** [range(0, stop, step)] for a step that is not negative. *)
Definition py_range (stop step : nat) : Exc (list nat) :=
  match step with
  | O => Raise ValueError
  | _ => Ok (map (fun j => (j * step)%nat) (seq 0 ((stop + step - 1) / step)))
  end.

Definition columns_per_row : nat := 1.

(** Lines 303-316 of [run_dashboard]: the panels are cut into rows, and
    the rows are put into [graph_layout] one after the other. *)
Definition arrange_graphs (graphs : list Graph.Panel) : Exc Layout :=
  starts ← py_range (length graphs) columns_per_row;
  let graph_columns :=
    map (fun i => take columns_per_row (drop i graphs)) starts in
  Ok (foldl
        (fun graph_layout graph_row =>
           let graph_layout_split :=
             foldl (fun graph_layout_split panel =>
                      split_column graph_layout_split [new_layout (Some panel)])
                   (new_layout None) graph_row in
           split_row graph_layout (children graph_layout_split))
        (new_layout None) graph_columns).

(** [text.split(sep)] for a separator of one character. *)
Fixpoint split_on (sep : ascii) (text : string) : list string :=
  match text with
  | EmptyString => [EmptyString]
  | String c rest =>
      if Ascii.eqb c sep then EmptyString :: split_on sep rest
      else
        match split_on sep rest with
        | [] => [String c EmptyString]
        | field :: fields => String c field :: fields
        end
  end.

Definition is_ValueError (e : PyExc) : bool :=
  match e with ValueError => true | _ => false end.

Section Cli.
(** [int(text)] for a [str]: the integer, or [None] where [int] raises
    [ValueError]. *)
Variable py_int : string -> option Z.

(** [name, unit, count = tf.split(":")] and the dict of line 378. *)
Definition parse_timeframe (tf : string) : Exc Graph.Timeframe :=
  match split_on ":" tf with
  | [name; unit; count] =>
      match py_int unit with
      | None => Raise ValueError
      | Some unit =>
          match py_int count with
          | None => Raise ValueError
          | Some count => Ok (Graph.mkTimeframe name unit count)
          end
      end
  | _ => Raise ValueError
  end.

(** Lines 373-384 of [cli]: the timeframes of the command line;
    [sys.exit(1)] raises [SystemExit]. *)
Definition cli_timeframes (timeframe : list string) : Exc (list Graph.Timeframe) :=
  for_each
    (fun selected_timeframes tf =>
       try_except
         (parsed ← parse_timeframe tf; Ok (selected_timeframes ++ [parsed]))
         [ (is_ValueError, fun _ => Raise SystemExit) ])
    timeframe [].
End Cli.

End GraphView.

(** ** The loop of price.py *)
Module PriceLoop.

(** What one turn of the loop meets: the answers of the upstream, the
    order in which the fetches complete, and the clock. *)
Record Cycle : Type := mkCycle {
  session : Session;
  completion : list nat;
  now : string
}.

Inductive Event : Type :=
  | LiveUpdate (table : Table)
  | Sleep (seconds : Z).

(** Where the loop is after the cycles it was given: about to start the
    next one, waiting for a fetch that has not completed, or left by an
    exception. *)
Inductive Run : Type :=
  | Looping
  | Waiting
  | Escaped (e : PyExc).

Section Main.
Variable DEFAULT_PRICE_SYMBOLS : list string.
Variable DEFAULT_PRICE_UPDATE_INTERVAL : Z.
Variable DEFAULT_PRICE_TABLE_TITLE : string.
Variable DEFAULT_PRICE_COLUMNS : list Column.

(** The body of [while True], up to [live.update]. *)
Definition cycle_table (c : Cycle) : Await Table :=
  match Price.fetch_all_tickers (session c) DEFAULT_PRICE_SYMBOLS (completion c) with
  | Pending => Pending
  | Done (Raise e) => Done (Raise e)
  | Done (Ok tickers_data) =>
      Done (Price.create_table DEFAULT_PRICE_TABLE_TITLE DEFAULT_PRICE_COLUMNS
              (now c) tickers_data)
  end.

Fixpoint main (cycles : list Cycle) : list Event * Run :=
  match cycles with
  | [] => ([], Looping)
  | c :: later =>
      match cycle_table c with
      | Pending => ([], Waiting)
      | Done (Raise e) => ([], Escaped e)
      | Done (Ok table) =>
          let '(events, run) := main later in
          (LiveUpdate table :: Sleep DEFAULT_PRICE_UPDATE_INTERVAL :: events, run)
      end
  end.
End Main.

End PriceLoop.

(** *** Vocabulary of the further statements *)

(** The five columns of the last row of a frame, when it has them all. *)
Definition last_bar (data : PriceStock.DataFrame)
    : option (spec_float * spec_float * spec_float * spec_float * spec_float) :=
  row ← last data;
  o ← row !! "Open"; c ← row !! "Close"; h ← row !! "High"; l ← row !! "Low";
  v ← row !! "Volume";
  Some (o, c, h, l, v).

(** The record [fetch_ticker] of the stock variant builds from a bar. *)
Definition stock_record (symbol : string)
    (bar : spec_float * spec_float * spec_float * spec_float * spec_float) : PyVal :=
  let '(o, c, h, l, v) := bar in
  PyDict (list_to_map
    [ ("symbol", PyStr symbol); ("yesterday", PyFloat o); ("today", PyFloat c);
      ("change_rate",
       PyFloat (B64.mul (B64.div (B64.sub c o) o) (B64.of_Z 100)));
      ("volume", PyFloat v); ("high", PyFloat h); ("low", PyFloat l) ]).

(** The history call of a symbol is not cut short by an interpreter-level
    signal. *)
Definition history_uninterrupted (outcome : Exc PriceStock.DataFrame) : Prop :=
  match outcome with
  | Ok _ => True
  | Raise e => is_Exception e = true
  end.

(** The pairs of [create_graphs] in the order it visits them. *)
Definition pairs_of (candle_data : GraphView.Items) : list (string * string * PyVal) :=
  candle_data ≫= fun '(symbol, timeframes) =>
    (fun '(timeframe, candles) => (symbol, timeframe, candles)) <$> timeframes.

(** What [create_graphs] makes of one pair of its iteration. *)
Definition panel_of (pair : string * string * PyVal) : Exc Graph.Panel :=
  let '(symbol, timeframe, candles) := pair in
  Graph.create_plot_graph_panel symbol timeframe candles 60 20.

(** The table columns the configuration asks for. *)
Definition configured_columns (cols : list Column) : list (string * string * string) :=
  (fun column => (col_name column, default "dim" (col_style column),
                  default "left" (col_justify column))) <$> cols.

(** ** config.py, and the settings [cli] selects *)
Module Config.

Definition is_named (name : string) (e : PyExc) : bool :=
  match e with
  | OtherException name' => String.eqb name' name
  | _ => false
  end.

(** [load_config]: [opened] is what [open(config_path, "r")] gives, the
    text of the file or the exception it raises; [safe_load] is
    [yaml.safe_load].  [sys.exit(1)] raises [SystemExit]. *)
Definition load_config (opened : Exc string) (safe_load : string -> Exc PyVal)
    : Exc PyVal :=
  try_except
    (file ← opened;
     config ← safe_load file;
     Ok config)
    [ (is_named "FileNotFoundError", fun _ => Raise SystemExit);
      (is_named "YAMLError", fun _ => Raise SystemExit);
      (is_Exception, fun _ => Raise SystemExit) ].

(** The dict of graph.py line 378. *)
Definition timeframe_dict (tf : Graph.Timeframe) : PyVal :=
  PyDict (list_to_map [ ("name", PyStr (Graph.name tf));
                        ("unit", PyInt (Graph.unit tf));
                        ("count", PyInt (Graph.count tf)) ]).

Record Selection : Type := mkSelection {
  selected_symbols : PyVal;
  selected_timeframes : PyVal;
  selected_update_interval : PyVal;
  selected_table_title : PyVal
}.

Section Cli.
Variable py_int : string -> option Z.
Variable DEFAULT_GRAPH_SYMBOLS : PyVal.
Variable DEFAULT_GRAPH_TIMEFRAMES : PyVal.
Variable DEFAULT_GRAPH_UPDATE_INTERVAL : PyVal.
Variable DEFAULT_GRAPH_TABLE_TITLE : PyVal.

(** [cli], graph.py lines 363-397, from the loaded [config_data] on. *)
Definition cli_select (config_data : PyVal) (symbols timeframe : list string)
    (update_interval : option Z) : Exc Selection :=
  selected_symbols ←
    match symbols with
    | [] => py_get config_data "symbols" DEFAULT_GRAPH_SYMBOLS
    | _ => Ok (PyList (PyStr <$> symbols))
    end;
  selected_timeframes ←
    match timeframe with
    | [] => py_get config_data "timeframes" DEFAULT_GRAPH_TIMEFRAMES
    | _ =>
        parsed ← GraphView.cli_timeframes py_int timeframe;
        Ok (PyList (timeframe_dict <$> parsed))
    end;
  selected_update_interval ←
    match update_interval with
    | Some seconds => Ok (PyInt seconds)
    | None => py_get config_data "update_interval" DEFAULT_GRAPH_UPDATE_INTERVAL
    end;
  selected_table_title ←
    py_get config_data "table_title" DEFAULT_GRAPH_TABLE_TITLE;
  Ok (mkSelection selected_symbols selected_timeframes selected_update_interval
        selected_table_title).
End Cli.

End Config.

(** * Properties *)

(** ** The error monad *)

Lemma bind_Ok_inv {A B} (m : Exc A) (k : A -> Exc B) (b : B) :
  m ≫= k = Ok b -> exists a, m = Ok a /\ k a = Ok b.
Proof. destruct m as [a|e]; simpl; [eauto | discriminate]. Qed.

Lemma bind_Ok {A B} (m : Exc A) (k : A -> Exc B) (a : A) :
  m = Ok a -> m ≫= k = k a.
Proof. intros ->. reflexivity. Qed.

(** Peel the successful binds of a hypothesis [H : ... = Ok _]. *)
Ltac exc_inv H :=
  repeat match type of H with
  | _ ≫= _ = Ok _ =>
      let a := fresh "a" in
      let Ha := fresh "Ha" in
      apply bind_Ok_inv in H; destruct H as (a & Ha & H)
  end.

(** A [try] whose last clause is [except Exception] with a handler that
    returns lets only the non-[Exception] classes out. *)
Lemma try_except_Exception {A} (body : Exc A) handlers (h : PyExc -> A) :
  Forall (fun ch => forall e, ch.2 e = Ok (h e)) handlers ->
  match try_except body (handlers ++ [(is_Exception, fun e => Ok (h e))]) with
  | Ok _ => True
  | Raise e => body = Raise e /\ is_Exception e = false
  end.
Proof.
  intros Hh. destruct body as [a|e]; simpl; [destruct handlers; exact I|].
  induction Hh as [|[cls hd] rest Hhd _ IH]; simpl.
  - destruct (is_Exception e) eqn:He; [exact I | auto].
  - destruct (cls e); [rewrite Hhd; exact I | exact IH].
Qed.

(** ** [gather]: the slots do not depend on the completion order *)

Section Gather.
Context {A : Type}.
Implicit Types (values : list A) (slots : list (option A)) (completion : list nat).

Lemma run_tasks_values values completion slots :
  length slots = length values ->
  exists slots',
    run_tasks (Ok <$> values) completion slots = Ok slots' /\
    length slots' = length values /\
    forall j, slots' !! j =
      if decide (j ∈ completion) then Some <$> values !! j else slots !! j.
Proof.
  revert slots.
  induction completion as [|i later IH]; intros slots Hlen; cbn [run_tasks].
  - exists slots. split; [done|]. split; [done|]. intros j.
    case_decide as Hj; [by apply elem_of_nil in Hj | done].
  - rewrite list_lookup_fmap.
    destruct (values !! i) as [a|] eqn:Hi; cbn [fmap option_fmap option_map].
    + destruct (IH (<[i := Some a]> slots)) as (slots' & Hrun & Hlen' & Hlook).
      { by rewrite length_insert. }
      exists slots'. split; [done|]. split; [done|]. intros j.
      rewrite Hlook. destruct (decide (j = i)) as [->|Hne].
      * rewrite Hi. simpl. rewrite (decide_True (P := i ∈ i :: later)) by left.
        case_decide; [done|].
        apply list_lookup_insert_eq. rewrite Hlen. by eapply lookup_lt_Some.
      * rewrite list_lookup_insert_ne by done.
        destruct (decide (j ∈ later)) as [Hin|Hin].
        -- rewrite decide_True by (by right). done.
        -- rewrite decide_False; [done|]. by intros [?|?]%elem_of_cons.
    + destruct (IH slots Hlen) as (slots' & Hrun & Hlen' & Hlook).
      exists slots'. split; [done|]. split; [done|]. intros j.
      rewrite Hlook. destruct (decide (j = i)) as [->|Hne].
      * rewrite Hi. simpl. rewrite (decide_True (P := i ∈ i :: later)) by left.
        case_decide; [done|].
        apply lookup_ge_None. rewrite Hlen. by apply lookup_ge_None.
      * destruct (decide (j ∈ later)) as [Hin|Hin].
        -- rewrite decide_True by (by right). done.
        -- rewrite decide_False; [done|]. by intros [?|?]%elem_of_cons.
Qed.

Lemma all_filled_Some values : all_filled (Some <$> values) = Some values.
Proof.
  induction values as [|a values IH]; [done|].
  rewrite fmap_cons. cbn [all_filled]. by rewrite IH.
Qed.

(** Every task returns and every task completes: the result lists the
    values in task order, whatever the completion order. *)
Lemma gather_values values completion :
  (forall i, (i < length values)%nat -> i ∈ completion) ->
  gather (Ok <$> values) completion = Done (Ok values).
Proof.
  intros Hall. unfold gather.
  destruct (run_tasks_values values completion
              (replicate (length (Ok <$> values)) None))
    as (slots' & -> & Hlen & Hlook).
  { by rewrite length_replicate, length_fmap. }
  assert (slots' = Some <$> values) as ->.
  { apply list_eq. intros j. rewrite Hlook, list_lookup_fmap.
    case_decide as Hj; [done|].
    destruct (values !! j) eqn:Hv.
    - exfalso. apply Hj, Hall. by eapply lookup_lt_Some.
    - simpl. apply lookup_replicate_None. rewrite length_fmap.
      apply lookup_ge_None in Hv. lia. }
  by rewrite all_filled_Some.
Qed.

Lemma gather_values_perm values completion :
  completion ≡ₚ seq 0 (length values) ->
  gather (Ok <$> values) completion = Done (Ok values).
Proof.
  intros Hperm. apply gather_values. intros i Hi.
  rewrite Hperm. apply elem_of_seq. lia.
Qed.
End Gather.

(** ** The fetchers *)

Lemma py_getitem_int_raises v i e :
  py_getitem_int v i = Raise e -> is_Exception e = true.
Proof.
  destruct v as [| | | | s |l|d]; simpl; try (intros [= <-]; reflexivity).
  - destruct (String.get i s); [discriminate | intros [= <-]; reflexivity].
  - destruct (l !! i); [discriminate | intros [= <-]; reflexivity].
Qed.

Lemma fetch_ticker_escapes session symbol :
  match Upbit.fetch_ticker session symbol with
  | Ok _ => True
  | Raise e => is_Exception e = false /\ ~ uninterrupted (session (Upbit.ticker_url symbol))
  end.
Proof.
  unfold Upbit.fetch_ticker.
  match goal with |- context [try_except ?b _] => set (body := b) end.
  pose proof (try_except_Exception body
    [ (is_ClientError, fun _ => Ok PyNone); (is_TimeoutError, fun _ => Ok PyNone) ]
    (fun _ => PyNone)) as Htry.
  cbn [app] in Htry.
  destruct (try_except body _) as [v|e]; [exact I|].
  destruct Htry as [Hbody He]; [repeat constructor|].
  split; [exact He|]. intros Hun. subst body.
  destruct (session (Upbit.ticker_url symbol)) as [e'|status [data|e']]; simpl in *.
  - injection Hbody as ->. congruence.
  - destruct (status =? 200); [|discriminate]. simpl in Hbody.
    destruct (truthy data); [|discriminate].
    apply py_getitem_int_raises in Hbody. congruence.
  - destruct (status =? 200); [|discriminate]. simpl in Hbody.
    injection Hbody as ->. congruence.
Qed.

Lemma fetch_candles_escapes session symbol unit count :
  match Graph.fetch_candles session symbol unit count with
  | Ok _ => True
  | Raise e =>
      is_Exception e = false /\
      ~ uninterrupted (session (Graph.candles_url symbol unit count))
  end.
Proof.
  unfold Graph.fetch_candles.
  match goal with |- context [try_except ?b _] => set (body := b) end.
  pose proof (try_except_Exception body
    [ (is_ClientError, fun _ => Ok PyNone); (is_TimeoutError, fun _ => Ok PyNone) ]
    (fun _ => PyNone)) as Htry.
  cbn [app] in Htry.
  destruct (try_except body _) as [v|e]; [exact I|].
  destruct Htry as [Hbody He]; [repeat constructor|].
  split; [exact He|]. intros Hun. subst body.
  destruct (session (Graph.candles_url symbol unit count))
    as [e'|status [data|e']]; simpl in *.
  - injection Hbody as ->. congruence.
  - destruct (status =? 200); [|discriminate]. simpl in Hbody.
    destruct (truthy data); discriminate.
  - destruct (status =? 200); [|discriminate]. simpl in Hbody.
    injection Hbody as ->. congruence.
Qed.

Lemma fetch_ticker_returns session symbol :
  uninterrupted (session (Upbit.ticker_url symbol)) ->
  exists v, Upbit.fetch_ticker session symbol = Ok v.
Proof.
  intros Hun. pose proof (fetch_ticker_escapes session symbol) as H.
  destruct (Upbit.fetch_ticker session symbol) as [v|e]; [eauto|].
  by destruct H as [_ []].
Qed.

Lemma fetch_candles_returns session symbol unit count :
  uninterrupted (session (Graph.candles_url symbol unit count)) ->
  exists v, Graph.fetch_candles session symbol unit count = Ok v.
Proof.
  intros Hun. pose proof (fetch_candles_escapes session symbol unit count) as H.
  destruct (Graph.fetch_candles session symbol unit count) as [v|e]; [eauto|].
  by destruct H as [_ []].
Qed.

Lemma handlers_catch {A} (e : PyExc) (a : A) :
  is_Exception e = true ->
  try_except (Raise e)
    [ (is_ClientError, fun _ => Ok a);
      (is_TimeoutError, fun _ => Ok a);
      (is_Exception, fun _ => Ok a) ] = Ok a.
Proof.
  intros He. simpl.
  destruct (is_ClientError e); [done|].
  destruct (is_TimeoutError e); [done|]. by rewrite He.
Qed.

Lemma fetch_ticker_failure session symbol :
  FetchFailure (session (Upbit.ticker_url symbol)) ->
  Upbit.fetch_ticker session symbol = Ok PyNone.
Proof.
  unfold Upbit.fetch_ticker. cbv zeta.
  inversion 1 as [Ho|Ho|status json Hst Ho|data Hd Ho|e He Ho|e He Ho].
  - reflexivity.
  - reflexivity.
  - apply Z.eqb_neq in Hst. rewrite Hst. reflexivity.
  - simpl. rewrite Hd. reflexivity.
  - by apply handlers_catch.
  - by apply handlers_catch.
Qed.

Lemma fetch_candles_failure session symbol unit count :
  FetchFailure (session (Graph.candles_url symbol unit count)) ->
  Graph.fetch_candles session symbol unit count = Ok PyNone.
Proof.
  unfold Graph.fetch_candles. cbv zeta.
  inversion 1 as [Ho|Ho|status json Hst Ho|data Hd Ho|e He Ho|e He Ho].
  - reflexivity.
  - reflexivity.
  - apply Z.eqb_neq in Hst. rewrite Hst. reflexivity.
  - simpl. rewrite Hd. reflexivity.
  - by apply handlers_catch.
  - by apply handlers_catch.
Qed.

Lemma fetch_ticker_index_failure session symbol :
  TickerFailure (session (Upbit.ticker_url symbol)) ->
  Upbit.fetch_ticker session symbol = Ok PyNone.
Proof.
  inversion 1 as [outcome Hfail Ho|data e Htruthy Hindex Ho];
    [by apply fetch_ticker_failure|].
  unfold Upbit.fetch_ticker. cbv zeta. rewrite <- Ho.
  cbn [Z.eqb Pos.eqb mbind Exc_bind]. rewrite Htruthy, Hindex.
  apply handlers_catch. by eapply py_getitem_int_raises.
Qed.

Lemma ticker_outcome_cases session symbol :
  uninterrupted (session (Upbit.ticker_url symbol)) ->
  TickerFailure (session (Upbit.ticker_url symbol)) \/
  exists data v,
    session (Upbit.ticker_url symbol) = Response 200 (Ok data) /\
    truthy data = true /\ py_getitem_int data 0 = Ok v /\
    Upbit.fetch_ticker session symbol = Ok v.
Proof.
  unfold Upbit.fetch_ticker. cbv zeta.
  destruct (session (Upbit.ticker_url symbol)) as [e|status [data|e]];
    cbn [uninterrupted]; intros Hun.
  - left. by apply fetchFailure, unexpectedError.
  - destruct (Z.eqb_spec status 200) as [->|Hst];
      [|left; by apply fetchFailure, upstreamError].
    destruct (truthy data) eqn:Htruthy;
      [|left; by apply fetchFailure, emptyResult].
    destruct (py_getitem_int data 0) as [v|e] eqn:Hindex.
    + right. exists data, v. repeat split; try done.
      cbn [mbind Exc_bind]. by rewrite Htruthy, Hindex.
    + left. by eapply unexpectedIndexError.
  - destruct (Z.eqb_spec status 200) as [->|Hst];
      left; apply fetchFailure;
      [by apply unexpectedPayloadError | by apply upstreamError].
Qed.

Lemma candles_outcome_cases session symbol unit count :
  uninterrupted (session (Graph.candles_url symbol unit count)) ->
  FetchFailure (session (Graph.candles_url symbol unit count)) \/
  exists data,
    session (Graph.candles_url symbol unit count) = Response 200 (Ok data) /\
    truthy data = true /\
    Graph.fetch_candles session symbol unit count = Ok data.
Proof.
  unfold Graph.fetch_candles. cbv zeta.
  destruct (session (Graph.candles_url symbol unit count))
    as [e|status [data|e]]; cbn [uninterrupted]; intros Hun.
  - left. by apply unexpectedError.
  - destruct (Z.eqb_spec status 200) as [->|Hst];
      [|left; by apply upstreamError].
    destruct (truthy data) eqn:Htruthy; [|left; by apply emptyResult].
    right. exists data. repeat split; try done.
    cbn [mbind Exc_bind]. by rewrite Htruthy.
  - destruct (Z.eqb_spec status 200) as [->|Hst]; left;
      [by apply unexpectedPayloadError | by apply upstreamError].
Qed.

(** C7: every failure of a fetch - a transport error, a timeout, a status
    other than 200, an empty payload, or any other [Exception] raised on the
    way, that of [data[0]] on a payload without an element 0 included -
    makes [fetch_ticker] and [fetch_candles] return [None].  The failures
    are all there is besides success: a fetch that is not interrupted
    either fails in one of these ways or returns the data of a response of
    status 200.  And the only things either fetch ever lets through to its
    caller are the interpreter-level signals that are not [Exception]s. *)
Theorem fetch_failure_returns_None (session : Session) (symbol : string)
    (unit count : Z) :
  (TickerFailure (session (Upbit.ticker_url symbol)) ->
   Upbit.fetch_ticker session symbol = Ok PyNone) /\
  (FetchFailure (session (Graph.candles_url symbol unit count)) ->
   Graph.fetch_candles session symbol unit count = Ok PyNone) /\
  (uninterrupted (session (Upbit.ticker_url symbol)) ->
   TickerFailure (session (Upbit.ticker_url symbol)) \/
   exists data v,
     session (Upbit.ticker_url symbol) = Response 200 (Ok data) /\
     truthy data = true /\ py_getitem_int data 0 = Ok v /\
     Upbit.fetch_ticker session symbol = Ok v) /\
  (uninterrupted (session (Graph.candles_url symbol unit count)) ->
   FetchFailure (session (Graph.candles_url symbol unit count)) \/
   exists data,
     session (Graph.candles_url symbol unit count) = Response 200 (Ok data) /\
     truthy data = true /\
     Graph.fetch_candles session symbol unit count = Ok data) /\
  match Upbit.fetch_ticker session symbol with
  | Ok _ => True
  | Raise e => is_Exception e = false
  end /\
  match Graph.fetch_candles session symbol unit count with
  | Ok _ => True
  | Raise e => is_Exception e = false
  end.
Proof.
  split; [apply fetch_ticker_index_failure|].
  split; [apply fetch_candles_failure|].
  split; [apply ticker_outcome_cases|].
  split; [apply candles_outcome_cases|].
  pose proof (fetch_ticker_escapes session symbol) as Ht.
  pose proof (fetch_candles_escapes session symbol unit count) as Hc.
  split.
  - destruct (Upbit.fetch_ticker session symbol); [exact I | apply Ht].
  - destruct (Graph.fetch_candles session symbol unit count); [exact I | apply Hc].
Qed.

Lemma fetch_failure_returns_None_witness :
  Upbit.fetch_ticker
    (fun _ => Response 200 (Ok (PyDict {[ "error" := PyStr "not found" ]})))
    "KRW-ETH" = Ok PyNone /\
  Graph.fetch_candles demo_session "KRW-ETH" 60 60 = Ok PyNone.
Proof.
  split.
  - apply (fetch_failure_returns_None
             (fun _ => Response 200 (Ok (PyDict {[ "error" := PyStr "not found" ]})))
             "KRW-ETH" 60 60).
    apply (unexpectedIndexError _ KeyError); vm_compute; reflexivity.
  - apply (fetch_failure_returns_None demo_session "KRW-ETH" 60 60).
    exact transportTimeout.
Defined.

Lemma map_returns {A B} (f : A -> Exc B) (l : list A) :
  (forall x, x ∈ l -> exists y, f x = Ok y) ->
  exists values, map f l = Ok <$> values /\ Forall2 (fun x y => f x = Ok y) l values.
Proof.
  induction l as [|x l IH]; intros Hl.
  - exists []. split; [done | constructor].
  - destruct (Hl x) as [y Hy]; [left|].
    destruct IH as (values & Hmap & Hall).
    { intros x' Hx'. apply Hl. by right. }
    exists (y :: values). split; [|by constructor].
    cbn [map]. rewrite Hmap, Hy. reflexivity.
Qed.

(** C1: [fetch_all_tickers] (price.py and graph.py) returns a list as long
    as the symbol list whose i-th element is what [fetch_ticker] returns for
    the i-th symbol, whatever the order in which the tasks complete and
    whichever requests fail. *)
Theorem fetch_all_tickers_aligned (session : Session) (symbols : list string)
    (completion : list nat) :
  (forall symbol, symbol ∈ symbols ->
     uninterrupted (session (Upbit.ticker_url symbol))) ->
  completion ≡ₚ seq 0 (length symbols) ->
  exists results,
    Price.fetch_all_tickers session symbols completion = Done (Ok results) /\
    Graph.fetch_all_tickers session symbols completion = Done (Ok results) /\
    length results = length symbols /\
    forall i symbol, symbols !! i = Some symbol ->
      exists r, results !! i = Some r /\ Upbit.fetch_ticker session symbol = Ok r.
Proof.
  intros Hun Hperm.
  destruct (map_returns (Upbit.fetch_ticker session) symbols)
    as (results & Hmap & Hall).
  { intros symbol Hin. by apply fetch_ticker_returns, Hun. }
  pose proof (Forall2_length _ _ _ Hall) as Hlen.
  exists results.
  unfold Price.fetch_all_tickers, Graph.fetch_all_tickers,
    Price.fetch_ticker, Graph.fetch_ticker. cbv zeta. rewrite Hmap.
  rewrite gather_values_perm by (by rewrite <- Hlen).
  repeat split; [done|].
  intros i symbol Hi.
  destruct (Forall2_lookup_l _ _ _ _ _ Hall Hi) as (r & Hr & Hf). eauto.
Qed.

Lemma fetch_all_tickers_aligned_witness :
  exists results,
    Price.fetch_all_tickers demo_session ["KRW-ETH"; "KRW-BTC"] [1; 0]%nat
      = Done (Ok results) /\
    Graph.fetch_all_tickers demo_session ["KRW-ETH"; "KRW-BTC"] [1; 0]%nat
      = Done (Ok results) /\
    length results = length ["KRW-ETH"; "KRW-BTC"] /\
    forall i symbol, ["KRW-ETH"; "KRW-BTC"] !! i = Some symbol ->
      exists r, results !! i = Some r /\ Upbit.fetch_ticker demo_session symbol = Ok r.
Proof.
  apply (fetch_all_tickers_aligned demo_session ["KRW-ETH"; "KRW-BTC"] [1; 0]%nat).
  - intros symbol _. unfold uninterrupted, demo_session.
    destruct (String.eqb _ _); [exact I | reflexivity].
  - apply perm_swap.
Defined.

(** The same call on concrete data: the first request times out, the second
    answers, and the second task completes first. *)
Example fetch_all_tickers_demo :
  Price.fetch_all_tickers demo_session ["KRW-ETH"; "KRW-BTC"] [1; 0]%nat
  = Done (Ok [PyNone; PyDict {[ "market" := PyStr "KRW-BTC" ]}]).
Proof. vm_compute. reflexivity. Qed.

(** ** Tables *)

Section Rows.
(** A loop body that appends one rendered row per ticker. *)
Variable cells_of : PyVal -> Exc (list PyVal).
Variable body : Table -> PyVal -> Exc Table.
Hypothesis body_eq : forall table ticker,
  body table ticker = (cells ← cells_of ticker; add_row table cells).

Lemma for_each_rows tickers table0 table :
  for_each body tickers table0 = Ok table ->
  exists rs,
    rows table = rows table0 ++ rs /\
    Forall2 (fun ticker r =>
               exists cells, cells_of ticker = Ok cells /\
                             render_cells cells = Ok r) tickers rs.
Proof.
  revert table0. induction tickers as [|ticker tickers IH]; intros table0 H.
  - injection H as <-. exists []. split; [by rewrite app_nil_r | constructor].
  - cbn [for_each] in H. rewrite body_eq in H. unfold add_row in H.
    destruct (cells_of ticker) as [cells|] eqn:Hcells; [|discriminate].
    cbn [mbind Exc_bind] in H.
    destruct (render_cells cells) as [r|] eqn:Hr; [|discriminate].
    cbn [mbind Exc_bind] in H.
    destruct (IH _ H) as (rs & Hrows & Hall). cbn [rows] in Hrows.
    exists (r :: rs). split.
    + rewrite Hrows, <- app_assoc. reflexivity.
    + constructor; eauto.
Qed.

Lemma for_each_total tickers table0 rs :
  Forall2 (fun ticker r =>
             exists cells, cells_of ticker = Ok cells /\
                           render_cells cells = Ok r) tickers rs ->
  for_each body tickers table0 =
  Ok (mkTable (title table0) (columns table0) (rows table0 ++ rs)).
Proof.
  intros Hall. revert table0.
  induction Hall as [|ticker r tickers rs (cells & Hcells & Hr) _ IH]; intros table0.
  - cbn [for_each]. rewrite app_nil_r. by destruct table0.
  - cbn [for_each]. rewrite body_eq, Hcells. cbn [mbind Exc_bind].
    unfold add_row. rewrite Hr. cbn [mbind Exc_bind]. rewrite IH.
    cbn [title columns rows]. by rewrite <- app_assoc.
Qed.

Lemma for_each_cell tickers table0 table i ticker :
  rows table0 = [] ->
  for_each body tickers table0 = Ok table ->
  tickers !! i = Some ticker ->
  exists cells r,
    cells_of ticker = Ok cells /\ render_cells cells = Ok r /\
    rows table !! i = Some r.
Proof.
  intros Hnil H Hi. destruct (for_each_rows _ _ _ H) as (rs & Hrows & Hall).
  rewrite Hnil in Hrows. cbn [app] in Hrows.
  destruct (Forall2_lookup_l _ _ _ _ _ Hall Hi) as (r & Hr & cells & Hc & Hrc).
  exists cells, r. rewrite Hrows. auto.
Qed.
End Rows.

Lemma add_columns_rows table cols : rows (add_columns table cols) = rows table.
Proof.
  unfold add_columns. revert table.
  induction cols as [|c cols IH]; intros table; cbn [foldl]; [done|].
  rewrite IH. reflexivity.
Qed.

Lemma upbit_body table ticker :
  Upbit.add_ticker table ticker =
  (cells ← (if truthy ticker then Upbit.ticker_cells ticker
            else Ok Upbit.placeholder_cells);
   add_row table cells).
Proof. unfold Upbit.add_ticker. destruct (truthy ticker); reflexivity. Qed.

Lemma stock_body table ticker :
  PriceStock.add_ticker table ticker =
  (cells ← (if truthy ticker then PriceStock.ticker_cells ticker
            else Ok PriceStock.placeholder_cells);
   add_row table cells).
Proof. unfold PriceStock.add_ticker. destruct (truthy ticker); reflexivity. Qed.

(** The cells of a dict, cell by cell, in the order the loop body computes
    them. *)
Lemma upbit_cells_dict d :
  Upbit.ticker_cells (PyDict d) =
  (c ← UpbitCell.change (PyDict d);
   p ← UpbitCell.price (PyDict d);
   v ← UpbitCell.volume (PyDict d);
   h ← UpbitCell.high (PyDict d);
   l ← UpbitCell.low (PyDict d);
   Ok [ default (PyStr "N/A") (d !! "market"); PyStr p; PyStr c;
        PyStr v; PyStr h; PyStr l ]).
Proof.
  unfold Upbit.ticker_cells, UpbitCell.change, UpbitCell.price,
    UpbitCell.volume, UpbitCell.high, UpbitCell.low, py_get.
  cbn [mbind Exc_bind].
  destruct (py_mul_int _ 100) as [cr|e]; [|reflexivity]. cbn [mbind Exc_bind].
  destruct (Upbit.change_display cr); reflexivity.
Qed.

Lemma stock_cells_dict d :
  PriceStock.ticker_cells (PyDict d) =
  (c ← StockCell.change (PyDict d);
   y ← StockCell.price "yesterday" (PyDict d);
   t ← StockCell.price "today" (PyDict d);
   v ← StockCell.volume (PyDict d);
   h ← StockCell.price "high" (PyDict d);
   l ← StockCell.price "low" (PyDict d);
   Ok [ default (PyStr "N/A") (d !! "symbol"); PyStr y; PyStr t; PyStr c;
        PyStr v; PyStr h; PyStr l ]).
Proof.
  unfold PriceStock.ticker_cells, StockCell.change, StockCell.price,
    StockCell.volume, py_get.
  cbn [mbind Exc_bind].
  destruct (PriceStock.change_display _); reflexivity.
Qed.

Lemma dict_with_key_truthy d key (v : PyVal) :
  d !! key = Some v -> truthy (PyDict d) = true.
Proof.
  intros Hk. cbn [truthy]. destruct (size d) eqn:Hsize; [|reflexivity].
  apply map_size_empty_iff in Hsize. subst d. by rewrite lookup_empty in Hk.
Qed.

(** The row of a present Upbit record in a finished table. *)
Lemma upbit_row table0 tickers table i d :
  rows table0 = [] ->
  for_each Upbit.add_ticker tickers table0 = Ok table ->
  tickers !! i = Some (PyDict d) ->
  truthy (PyDict d) = true ->
  exists m p c v h l,
    render_cell (default (PyStr "N/A") (d !! "market")) = Ok m /\
    UpbitCell.price (PyDict d) = Ok p /\
    UpbitCell.change (PyDict d) = Ok c /\
    UpbitCell.volume (PyDict d) = Ok v /\
    UpbitCell.high (PyDict d) = Ok h /\
    UpbitCell.low (PyDict d) = Ok l /\
    rows table !! i = Some [m; p; c; v; h; l].
Proof.
  intros Hnil Hrun Hi Htruthy.
  destruct (for_each_cell _ _ upbit_body _ _ _ _ _ Hnil Hrun Hi)
    as (cells & r & Hcells & Hrender & Hrow).
  rewrite Htruthy, upbit_cells_dict in Hcells.
  exc_inv Hcells. injection Hcells as <-.
  cbn [render_cells] in Hrender.
  destruct (render_cell (default (PyStr "N/A") (d !! "market"))) as [m|] eqn:Hm;
    [|discriminate].
  cbn in Hrender. injection Hrender as <-.
  repeat eexists; eassumption.
Qed.

Lemma stock_row table0 tickers table i d :
  rows table0 = [] ->
  for_each PriceStock.add_ticker tickers table0 = Ok table ->
  tickers !! i = Some (PyDict d) ->
  truthy (PyDict d) = true ->
  exists m y t c v h l,
    render_cell (default (PyStr "N/A") (d !! "symbol")) = Ok m /\
    StockCell.price "yesterday" (PyDict d) = Ok y /\
    StockCell.price "today" (PyDict d) = Ok t /\
    StockCell.change (PyDict d) = Ok c /\
    StockCell.volume (PyDict d) = Ok v /\
    StockCell.price "high" (PyDict d) = Ok h /\
    StockCell.price "low" (PyDict d) = Ok l /\
    rows table !! i = Some [m; y; t; c; v; h; l].
Proof.
  intros Hnil Hrun Hi Htruthy.
  destruct (for_each_cell _ _ stock_body _ _ _ _ _ Hnil Hrun Hi)
    as (cells & r & Hcells & Hrender & Hrow).
  rewrite Htruthy, stock_cells_dict in Hcells.
  exc_inv Hcells. injection Hcells as <-.
  cbn [render_cells] in Hrender.
  destruct (render_cell (default (PyStr "N/A") (d !! "symbol"))) as [m|] eqn:Hm;
    [|discriminate].
  cbn in Hrender. injection Hrender as <-.
  repeat eexists; eassumption.
Qed.

Lemma cell_of_row table i j row :
  rows table !! i = Some row -> cell table i j = row !! j.
Proof. unfold cell. intros ->. reflexivity. Qed.

(** A cell of the Upbit loop body, once computed, is what every finished
    table shows. *)
Lemma upbit_renders table0 d :
  rows table0 = [] ->
  truthy (PyDict d) = true ->
  let create := fun tickers => for_each Upbit.add_ticker tickers table0 in
  (forall text, UpbitCell.price (PyDict d) = Ok text -> renders create (PyDict d) 1 text) /\
  (forall text, UpbitCell.change (PyDict d) = Ok text -> renders create (PyDict d) 2 text) /\
  (forall text, UpbitCell.volume (PyDict d) = Ok text -> renders create (PyDict d) 3 text) /\
  (forall text, UpbitCell.high (PyDict d) = Ok text -> renders create (PyDict d) 4 text) /\
  (forall text, UpbitCell.low (PyDict d) = Ok text -> renders create (PyDict d) 5 text).
Proof.
  intros Hnil Htruthy create.
  repeat split; intros text Htext tickers i table Hi Hrun;
    destruct (upbit_row _ _ _ _ _ Hnil Hrun Hi Htruthy)
      as (m & p & c & v & h & l & Hm & Hp & Hc & Hv & Hh & Hl & Hrow);
    rewrite (cell_of_row _ _ _ _ Hrow); cbn; congruence.
Qed.

Lemma price_table_empty title cols now :
  rows (add_columns (new_table (title +:+ " - " +:+ now)) cols) = [].
Proof. by rewrite add_columns_rows. Qed.

(** A table of one present record. *)
Lemma upbit_single_row table0 ticker cells ss :
  truthy ticker = true ->
  Upbit.ticker_cells ticker = Ok cells ->
  render_cells cells = Ok ss ->
  for_each Upbit.add_ticker [ticker] table0 =
  Ok (mkTable (title table0) (columns table0) (rows table0 ++ [ss])).
Proof.
  intros Htruthy Hcells Hss. cbn [for_each]. rewrite upbit_body, Htruthy, Hcells.
  cbn [mbind Exc_bind]. unfold add_row. rewrite Hss. reflexivity.
Qed.

(** A present record whose cells cannot be computed stops the loop. *)
Lemma upbit_row_raises table0 ticker e :
  truthy ticker = true ->
  Upbit.ticker_cells ticker = Raise e ->
  for_each Upbit.add_ticker [ticker] table0 = Raise e.
Proof.
  intros Htruthy Hcells. cbn [for_each].
  rewrite upbit_body, Htruthy, Hcells. reflexivity.
Qed.

Lemma stock_row_raises table0 ticker e :
  truthy ticker = true ->
  PriceStock.ticker_cells ticker = Raise e ->
  for_each PriceStock.add_ticker [ticker] table0 = Raise e.
Proof.
  intros Htruthy Hcells. cbn [for_each].
  rewrite stock_body, Htruthy, Hcells. reflexivity.
Qed.

(** ** Cells of the Upbit table *)

Lemma krw_str_non_numeric v :
  isinstance_int_float v = false -> Upbit.krw_str v = Ok "N/A".
Proof. unfold Upbit.krw_str. intros ->. reflexivity. Qed.

Lemma price_cell_placeholder d :
  d !! "trade_price" = None \/
  (exists v, d !! "trade_price" = Some v /\ isinstance_int_float v = false) ->
  UpbitCell.price (PyDict d) = Ok "N/A".
Proof.
  unfold UpbitCell.price, py_get. cbn [mbind Exc_bind].
  intros [-> | (v & -> & Hv)]; [reflexivity|]. by apply krw_str_non_numeric.
Qed.

Lemma change_cell_default d :
  d !! "signed_change_rate" = None ->
  UpbitCell.change (PyDict d) = Ok "[green dim]0.00%[/green dim]".
Proof.
  unfold UpbitCell.change, py_get. cbn [mbind Exc_bind].
  intros ->. vm_compute. reflexivity.
Qed.

Lemma volume_cell_default d :
  d !! "trade_volume" = None ->
  UpbitCell.volume (PyDict d) = Ok "0.00".
Proof.
  unfold UpbitCell.volume, py_get. cbn [mbind Exc_bind].
  intros ->. vm_compute. reflexivity.
Qed.

Lemma change_cell_float d r :
  d !! "signed_change_rate" = Some (PyFloat r) ->
  let change_rate := B64.mul r (B64.of_Z 100) in
  let change_color :=
    if B64.leb B64.zero change_rate then "green dim" else "red dim" in
  UpbitCell.change (PyDict d) =
  Ok ("[" +:+ change_color +:+ "]" +:+ format_float false 2 change_rate
      +:+ "%[/" +:+ change_color +:+ "]").
Proof.
  unfold UpbitCell.change, py_get. cbn [mbind Exc_bind].
  intros ->. reflexivity.
Qed.

Lemma change_cell_int d n f :
  d !! "signed_change_rate" = Some (PyInt n) ->
  float_of_int (n * 100) = Ok f ->
  let change_color := if 0 <=? n then "green dim" else "red dim" in
  UpbitCell.change (PyDict d) =
  Ok ("[" +:+ change_color +:+ "]" +:+ format_float false 2 f
      +:+ "%[/" +:+ change_color +:+ "]").
Proof.
  unfold UpbitCell.change, py_get. cbn [mbind Exc_bind].
  intros -> Hf. unfold Upbit.change_display.
  cbn [from_option id py_mul_int py_ge0 py_format_f mbind Exc_bind].
  rewrite Hf. cbn [mbind Exc_bind].
  replace (0 <=? n * 100) with (0 <=? n); [reflexivity|].
  destruct (Z.leb_spec 0 n), (Z.leb_spec 0 (n * 100)); lia.
Qed.

(** ** Tables of presentable records *)

Lemma format_total grouping digits v :
  formattable v = true -> exists text, py_format_f grouping digits v = Ok text.
Proof.
  destruct v as [|b|n|f| | |]; try discriminate; intros Hv; cbn [py_format_f].
  - assert (exists f, float_of_int (Z.b2z b) = Ok f) as [f ->]
      by (destruct b; eexists; vm_compute; reflexivity).
    cbn [mbind Exc_bind]. eauto.
  - unfold float_of_int. cbn [formattable] in Hv. rewrite Hv.
    cbn [mbind Exc_bind]. eauto.
  - eauto.
Qed.

Lemma guarded_cases field :
  guarded field = true ->
  missing_or_non_numeric field = true \/
  exists v, field = Some v /\ isinstance_int_float v = true /\ formattable v = true.
Proof.
  unfold guarded. destruct field as [v|]; cbn; [|by left].
  destruct (isinstance_int_float v) eqn:Hnum; cbn; [|by left].
  intros Hv. right. eauto.
Qed.

Lemma krw_str_guarded field :
  guarded field = true ->
  exists text, Upbit.krw_str (default (PyStr "N/A") field) = Ok text /\
    (missing_or_non_numeric field = true -> text = "N/A").
Proof.
  intros [Hmiss|(v & -> & Hnum & Hfmt)]%guarded_cases.
  - exists "N/A". split; [|done]. unfold Upbit.krw_str.
    destruct field as [v|]; cbn in *; [|done].
    by destruct (isinstance_int_float v).
  - destruct (format_total true 0 v Hfmt) as [text Htext].
    exists (text +:+ " KRW"). unfold Upbit.krw_str. cbn [from_option id].
    rewrite Hnum, Htext. split; [done|]. cbn. by rewrite Hnum.
Qed.

Lemma upbit_volume_str_guarded field :
  guarded field = true ->
  exists text, Upbit.volume_str (default (PyInt 0) field) = Ok text /\
    (non_numeric field = true -> text = "N/A") /\
    (field = None -> text = "0.00").
Proof.
  intros [Hmiss|(v & -> & Hnum & Hfmt)]%guarded_cases.
  - destruct field as [v|]; cbn in Hmiss.
    + exists "N/A". unfold Upbit.volume_str. cbn [from_option id].
      destruct (isinstance_int_float v); [done|]. by repeat split.
    + exists "0.00". split; [vm_compute; reflexivity|]. by split.
  - destruct (format_total true 2 v Hfmt) as [text Htext].
    exists text. unfold Upbit.volume_str. cbn [from_option id].
    rewrite Hnum, Htext. split; [done|]. split; [|done]. cbn. by rewrite Hnum.
Qed.

Lemma stock_price_str_guarded field :
  guarded field = true ->
  exists text, PriceStock.price_str (default (PyStr "N/A") field) = Ok text /\
    (missing_or_non_numeric field = true -> text = "N/A").
Proof.
  intros [Hmiss|(v & -> & Hnum & Hfmt)]%guarded_cases.
  - exists "N/A". split; [|done]. unfold PriceStock.price_str.
    destruct field as [v|]; cbn in *; [|done].
    by destruct (isinstance_int_float v).
  - destruct (format_total true 2 v Hfmt) as [text Htext].
    exists text. unfold PriceStock.price_str. cbn [from_option id].
    rewrite Hnum, Htext. split; [done|]. cbn. by rewrite Hnum.
Qed.

Lemma stock_volume_str_guarded field :
  guarded field = true ->
  exists text, PriceStock.volume_str (default (PyInt 0) field) = Ok text /\
    (non_numeric field = true -> text = "N/A") /\
    (field = None -> text = "0").
Proof.
  intros [Hmiss|(v & -> & Hnum & Hfmt)]%guarded_cases.
  - destruct field as [v|]; cbn in Hmiss.
    + exists "N/A". unfold PriceStock.volume_str. cbn [from_option id].
      destruct (isinstance_int_float v); [done|]. by repeat split.
    + exists "0". split; [vm_compute; reflexivity|]. by split.
  - destruct (format_total true 0 v Hfmt) as [text Htext].
    exists text. unfold PriceStock.volume_str. cbn [from_option id].
    rewrite Hnum, Htext. split; [done|]. split; [|done]. cbn. by rewrite Hnum.
Qed.

Lemma upbit_change_total d :
  upbit_rate_ok (d !! "signed_change_rate") = true ->
  exists text, UpbitCell.change (PyDict d) = Ok text /\
    (d !! "signed_change_rate" = None -> text = "[green dim]0.00%[/green dim]").
Proof.
  intros Hrate.
  destruct (d !! "signed_change_rate") as [v|] eqn:Hv.
  - assert (exists text, UpbitCell.change (PyDict d) = Ok text) as [text Htext];
      [|by exists text].
    unfold UpbitCell.change, py_get, Upbit.change_display. rewrite Hv.
    cbn [mbind Exc_bind from_option id].
    destruct v as [|b|n|f| | |]; try discriminate;
      cbn [py_mul_int py_ge0 mbind Exc_bind].
    + destruct (format_total false 2 (PyInt (Z.b2z b * 100))) as [text ->];
        [by destruct b|]. cbn [mbind Exc_bind]. eauto.
    + destruct (format_total false 2 (PyInt (n * 100)) Hrate) as [text ->].
      cbn [mbind Exc_bind]. eauto.
    + cbn [py_format_f mbind Exc_bind]. eauto.
  - exists "[green dim]0.00%[/green dim]". split; [|done].
    by apply change_cell_default.
Qed.

Lemma stock_change_total d :
  from_option formattable true (d !! "change_rate") = true ->
  exists text, StockCell.change (PyDict d) = Ok text /\
    (d !! "change_rate" = None -> text = "[green dim]0.00%[/green dim]").
Proof.
  intros Hrate. unfold StockCell.change, py_get, PriceStock.change_display.
  cbn [mbind Exc_bind].
  destruct (d !! "change_rate") as [v|] eqn:Hv; cbn [from_option id] in *.
  - destruct (format_total false 2 v Hrate) as [text Htext].
    assert (exists nonneg, py_ge0 v = Ok nonneg) as [nonneg ->]
      by (destruct v; try discriminate; cbn; eauto).
    cbn [mbind Exc_bind]. rewrite Htext. cbn [mbind Exc_bind].
    eexists. split; [reflexivity | done].
  - exists "[green dim]0.00%[/green dim]". split; [vm_compute; reflexivity | done].
Qed.

Lemma render_symbol field :
  renderable field = true ->
  exists text, render_cell (default (PyStr "N/A") field) = Ok text.
Proof.
  destruct field as [[| | | |s| |]|]; try discriminate; intros _; cbn; eauto.
Qed.

Lemma upbit_presentable_row ticker :
  upbit_presentable ticker = true ->
  exists row,
    (exists cells,
       (if truthy ticker then Upbit.ticker_cells ticker
        else Ok Upbit.placeholder_cells) = Ok cells /\
       render_cells cells = Ok row) /\
    upbit_row_shows ticker row.
Proof.
  destruct ticker as [| | | | | |d]; try discriminate; intros Hok.
  { exists (replicate 6 "N/A"). split; [|done]. eexists. split; reflexivity. }
  unfold upbit_row_shows. destruct (truthy (PyDict d)) eqn:Htruthy.
  2: { exists (replicate 6 "N/A"). split; [|done]. eexists. split; reflexivity. }
  cbn [upbit_presentable] in Hok.
  repeat (apply andb_prop in Hok as [Hok ?]).
  destruct (render_symbol _ Hok) as [m Hm].
  destruct (upbit_change_total d) as (c & Hc & Hc0); [done|].
  destruct (krw_str_guarded (d !! "trade_price")) as (p & Hp & Hp0); [done|].
  destruct (upbit_volume_str_guarded (d !! "trade_volume"))
    as (v & Hv & Hv0 & Hv1); [done|].
  destruct (krw_str_guarded (d !! "high_price")) as (h & Hh & Hh0); [done|].
  destruct (krw_str_guarded (d !! "low_price")) as (l & Hl & Hl0); [done|].
  exists [m; p; c; v; h; l]. split.
  - eexists. split.
    + rewrite upbit_cells_dict, Hc. cbn [mbind Exc_bind].
      unfold UpbitCell.price, UpbitCell.volume, UpbitCell.high, UpbitCell.low, py_get.
      cbn [mbind Exc_bind]. rewrite Hp, Hv, Hh, Hl. reflexivity.
    + cbn [render_cells]. rewrite Hm. reflexivity.
  - split; [done|]. cbn.
    repeat split; intros Hfield; f_equal; auto.
Qed.

Lemma stock_presentable_row ticker :
  stock_presentable ticker = true ->
  exists row,
    (exists cells,
       (if truthy ticker then PriceStock.ticker_cells ticker
        else Ok PriceStock.placeholder_cells) = Ok cells /\
       render_cells cells = Ok row) /\
    stock_row_shows ticker row.
Proof.
  destruct ticker as [| | | | | |d]; try discriminate; intros Hok.
  { exists (replicate 7 "N/A"). split; [|done]. eexists. split; reflexivity. }
  unfold stock_row_shows. destruct (truthy (PyDict d)) eqn:Htruthy.
  2: { exists (replicate 7 "N/A"). split; [|done]. eexists. split; reflexivity. }
  cbn [stock_presentable] in Hok.
  repeat (apply andb_prop in Hok as [Hok ?]).
  destruct (render_symbol _ Hok) as [m Hm].
  destruct (stock_change_total d) as (c & Hc & Hc0); [done|].
  destruct (stock_price_str_guarded (d !! "yesterday")) as (y & Hy & Hy0); [done|].
  destruct (stock_price_str_guarded (d !! "today")) as (t & Ht & Ht0); [done|].
  destruct (stock_volume_str_guarded (d !! "volume"))
    as (v & Hv & Hv0 & Hv1); [done|].
  destruct (stock_price_str_guarded (d !! "high")) as (h & Hh & Hh0); [done|].
  destruct (stock_price_str_guarded (d !! "low")) as (l & Hl & Hl0); [done|].
  exists [m; y; t; c; v; h; l]. split.
  - eexists. split.
    + rewrite stock_cells_dict, Hc. cbn [mbind Exc_bind].
      unfold StockCell.price, StockCell.volume, py_get.
      cbn [mbind Exc_bind]. rewrite Hy, Ht, Hv, Hh, Hl. reflexivity.
    + cbn [render_cells]. rewrite Hm. reflexivity.
  - split; [done|]. cbn.
    repeat split; intros Hfield; f_equal; auto.
Qed.

Lemma presentable_rows {cells_of : PyVal -> Exc (list PyVal)}
    {shows : PyVal -> list string -> Prop} {ok : PyVal -> bool} tickers :
  (forall ticker, ok ticker = true ->
     exists row,
       (exists cells, cells_of ticker = Ok cells /\ render_cells cells = Ok row) /\
       shows ticker row) ->
  Forall (fun ticker => ok ticker = true) tickers ->
  exists rs,
    Forall2 (fun ticker r =>
               exists cells, cells_of ticker = Ok cells /\
                             render_cells cells = Ok r) tickers rs /\
    Forall2 shows tickers rs.
Proof.
  intros Hrow. induction 1 as [|ticker tickers Hok _ (rs & Hrs & Hshows)].
  - exists []. split; constructor.
  - destruct (Hrow ticker Hok) as (row & Hcells & Hshow).
    exists (row :: rs). split; by constructor.
Qed.

(** When every record is presentable, the Upbit tables are built. *)
Lemma upbit_table_built title cols now tickers :
  Forall (fun ticker => upbit_presentable ticker = true) tickers ->
  exists table,
    Price.create_table title cols now tickers = Ok table /\
    Graph.create_table cols now tickers title = Ok table /\
    Forall2 upbit_row_shows tickers (rows table) /\
    forall i d,
      tickers !! i = Some (PyDict d) -> truthy (PyDict d) = true ->
      (forall text, UpbitCell.price (PyDict d) = Ok text -> cell table i 1 = Some text) /\
      (forall text, UpbitCell.change (PyDict d) = Ok text -> cell table i 2 = Some text) /\
      (forall text, UpbitCell.volume (PyDict d) = Ok text -> cell table i 3 = Some text).
Proof.
  intros Hok.
  destruct (presentable_rows tickers upbit_presentable_row Hok)
    as (rs & Hrs & Hshows).
  pose proof (for_each_total _ _ upbit_body tickers
                (add_columns (new_table (title +:+ " - " +:+ now)) cols) rs Hrs)
    as Hrun.
  eexists. split; [exact Hrun|]. split; [exact Hrun|]. split.
  { cbn [rows]. by rewrite add_columns_rows. }
  intros i d Hi Htruthy.
  pose proof (upbit_renders _ d (price_table_empty title cols now) Htruthy)
    as (Hp & Hc & Hv & _).
  repeat split; intros text Htext;
    [eapply Hp | eapply Hc | eapply Hv]; eauto.
Qed.

(** The same for the stock table. *)
Lemma stock_table_built cols now tickers :
  Forall (fun ticker => stock_presentable ticker = true) tickers ->
  exists table,
    PriceStock.create_table cols now tickers = Ok table /\
    Forall2 stock_row_shows tickers (rows table).
Proof.
  intros Hok.
  destruct (presentable_rows tickers stock_presentable_row Hok)
    as (rs & Hrs & Hshows).
  pose proof (for_each_total _ _ stock_body tickers
                (add_columns
                   (new_table (PriceStock.DEFAULT_STOCK_PRICE_TABLE_TITLE
                               +:+ " - " +:+ now)) cols) rs Hrs)
    as Hrun.
  eexists. split; [exact Hrun|].
  cbn [rows]. by rewrite add_columns_rows.
Qed.

Lemma upbit_tabulates title cols now d :
  truthy (PyDict d) = true ->
  let price := Price.create_table title cols now in
  let graph := fun tickers => Graph.create_table cols now tickers title in
  (forall text, UpbitCell.price (PyDict d) = Ok text ->
     tabulates price upbit_presentable (PyDict d) 1 text /\
     tabulates graph upbit_presentable (PyDict d) 1 text) /\
  (forall text, UpbitCell.change (PyDict d) = Ok text ->
     tabulates price upbit_presentable (PyDict d) 2 text /\
     tabulates graph upbit_presentable (PyDict d) 2 text) /\
  (forall text, UpbitCell.volume (PyDict d) = Ok text ->
     tabulates price upbit_presentable (PyDict d) 3 text /\
     tabulates graph upbit_presentable (PyDict d) 3 text).
Proof.
  intros Htruthy price graph.
  repeat split; intros tickers i Hok Hi;
    destruct (upbit_table_built title cols now tickers Hok)
      as (table & Hprice & Hgraph & _ & Hcells);
    destruct (Hcells i d Hi Htruthy) as (Hp & Hc & Hv);
    exists table; (split; [assumption | auto]).
Qed.

(** ** Binary64: the sign of a hundredfold *)

Lemma digits2_size p : digits2_pos p = Pos.size p.
Proof. induction p; simpl; congruence. Qed.

Lemma digits2_lower p : 2 ^ (Zpos (digits2_pos p) - 1) <= Zpos p.
Proof.
  rewrite digits2_size. pose proof (Pos.size_le p) as H.
  apply Pos2Z.pos_le_pos in H. rewrite Pos2Z.inj_pow in H.
  replace (Zpos (Pos.size p)) with (Zpos (Pos.size p) - 1 + 1) in H by lia.
  rewrite Z.pow_add_r in H by lia. change (Zpos p~0) with (2 * Zpos p) in H.
  lia.
Qed.

Lemma shr_1_m mrs : 0 <= shr_m mrs -> shr_m (shr_1 mrs) = shr_m mrs / 2.
Proof.
  destruct mrs as [m r s]. cbn [shr_m]. intros Hm. rewrite <- Z.div2_div.
  destruct m as [|[p|p|]|p]; try reflexivity. lia.
Qed.

Lemma iter_shr_m p : forall mrs,
  0 <= shr_m mrs -> shr_m (SpecFloat.iter_pos shr_1 p mrs) = shr_m mrs / 2 ^ Zpos p.
Proof.
  induction p as [p IH|p IH|]; intros mrs Hm; cbn [SpecFloat.iter_pos].
  - assert (0 <= shr_m (shr_1 mrs)) as H1
      by (rewrite shr_1_m by done; apply Z.div_pos; lia).
    assert (0 <= shr_m (SpecFloat.iter_pos shr_1 p (shr_1 mrs))) as H2
      by (rewrite IH by done; apply Z.div_pos; lia).
    rewrite IH, IH, shr_1_m by done.
    rewrite !Z.div_div by lia. f_equal.
    rewrite (Pos2Z.inj_xI p).
    rewrite (Z.pow_add_r 2 (2 * Zpos p) 1), Z.pow_1_r by lia.
    replace (2 * Zpos p) with (Zpos p + Zpos p) by lia.
    rewrite (Z.pow_add_r 2 (Zpos p) (Zpos p)) by lia. ring.
  - assert (0 <= shr_m (SpecFloat.iter_pos shr_1 p mrs)) as H2
      by (rewrite IH by done; apply Z.div_pos; lia).
    rewrite IH, IH by done. rewrite Z.div_div by lia. f_equal.
    rewrite (Pos2Z.inj_xO p). replace (2 * Zpos p) with (Zpos p + Zpos p) by lia.
    rewrite (Z.pow_add_r 2 (Zpos p) (Zpos p)) by lia. reflexivity.
  - rewrite shr_1_m by done. reflexivity.
Qed.

Lemma shr_record_of_loc_m m l : shr_m (shr_record_of_loc m l) = m.
Proof. destruct l as [|[]]; reflexivity. Qed.

Lemma digits2_upper p : Zpos p < 2 ^ Zpos (digits2_pos p).
Proof.
  rewrite digits2_size. pose proof (Pos.size_gt p) as H.
  apply Pos2Z.pos_lt_pos in H. by rewrite Pos2Z.inj_pow in H.
Qed.

Lemma shr_fexp_positive m e l :
  fexp 53 1024 (Zpos (digits2_pos m) + e) - e < Zpos (digits2_pos m) ->
  0 < shr_m (fst (shr_fexp 53 1024 (Zpos m) e l)) /\
  -1074 <= snd (shr_fexp 53 1024 (Zpos m) e l).
Proof.
  unfold shr_fexp, shr. cbn [Zdigits2]. intros Hn.
  pose proof (digits2_lower m) as Hlow.
  assert (-1074 <= fexp 53 1024 (Zpos (digits2_pos m) + e)) as Hmin
    by (unfold fexp, emin; lia).
  destruct (fexp 53 1024 (Zpos (digits2_pos m) + e) - e) as [|n|n] eqn:Hshift;
    cbn [fst snd].
  - rewrite shr_record_of_loc_m. lia.
  - rewrite iter_shr_m by (rewrite shr_record_of_loc_m; lia).
    rewrite shr_record_of_loc_m. split; [|lia].
    apply Z.div_str_pos. split; [apply Z.pow_pos_nonneg; lia|].
    etransitivity; [|exact Hlow]. apply Z.pow_le_mono_r; lia.
  - rewrite shr_record_of_loc_m. lia.
Qed.

Lemma round_nearest_even_ge m l : m <= round_nearest_even m l.
Proof. destruct l as [|[]]; cbn; try destruct (Z.even m); lia. Qed.

(** A product that is large enough does not round to zero: the result is
    a finite number or an infinity, with the sign it was given. *)
Lemma binary_round_aux_signed sx m e l :
  fexp 53 1024 (Zpos (digits2_pos m) + e) - e < Zpos (digits2_pos m) ->
  exists x, binary_round_aux 53 1024 sx (Zpos m) e l = x /\
    ((exists m' e', x = S754_finite sx m' e') \/ x = S754_infinity sx).
Proof.
  intros Hn. unfold binary_round_aux.
  destruct (shr_fexp_positive m e l Hn) as [Hpos Hexp].
  destruct (shr_fexp 53 1024 (Zpos m) e l) as [mrs' e'] eqn:Hfirst.
  cbn [fst snd] in Hpos, Hexp.
  pose proof (round_nearest_even_ge (shr_m mrs') (loc_of_shr_record mrs')) as Hround.
  destruct (round_nearest_even (shr_m mrs') (loc_of_shr_record mrs'))
    as [|q|q] eqn:Hq; try lia.
  destruct (shr_fexp_positive q e' loc_Exact) as [Hpos2 _].
  { pose proof (Pos2Z.pos_is_pos (digits2_pos q)). unfold fexp, emin. lia. }
  destruct (shr_fexp 53 1024 (Zpos q) e' loc_Exact) as [mrs'' e''] eqn:Hsecond.
  cbn [fst] in Hpos2.
  destruct (shr_m mrs'') as [|m''|m'']; try lia.
  eexists. split; [reflexivity|].
  destruct (e'' <=? 1024 - 53); eauto.
Qed.

Lemma leb_zero_mul_100 r :
  valid_binary 53 1024 r = true ->
  B64.leb B64.zero (B64.mul r (B64.of_Z 100)) = B64.leb B64.zero r.
Proof.
  replace (B64.of_Z 100) with (S754_finite false 7036874417766400 (-46))
    by (vm_compute; reflexivity).
  destruct r as [s|s| |s m e]; intros Hvalid.
  - destruct s; reflexivity.
  - destruct s; reflexivity.
  - reflexivity.
  - unfold B64.mul, B64.prec, B64.emax, SFmul.
    destruct (binary_round_aux_signed (xorb s false)
                (m * 7036874417766400) (e + -46) loc_Exact)
      as (x & -> & [(m' & e' & ->) | ->]).
    + cbn [valid_binary] in Hvalid. unfold bounded, canonical_mantissa in Hvalid.
      apply andb_prop in Hvalid as [Hcanon _]. apply Z.eqb_eq in Hcanon.
      assert (-1074 <= e) by (unfold fexp, emin in Hcanon; lia).
      assert (52 < Zpos (digits2_pos (m * 7036874417766400))).
      { apply (Z.pow_lt_mono_r_iff 2); [lia | lia |].
        eapply Z.le_lt_trans; [|apply digits2_upper].
        rewrite Pos2Z.inj_mul. change (2 ^ 52) with 4503599627370496. lia. }
      unfold fexp, emin. lia.
    + rewrite xorb_false_r. destruct s; reflexivity.
    + rewrite xorb_false_r. destruct s; reflexivity.
Qed.

(** The doubles of the decimal literals -0.0123 and 0.045, and their
    hundredfolds. *)
Example rate_literals :
  B64.of_decimal (-123) 4 = S754_finite true 7090467253332109 (-59) /\
  B64.of_decimal 45 3 = S754_finite false 6485183463413514 (-57) /\
  valid_binary B64.prec B64.emax (B64.of_decimal (-123) 4) = true /\
  valid_binary B64.prec B64.emax (B64.of_decimal 45 3) = true /\
  B64.mul (B64.of_decimal 45 3) (B64.of_Z 100) = S754_finite false 5066549580791808 (-50).
Proof. vm_compute. repeat split; reflexivity. Qed.

(** C4: for a record whose [signed_change_rate] is the float [r], the
    change cell shows [r * 100] with two decimals and a percent sign, inside
    the green tag when [r * 100 >= 0] and inside the red tag otherwise; for
    a double [r] the test [r * 100 >= 0] comes out as [r >= 0] does.  For
    [-0.0123] the cell is [-1.23%] in red and for [0.045] it is [4.50%] in
    green.  The cell is computed as such; it is what every table built by
    [create_table] shows for the record; and the table is built whenever
    the records of the list are all presentable. *)
Theorem change_cell_signed_percent (title : string) (cols : list Column)
    (now : string) (d : gmap string PyVal) (r : spec_float) :
  d !! "signed_change_rate" = Some (PyFloat r) ->
  let change_rate := B64.mul r (B64.of_Z 100) in
  let change_color :=
    if B64.leb B64.zero change_rate then "green dim" else "red dim" in
  let text := "[" +:+ change_color +:+ "]" +:+ format_float false 2 change_rate
              +:+ "%[/" +:+ change_color +:+ "]" in
  UpbitCell.change (PyDict d) = Ok text /\
  renders (Price.create_table title cols now) (PyDict d) 2 text /\
  tabulates (Price.create_table title cols now) upbit_presentable (PyDict d) 2 text /\
  (valid_binary B64.prec B64.emax r = true ->
   B64.leb B64.zero change_rate = B64.leb B64.zero r) /\
  (r = B64.of_decimal (-123) 4 -> text = "[red dim]-1.23%[/red dim]") /\
  (r = B64.of_decimal 45 3 -> text = "[green dim]4.50%[/green dim]").
Proof.
  intros Hrate change_rate change_color text.
  pose proof (change_cell_float d r Hrate) as Hcell. cbv zeta in Hcell.
  assert (truthy (PyDict d) = true) as Htruthy by (by eapply dict_with_key_truthy).
  split; [exact Hcell|]. split; [|split; [|split]].
  - by apply (upbit_renders _ d (price_table_empty title cols now)).
  - by apply (upbit_tabulates title cols now d Htruthy).
  - apply leb_zero_mul_100.
  - subst text change_color change_rate.
    split; intros ->; vm_compute; reflexivity.
Qed.

Lemma change_cell_signed_percent_witness :
  UpbitCell.change
    (PyDict {[ "signed_change_rate" := PyFloat (B64.of_decimal (-123) 4) ]})
  = Ok "[red dim]-1.23%[/red dim]".
Proof.
  destruct (change_cell_signed_percent "" [] ""
              {[ "signed_change_rate" := PyFloat (B64.of_decimal (-123) 4) ]}
              (B64.of_decimal (-123) 4))
    as (Hcell & _ & _ & _ & Hneg & _); [vm_compute; reflexivity|].
  rewrite Hcell. rewrite Hneg; reflexivity.
Defined.

(** The two records of C4 in a table of their own. *)
Example change_cell_tables title cols now :
  let table_of rate :=
    Price.create_table title cols now
      [PyDict {[ "market" := PyStr "KRW-BTC"; "signed_change_rate" := PyFloat rate ]}] in
  (table_of (B64.of_decimal (-123) 4) ≫= fun table => Ok (rows table)) =
    Ok [["KRW-BTC"; "N/A"; "[red dim]-1.23%[/red dim]"; "0.00"; "N/A"; "N/A"]] /\
  (table_of (B64.of_decimal 45 3) ≫= fun table => Ok (rows table)) =
    Ok [["KRW-BTC"; "N/A"; "[green dim]4.50%[/green dim]"; "0.00"; "N/A"; "N/A"]].
Proof.
  cbv zeta. unfold Price.create_table.
  split.
  - erewrite upbit_single_row; cycle 1.
    + vm_compute; reflexivity.
    + vm_compute; reflexivity.
    + vm_compute; reflexivity.
    + cbn [mbind Exc_bind rows]. rewrite add_columns_rows. reflexivity.
  - erewrite upbit_single_row; cycle 1.
    + vm_compute; reflexivity.
    + vm_compute; reflexivity.
    + vm_compute; reflexivity.
    + cbn [mbind Exc_bind rows]. rewrite add_columns_rows. reflexivity.
Qed.

Lemma upbit_cells_price_independent d :
  UpbitCell.price (PyDict d) = Ok "N/A" ->
  forall e, Upbit.ticker_cells (PyDict d) = Raise e ->
            Upbit.ticker_cells (PyDict (<["trade_price" := PyInt 0]> d)) = Raise e.
Proof.
  intros Hprice e. rewrite !upbit_cells_dict, Hprice.
  unfold UpbitCell.change, UpbitCell.price, UpbitCell.volume, UpbitCell.high,
    UpbitCell.low, py_get.
  rewrite lookup_insert_eq, !lookup_insert_ne by done.
  cbn [mbind Exc_bind from_option id].
  destruct (py_mul_int _ 100 ≫= _) as [c|e1]; cbn [mbind Exc_bind]; [|done].
  replace (Upbit.krw_str (PyInt 0)) with (@Ok string "0 KRW")
    by (vm_compute; reflexivity).
  cbn [mbind Exc_bind].
  destruct (Upbit.volume_str _) as [v|e1]; cbn [mbind Exc_bind]; [|done].
  destruct (Upbit.krw_str _) as [h|e1]; cbn [mbind Exc_bind]; [|done].
  destruct (Upbit.krw_str _) as [l|e1]; cbn [mbind Exc_bind]; [|done].
  discriminate.
Qed.

(** The price cell on its own: for a present record whose [trade_price] is
    missing, or is not an [int] or a [float], the price cell is computed
    without an exception and is the text N/A; every table built by
    [create_table] shows it, and the table is built whenever the records of
    the list are all presentable; if the row of the record raises at all,
    it raises the same with a number in place of the price, so the price is
    never what raised. *)
Theorem missing_price_is_placeholder (title : string) (cols : list Column)
    (now : string) (d : gmap string PyVal) :
  truthy (PyDict d) = true ->
  d !! "trade_price" = None \/
  (exists v, d !! "trade_price" = Some v /\ isinstance_int_float v = false) ->
  UpbitCell.price (PyDict d) = Ok "N/A" /\
  renders (Price.create_table title cols now) (PyDict d) 1 "N/A" /\
  tabulates (Price.create_table title cols now) upbit_presentable (PyDict d) 1 "N/A" /\
  forall e, Upbit.ticker_cells (PyDict d) = Raise e ->
            Upbit.ticker_cells (PyDict (<["trade_price" := PyInt 0]> d)) = Raise e.
Proof.
  intros Htruthy Hprice.
  pose proof (price_cell_placeholder d Hprice) as Hcell.
  split; [exact Hcell|]. split; [|split].
  - by apply (upbit_renders _ d (price_table_empty title cols now)).
  - by apply (upbit_tabulates title cols now d Htruthy).
  - by apply upbit_cells_price_independent.
Qed.

Lemma missing_price_is_placeholder_witness :
  UpbitCell.price (PyDict {[ "market" := PyStr "KRW-BTC";
                             "trade_price" := PyStr "12.5" ]}) = Ok "N/A".
Proof.
  apply (missing_price_is_placeholder "" [] ""
           {[ "market" := PyStr "KRW-BTC"; "trade_price" := PyStr "12.5" ]}).
  - vm_compute; reflexivity.
  - right. exists (PyStr "12.5"). split; vm_compute; reflexivity.
Defined.

(** C9: a present record without [signed_change_rate] shows 0.00% inside the
    green tag, and one without [trade_volume] shows 0.00: the cells are
    computed as such, every table built by price.py or graph.py shows them,
    and the tables are built whenever the records of the list are all
    presentable. *)
Theorem missing_rate_and_volume_defaults (title : string) (cols : list Column)
    (now : string) (d : gmap string PyVal) :
  truthy (PyDict d) = true ->
  let price := Price.create_table title cols now in
  let graph := fun tickers => Graph.create_table cols now tickers title in
  (d !! "signed_change_rate" = None ->
   let text := "[green dim]0.00%[/green dim]" in
   UpbitCell.change (PyDict d) = Ok text /\
   renders price (PyDict d) 2 text /\ renders graph (PyDict d) 2 text /\
   tabulates price upbit_presentable (PyDict d) 2 text /\
   tabulates graph upbit_presentable (PyDict d) 2 text) /\
  (d !! "trade_volume" = None ->
   UpbitCell.volume (PyDict d) = Ok "0.00" /\
   renders price (PyDict d) 3 "0.00" /\ renders graph (PyDict d) 3 "0.00" /\
   tabulates price upbit_presentable (PyDict d) 3 "0.00" /\
   tabulates graph upbit_presentable (PyDict d) 3 "0.00").
Proof.
  intros Htruthy price graph.
  pose proof (upbit_renders _ d (price_table_empty title cols now) Htruthy)
    as (_ & Hchange & Hvolume & _).
  pose proof (upbit_tabulates title cols now d Htruthy) as (_ & Htc & Htv).
  split.
  - intros Hrate text. pose proof (change_cell_default d Hrate) as Hcell.
    split; [exact Hcell|]. split; [by apply Hchange|]. split; [by apply Hchange|].
    by apply Htc.
  - intros Hvol. pose proof (volume_cell_default d Hvol) as Hcell.
    split; [exact Hcell|]. split; [by apply Hvolume|]. split; [by apply Hvolume|].
    by apply Htv.
Qed.

Lemma missing_rate_and_volume_defaults_witness :
  UpbitCell.change (PyDict {[ "market" := PyStr "KRW-BTC" ]})
    = Ok "[green dim]0.00%[/green dim]" /\
  UpbitCell.volume (PyDict {[ "market" := PyStr "KRW-BTC" ]}) = Ok "0.00".
Proof.
  destruct (missing_rate_and_volume_defaults "" [] ""
              {[ "market" := PyStr "KRW-BTC" ]}) as [Hrate Hvol].
  - vm_compute; reflexivity.
  - split; [apply Hrate | apply Hvol]; vm_compute; reflexivity.
Defined.

(** A record with nothing but its market name, in both tables. *)
Example market_only_row title cols now symbol :
  let row := [symbol; "N/A"; "[green dim]0.00%[/green dim]"; "0.00"; "N/A"; "N/A"] in
  (Price.create_table title cols now [PyDict {[ "market" := PyStr symbol ]}]
     ≫= fun table => Ok (rows table)) = Ok [row] /\
  (Graph.create_table cols now [PyDict {[ "market" := PyStr symbol ]}] title
     ≫= fun table => Ok (rows table)) = Ok [row].
Proof.
  cbv zeta. unfold Price.create_table, Graph.create_table.
  split.
  - erewrite upbit_single_row; cycle 1.
    + vm_compute; reflexivity.
    + vm_compute; reflexivity.
    + vm_compute; reflexivity.
    + cbn [mbind Exc_bind rows]. rewrite add_columns_rows. reflexivity.
  - erewrite upbit_single_row; cycle 1.
    + vm_compute; reflexivity.
    + vm_compute; reflexivity.
    + vm_compute; reflexivity.
    + cbn [mbind Exc_bind rows]. rewrite add_columns_rows. reflexivity.
Qed.

(** The tables guard the price, volume, high and low cells with
    [isinstance], but not the change rate.  A record whose change rate is
    JSON [null] makes [create_table] raise [TypeError], in price.py and
    graph.py at [None * 100] and in price_stock.py at [None >= 0]. *)
Lemma create_table_raises_on_null_rate (title : string) (cols : list Column)
    (now : string) :
  Price.create_table title cols now
    [PyDict {[ "market" := PyStr "KRW-BTC"; "signed_change_rate" := PyNone ]}]
    = Raise TypeError /\
  Graph.create_table cols now
    [PyDict {[ "market" := PyStr "KRW-BTC"; "signed_change_rate" := PyNone ]}]
    title = Raise TypeError /\
  PriceStock.create_table cols now
    [PyDict {[ "symbol" := PyStr "AAPL"; "change_rate" := PyNone ]}]
    = Raise TypeError.
Proof.
  unfold Price.create_table, Graph.create_table, PriceStock.create_table.
  repeat split;
    (apply upbit_row_raises || apply stock_row_raises); vm_compute; reflexivity.
Qed.

(** The guarded cells of the same record are placeholders: the guard is what
    the change rate lacks. *)
Example guarded_cells_of_null_record :
  let record := PyDict {[ "market" := PyStr "KRW-BTC"; "trade_price" := PyNone;
                          "trade_volume" := PyNone; "high_price" := PyNone;
                          "low_price" := PyNone; "signed_change_rate" := PyNone ]} in
  UpbitCell.price record = Ok "N/A" /\
  UpbitCell.volume record = Ok "N/A" /\
  UpbitCell.high record = Ok "N/A" /\
  UpbitCell.low record = Ok "N/A" /\
  UpbitCell.change record = Raise TypeError.
Proof. vm_compute. repeat split; reflexivity. Qed.

(** C5, where the code departs from it: a present record without
    [trade_price] whose change rate is JSON [null].  Its price cell is the
    text N/A, computed without an exception, and so are its volume, high
    and low cells when they are [null] too, each behind its [isinstance]
    guard; but the row is never built: [create_table] of price.py and of
    graph.py raises [TypeError] at [None * 100], the change rate being the
    one value of the row that is used without the guard of its siblings. *)
Theorem missing_price_row_raises (title : string) (cols : list Column)
    (now : string) :
  let record := PyDict {[ "market" := PyStr "KRW-BTC";
                          "signed_change_rate" := PyNone ]} in
  truthy record = true /\
  py_get record "trade_price" (PyStr "N/A") = Ok (PyStr "N/A") /\
  UpbitCell.price record = Ok "N/A" /\
  UpbitCell.change record = Raise TypeError /\
  Price.create_table title cols now [record] = Raise TypeError /\
  Graph.create_table cols now [record] title = Raise TypeError.
Proof.
  cbv zeta.
  destruct (create_table_raises_on_null_rate title cols now)
    as (Hprice & Hgraph & _).
  split; [vm_compute; reflexivity|]. split; [vm_compute; reflexivity|].
  split; [vm_compute; reflexivity|]. split; [vm_compute; reflexivity|].
  split; [exact Hprice | exact Hgraph].
Qed.

(** C2, as the code has it: when every record's change rate is absent or a
    number, its symbol is a string, and its integers fit a double,
    [create_table] builds the table, one row per ticker.  An absent record
    gives a row of N/A cells.  In the row of a present record, a missing or
    non-numeric price, high or low and a non-numeric volume show N/A, while
    a missing change rate shows 0.00% in the green tag and a missing volume
    shows 0.00 (0 in the stock table). *)
Theorem create_table_presentable (title : string) (cols : list Column)
    (now : string) (tickers : list PyVal) :
  (Forall (fun ticker => upbit_presentable ticker = true) tickers ->
   exists table,
     Price.create_table title cols now tickers = Ok table /\
     Graph.create_table cols now tickers title = Ok table /\
     Forall2 upbit_row_shows tickers (rows table)) /\
  (Forall (fun ticker => stock_presentable ticker = true) tickers ->
   exists table,
     PriceStock.create_table cols now tickers = Ok table /\
     Forall2 stock_row_shows tickers (rows table)).
Proof.
  split; intros Hok.
  - destruct (upbit_table_built title cols now tickers Hok)
      as (table & Hprice & Hgraph & Hshows & _). eauto.
  - by apply stock_table_built.
Qed.

Lemma create_table_presentable_witness :
  exists table,
    Price.create_table "" [] ""
      [ PyNone;
        PyDict {[ "market" := PyStr "KRW-BTC"; "trade_price" := PyStr "12.5";
                  "high_price" := PyNone; "low_price" := PyList [] ]} ]
      = Ok table /\
    Graph.create_table [] ""
      [ PyNone;
        PyDict {[ "market" := PyStr "KRW-BTC"; "trade_price" := PyStr "12.5";
                  "high_price" := PyNone; "low_price" := PyList [] ]} ] ""
      = Ok table /\
    Forall2 upbit_row_shows
      [ PyNone;
        PyDict {[ "market" := PyStr "KRW-BTC"; "trade_price" := PyStr "12.5";
                  "high_price" := PyNone; "low_price" := PyList [] ]} ]
      (rows table).
Proof.
  apply (create_table_presentable "" [] "").
  repeat constructor; vm_compute; reflexivity.
Defined.

(** C2, where the wording of the specification fails.  A record that has only its market
    name is tabulated, and the cells of its missing change rate and of its
    missing volume are the numbers 0.00% and 0.00, not the placeholder.  A
    record whose change rate is JSON [null] is not tabulated at all:
    [create_table] raises [TypeError]. *)
Lemma placeholder_invariant_fails :
  (exists table,
     Price.create_table "" [] "" [PyDict {[ "market" := PyStr "KRW-BTC" ]}]
       = Ok table /\
     rows table =
       [["KRW-BTC"; "N/A"; "[green dim]0.00%[/green dim]"; "0.00"; "N/A"; "N/A"]] /\
     cell table 0 2 <> Some "N/A" /\
     cell table 0 3 <> Some "N/A") /\
  Price.create_table "" [] ""
    [PyDict {[ "market" := PyStr "KRW-BTC"; "signed_change_rate" := PyNone ]}]
    = Raise TypeError.
Proof.
  split.
  - eexists. split; [vm_compute; reflexivity|].
    split; [reflexivity|]. split; discriminate.
  - vm_compute. reflexivity.
Qed.

(** Why a presentable record needs a string for its symbol and integers
    within the range of a double: the renderer refuses a number as a cell,
    and the fixed-point format refuses 10^400. *)
Example unpresentable_records :
  Price.create_table "" [] "" [PyDict {[ "market" := PyInt 5 ]}]
    = Raise NotRenderableError /\
  Price.create_table "" [] ""
    [PyDict {[ "market" := PyStr "KRW-BTC"; "trade_price" := PyInt (10 ^ 400) ]}]
    = Raise OverflowError.
Proof. split; vm_compute; reflexivity. Qed.

(** ** Chart panels *)

Lemma closing_prices_of_candles candles prices :
  Forall2 candle_closing candles prices ->
  Graph.closing_prices_of candles = Ok prices.
Proof.
  induction 1 as [|candle price candles prices (d & -> & Hd) _ IH].
  - reflexivity.
  - cbn [Graph.closing_prices_of py_getitem_str]. rewrite Hd.
    cbn [mbind Exc_bind]. rewrite IH. reflexivity.
Qed.

(** C6: for a series of candles in the upstream order, newest first, the
    prices handed to the chart are the closing prices in reverse, oldest
    first; a non-empty series is drawn from exactly these.  Upstream
    110, 95, 105, 100 is charted as 100, 105, 95, 110. *)
Theorem chart_input_is_reversed (candles prices : list PyVal)
    (symbol timeframe : string) (width height : Z) :
  Forall2 candle_closing candles prices ->
  candles <> [] ->
  Graph.closing_prices (PyList candles) = Ok (reverse prices) /\
  Graph.create_plot_graph_panel symbol timeframe (PyList candles) width height =
    Ok (Graph.mkPanel (symbol +:+ " - " +:+ timeframe)
          (Graph.Chart (Graph.mkFigure width height "Time" "Price" "Price Chart"
                          (seq 0 (length prices)) (reverse prices)))
          "blue") /\
  (candles = demo_candles ->
   reverse prices = [PyInt 100; PyInt 105; PyInt 95; PyInt 110]).
Proof.
  intros Hall Hne.
  assert (Graph.closing_prices (PyList candles) = Ok (reverse prices)) as Hprices.
  { unfold Graph.closing_prices. cbn [py_reversed mbind Exc_bind].
    by apply closing_prices_of_candles, Forall2_reverse. }
  split; [exact Hprices|]. split.
  - unfold Graph.create_plot_graph_panel. rewrite Hprices.
    cbn [mbind Exc_bind]. unfold Graph.create_plotille_line_chart.
    rewrite length_reverse.
    destruct (reverse prices) eqn:Hrev; [|reflexivity].
    exfalso. apply Hne.
    apply (f_equal length) in Hrev. rewrite length_reverse in Hrev.
    apply Forall2_length in Hall. destruct candles; [done | simpl in *; lia].
  - intros ->. unfold demo_candles in Hall.
    repeat match goal with
    | H : Forall2 _ (_ :: _) _ |- _ =>
        apply Forall2_cons_inv_l in H;
        destruct H as (? & ? & (? & [= <-] & Hk) & H & ->);
        rewrite lookup_singleton_eq in Hk; injection Hk as <-
    | H : Forall2 _ [] _ |- _ => apply Forall2_nil_inv_l in H; subst
    end.
    reflexivity.
Qed.

Lemma chart_input_is_reversed_witness :
  Graph.closing_prices (PyList demo_candles) =
  Ok (reverse [PyInt 110; PyInt 95; PyInt 105; PyInt 100]).
Proof.
  apply (chart_input_is_reversed demo_candles
           [PyInt 110; PyInt 95; PyInt 105; PyInt 100] "KRW-BTC" "1H" 60 20).
  - repeat constructor; eexists; (split; [reflexivity | vm_compute; reflexivity]).
  - discriminate.
Defined.

(** C8: a panel whose series is [None] holds the no-data text, and a panel
    that holds a chart was given a series. *)
Theorem absent_series_is_placeholder (symbol timeframe : string)
    (width height : Z) :
  Graph.create_plot_graph_panel symbol timeframe PyNone width height =
    Ok (Graph.mkPanel (symbol +:+ " - " +:+ timeframe)
          (Graph.Text "데이터 없음") "blue") /\
  forall candles panel fig,
    Graph.create_plot_graph_panel symbol timeframe candles width height = Ok panel ->
    Graph.panel_content panel = Graph.Chart fig ->
    candles <> PyNone.
Proof.
  split; [reflexivity|].
  intros candles panel fig Hpanel Hchart ->.
  injection Hpanel as <-. discriminate.
Qed.

Lemma absent_series_is_placeholder_witness : PyList demo_candles <> PyNone.
Proof.
  destruct (absent_series_is_placeholder "KRW-BTC" "1H" 60 20) as [_ Honly].
  eapply (Honly (PyList demo_candles)); vm_compute; reflexivity.
Defined.

(** ** The stock variant *)

Lemma stock_fetch_escapes history symbol :
  match PriceStock.fetch_ticker history symbol with
  | Ok _ => True
  | Raise e => is_Exception e = false
  end.
Proof.
  unfold PriceStock.fetch_ticker.
  match goal with |- context [try_except ?b _] => set (body := b) end.
  pose proof (try_except_Exception body [] (fun _ => PyNone)) as Htry.
  cbn [app] in Htry.
  destruct (try_except body _); [exact I|]. apply Htry. constructor.
Qed.

Lemma df_not_empty data (last_row : gmap string spec_float) column x :
  last data = Some last_row ->
  last_row !! column = Some x ->
  PriceStock.df_empty data = false.
Proof.
  intros Hlast Hcol. apply last_Some in Hlast as [data' ->].
  unfold PriceStock.df_empty. rewrite forallb_app. cbn [forallb].
  destruct (size last_row) eqn:Hsize.
  - apply map_size_empty_iff in Hsize. subst. by rewrite lookup_empty in Hcol.
  - cbn. by rewrite andb_false_r.
Qed.

Lemma stock_record_lookup symbol y t c v h l :
  let record : gmap string PyVal :=
    list_to_map
      [ ("symbol", PyStr symbol); ("yesterday", PyFloat y); ("today", PyFloat t);
        ("change_rate", PyFloat c); ("volume", PyFloat v);
        ("high", PyFloat h); ("low", PyFloat l) ] in
  record !! "change_rate" = Some (PyFloat c) /\
  record !! "yesterday" = Some (PyFloat y).
Proof. split; vm_compute; reflexivity. Qed.

(** The quotient by a zero or NaN opening price, times 100. *)
Lemma zero_open_rate yesterday today :
  (exists s, yesterday = S754_zero s) \/ yesterday = S754_nan ->
  let change_rate :=
    B64.mul (B64.div (B64.sub today yesterday) yesterday) (B64.of_Z 100) in
  B64.is_finite change_rate = false /\
  exists text, text ∈ non_finite_displays /\
    PriceStock.change_display (PyFloat change_rate) = Ok text.
Proof.
  intros [[s ->] | ->]; cbv zeta.
  - destruct today as [s'|s'| |s' m e], s; try destruct s';
      (split; [reflexivity|]); vm_compute;
      eexists; (split; [|reflexivity]); set_solver.
  - destruct today as [s'|s'| |s' m e];
      (split; [reflexivity|]); vm_compute;
      eexists; (split; [|reflexivity]); set_solver.
Qed.

Lemma stock_fetch_record history symbol data last_row yesterday today high low volume :
  history symbol = Ok data ->
  last data = Some last_row ->
  last_row !! "Open" = Some yesterday ->
  last_row !! "Close" = Some today ->
  last_row !! "High" = Some high ->
  last_row !! "Low" = Some low ->
  last_row !! "Volume" = Some volume ->
  PriceStock.fetch_ticker history symbol =
  Ok (PyDict (list_to_map
        [ ("symbol", PyStr symbol); ("yesterday", PyFloat yesterday);
          ("today", PyFloat today);
          ("change_rate",
           PyFloat (B64.mul (B64.div (B64.sub today yesterday) yesterday)
                            (B64.of_Z 100)));
          ("volume", PyFloat volume); ("high", PyFloat high);
          ("low", PyFloat low) ])).
Proof.
  intros Hhist Hlast Hopen Hclose Hhigh Hlow Hvol.
  unfold PriceStock.fetch_ticker. rewrite Hhist. cbn [mbind Exc_bind].
  rewrite (df_not_empty _ _ _ _ Hlast Hopen).
  unfold PriceStock.iloc_last, PriceStock.row_getitem.
  rewrite Hlast. cbn [mbind Exc_bind].
  rewrite Hopen, Hclose, Hhigh, Hlow, Hvol. reflexivity.
Qed.

Lemma stock_fetch_no_open history symbol data last_row :
  history symbol = Ok data ->
  last data = Some last_row ->
  last_row !! "Open" = None ->
  PriceStock.fetch_ticker history symbol = Ok PyNone.
Proof.
  intros Hhist Hlast Hopen.
  unfold PriceStock.fetch_ticker. rewrite Hhist. cbn [mbind Exc_bind].
  destruct (PriceStock.df_empty data); [reflexivity|].
  unfold PriceStock.iloc_last, PriceStock.row_getitem.
  rewrite Hlast. cbn [mbind Exc_bind]. rewrite Hopen. reflexivity.
Qed.

Lemma stock_renders_change cols now d text :
  truthy (PyDict d) = true ->
  StockCell.change (PyDict d) = Ok text ->
  renders (PriceStock.create_table cols now) (PyDict d) 3 text.
Proof.
  intros Htruthy Htext tickers i table Hi Hrun.
  unfold PriceStock.create_table in Hrun.
  destruct (stock_row _ _ _ _ _ (price_table_empty _ cols now) Hrun Hi Htruthy)
    as (m & y & t & c & v & h & l & _ & _ & _ & Hc & _ & _ & _ & Hrow).
  rewrite (cell_of_row _ _ _ _ Hrow). cbn. congruence.
Qed.

(** C3, as the code has it: [fetch_ticker] of the stock variant lets no
    [Exception] out, whatever the history call does.  When the last bar
    opened at zero (or at NaN), the division raises nothing: the change rate
    is an infinity or a NaN, the record is returned, and its change cell
    shows inf%, -inf% or nan% inside a colour tag, not N/A.  When the last
    bar has no opening price, the lookup fault is caught, the fetch returns
    [None] and the row of the symbol is seven N/A cells. *)
Theorem zero_open_change_rate (history : PriceStock.History) (symbol : string)
    (data : PriceStock.DataFrame) (last_row : gmap string spec_float)
    (today high low volume : spec_float) :
  history symbol = Ok data ->
  last data = Some last_row ->
  last_row !! "Close" = Some today ->
  last_row !! "High" = Some high ->
  last_row !! "Low" = Some low ->
  last_row !! "Volume" = Some volume ->
  match PriceStock.fetch_ticker history symbol with
  | Ok _ => True
  | Raise e => is_Exception e = false
  end /\
  (forall yesterday,
     last_row !! "Open" = Some yesterday ->
     (exists s, yesterday = S754_zero s) \/ yesterday = S754_nan ->
     exists record change_rate text,
       PriceStock.fetch_ticker history symbol = Ok (PyDict record) /\
       record !! "change_rate" = Some (PyFloat change_rate) /\
       B64.is_finite change_rate = false /\
       text ∈ non_finite_displays /\
       StockCell.change (PyDict record) = Ok text /\
       forall cols now,
         renders (PriceStock.create_table cols now) (PyDict record) 3 text) /\
  (last_row !! "Open" = None ->
   PriceStock.fetch_ticker history symbol = Ok PyNone /\
   forall cols now,
     (PriceStock.create_table cols now [PyNone] ≫= fun table => Ok (rows table))
     = Ok [replicate 7 "N/A"]).
Proof.
  intros Hhist Hlast Hclose Hhigh Hlow Hvol.
  split; [apply stock_fetch_escapes|]. split.
  - intros yesterday Hopen Hzero.
    pose proof (stock_fetch_record _ _ _ _ _ _ _ _ _
                  Hhist Hlast Hopen Hclose Hhigh Hlow Hvol) as Hfetch.
    destruct (zero_open_rate yesterday today Hzero) as (Hfin & text & Hin & Htext).
    destruct (stock_record_lookup symbol yesterday today
                (B64.mul (B64.div (B64.sub today yesterday) yesterday) (B64.of_Z 100))
                volume high low) as [Hrate _].
    cbv zeta in Hrate.
    eexists _, _, text. split; [exact Hfetch|]. split; [exact Hrate|].
    split; [exact Hfin|]. split; [exact Hin|].
    assert (StockCell.change (PyDict (list_to_map
              [ ("symbol", PyStr symbol); ("yesterday", PyFloat yesterday);
                ("today", PyFloat today);
                ("change_rate",
                 PyFloat (B64.mul (B64.div (B64.sub today yesterday) yesterday)
                                  (B64.of_Z 100)));
                ("volume", PyFloat volume); ("high", PyFloat high);
                ("low", PyFloat low) ])) = Ok text) as Hcell.
    { unfold StockCell.change, py_get. rewrite Hrate. exact Htext. }
    split; [exact Hcell|].
    intros cols now. apply stock_renders_change; [|exact Hcell].
    by eapply dict_with_key_truthy.
  - intros Hopen. split; [by eapply stock_fetch_no_open|].
    intros cols now. unfold PriceStock.create_table. cbn [for_each].
    rewrite stock_body. cbn. rewrite add_columns_rows. reflexivity.
Qed.

Lemma zero_open_change_rate_witness :
  exists record change_rate text,
    PriceStock.fetch_ticker zero_open_history "AAPL" = Ok (PyDict record) /\
    record !! "change_rate" = Some (PyFloat change_rate) /\
    B64.is_finite change_rate = false /\
    text ∈ non_finite_displays /\
    StockCell.change (PyDict record) = Ok text /\
    forall cols now,
      renders (PriceStock.create_table cols now) (PyDict record) 3 text.
Proof.
  destruct (zero_open_change_rate zero_open_history "AAPL"
              [ {[ "Open" := B64.zero; "Close" := B64.of_Z 5; "High" := B64.of_Z 6;
                   "Low" := B64.of_Z 4; "Volume" := B64.of_Z 1000 ]} ]
              {[ "Open" := B64.zero; "Close" := B64.of_Z 5; "High" := B64.of_Z 6;
                 "Low" := B64.of_Z 4; "Volume" := B64.of_Z 1000 ]}
              (B64.of_Z 5) (B64.of_Z 6) (B64.of_Z 4) (B64.of_Z 1000))
    as (_ & Hzero & _); [vm_compute; reflexivity .. |].
  apply (Hzero B64.zero); [vm_compute; reflexivity|].
  left. exists false. reflexivity.
Defined.

(** C3, where the wording of the specification fails: a bar that opens at 0 and closes at 5
    gives a row whose change cell is inf% in the green tag, not N/A. *)
Lemma zero_open_shows_inf :
  exists record table,
    PriceStock.fetch_ticker zero_open_history "AAPL" = Ok record /\
    PriceStock.create_table [] "" [record] = Ok table /\
    rows table =
      [["AAPL"; "0.00"; "5.00"; "[green dim]inf%[/green dim]"; "1,000";
        "6.00"; "4.00"]] /\
    cell table 0 3 = Some "[green dim]inf%[/green dim]" /\
    cell table 0 3 <> Some "N/A".
Proof.
  eexists _, _. split; [vm_compute; reflexivity|].
  split; [vm_compute; reflexivity|].
  split; [reflexivity|]. split; [reflexivity|]. discriminate.
Qed.

(** ** [fetch_all_candles] *)

Section Candles.
Variable session : Session.
Variable timeframes : list Graph.Timeframe.

#[local] Abbreviation task := (candle_task session).
#[local] Abbreviation tasks_of := (candle_tasks session timeframes).
#[local] Abbreviation reset := reset_candles.

Lemma queue_timeframes symbol tasks tfs :
  foldl (fun tasks timeframe => tasks ++ [task symbol timeframe]) tasks tfs
  = tasks ++ (task symbol <$> tfs).
Proof.
  revert tasks. induction tfs as [|tf tfs IH]; intros tasks; cbn [foldl].
  - by rewrite app_nil_r.
  - rewrite IH, fmap_cons, <- app_assoc. reflexivity.
Qed.

Lemma queue_symbols symbols candle_data tasks :
  foldl (fun '(candle_data, tasks) symbol =>
           (<[symbol := ∅]> candle_data,
            foldl (fun tasks timeframe => tasks ++ [task symbol timeframe])
                  tasks timeframes))
        (candle_data, tasks) symbols
  = (reset candle_data symbols, tasks ++ tasks_of symbols).
Proof.
  revert candle_data tasks.
  induction symbols as [|symbol symbols IH]; intros candle_data tasks.
  - cbn. by rewrite app_nil_r.
  - cbn [foldl]. rewrite (queue_timeframes symbol tasks timeframes).
    rewrite IH. unfold tasks_of. rewrite bind_cons, app_assoc. reflexivity.
Qed.

Lemma queue_tasks_eq symbols :
  Graph.queue_tasks session symbols timeframes = (reset ∅ symbols, tasks_of symbols).
Proof. apply (queue_symbols symbols ∅ []). Qed.

Lemma reset_lookup symbols candle_data symbol :
  reset candle_data symbols !! symbol =
  if decide (symbol ∈ symbols) then Some ∅ else candle_data !! symbol.
Proof.
  revert candle_data. induction symbols as [|s symbols IH]; intros candle_data.
  - cbn. rewrite decide_False; [done | apply not_elem_of_nil].
  - unfold reset. cbn [foldl]. fold (reset (<[s := ∅]> candle_data) symbols).
    rewrite IH. destruct (decide (symbol ∈ symbols)) as [Hin|Hin].
    + rewrite decide_True by (by right). done.
    + destruct (decide (symbol = s)) as [->|Hne].
      * rewrite decide_True by left. apply lookup_insert_eq.
      * rewrite decide_False by (by intros [?|?]%elem_of_cons).
        by apply lookup_insert_ne.
Qed.

Lemma elem_of_tasks symbols (t : Graph.Task) :
  t ∈ tasks_of symbols <->
  exists symbol timeframe,
    symbol ∈ symbols /\ timeframe ∈ timeframes /\ t = task symbol timeframe.
Proof.
  unfold tasks_of. rewrite list_elem_of_bind. split.
  - intros (symbol & [tf [-> Htf]]%list_elem_of_fmap & Hs). eauto.
  - intros (symbol & tf & Hs & Htf & ->). exists symbol.
    split; [|done]. by apply list_elem_of_fmap_2.
Qed.

Lemma length_tasks symbols :
  length (tasks_of symbols) = (length symbols * length timeframes)%nat.
Proof.
  unfold tasks_of. induction symbols as [|s symbols IH]; [done|].
  rewrite bind_cons, length_app, length_fmap, IH. reflexivity.
Qed.

Lemma assign_result_eq results candle_data i symbol tf c r inner :
  results !! i = Some r ->
  candle_data !! symbol = Some inner ->
  Graph.assign_result results candle_data (i, (symbol, tf, c))
  = Ok (<[symbol := <[Graph.name tf := r]> inner]> candle_data).
Proof. unfold Graph.assign_result. intros -> ->. reflexivity. Qed.

(** The assignment loop, from the task at offset [k] on. *)
Lemma assign_loop results (tasks : list Graph.Task) k candle_data :
  (forall i t, tasks !! i = Some t ->
     exists r, results !! (k + i)%nat = Some r /\ t.2 = Ok r) ->
  (forall t, t ∈ tasks -> is_Some (candle_data !! t.1.1)) ->
  exists final,
    for_each (Graph.assign_result results)
      (imap (fun i => pair (k + i)%nat) tasks) candle_data = Ok final /\
    dom final = dom candle_data /\
    forall symbol inner, candle_data !! symbol = Some inner ->
      exists inner', final !! symbol = Some inner' /\
        (forall nm r, inner' !! nm = Some r ->
           inner !! nm = Some r \/
           exists tf, (symbol, tf, Ok r) ∈ tasks /\ Graph.name tf = nm) /\
        (forall nm, is_Some (inner !! nm) -> is_Some (inner' !! nm)) /\
        (forall tf c, (symbol, tf, c) ∈ tasks -> is_Some (inner' !! Graph.name tf)).
Proof.
  revert k candle_data.
  induction tasks as [|[[s0 tf0] c0] tasks IH]; intros k candle_data Hres Hdom.
  - exists candle_data. split; [done|]. split; [done|].
    intros symbol inner Hs. exists inner. split; [done|].
    split; [by left|]. split; [done|]. by intros tf c ?%elem_of_nil.
  - destruct (Hres 0%nat _ eq_refl) as (r0 & Hr0 & Hc0). cbn in Hc0. subst c0.
    destruct (Hdom (s0, tf0, Ok r0)) as [inner0 Hinner0]; [left|]. cbn in Hinner0.
    rewrite imap_cons. cbn [for_each]. cbv beta.
    erewrite bind_Ok
      by apply (assign_result_eq _ _ _ _ tf0 (Ok r0) _ _ Hr0 Hinner0).
    set (candle_data1 := <[s0 := <[Graph.name tf0 := r0]> inner0]> candle_data).
    destruct (IH (S k) candle_data1) as (final & Hrun & Hdomf & Hfinal).
    { intros i t Hi. destruct (Hres (S i) t Hi) as (r & Hr & Ht).
      exists r. split; [|done]. by replace (S k + i)%nat with (k + S i)%nat by lia. }
    { intros t Ht. unfold candle_data1.
      destruct (decide (t.1.1 = s0)) as [->|Hne].
      - rewrite lookup_insert_eq. eauto.
      - rewrite lookup_insert_ne by done. apply Hdom. by right. }
    exists final. split.
    { rewrite <- Hrun. f_equal. apply imap_ext. intros i x _. cbn.
      f_equal. lia. }
    split.
    { rewrite Hdomf. unfold candle_data1. rewrite dom_insert_L.
      apply elem_of_dom_2 in Hinner0.
      by apply subseteq_union_1_L, singleton_subseteq_l. }
    intros symbol inner Hs. destruct (decide (symbol = s0)) as [->|Hne].
    + assert (inner = inner0) as -> by congruence.
      destruct (Hfinal s0 (<[Graph.name tf0 := r0]> inner0))
        as (inner' & Hlook & Hfrom & Hkeep & Hall).
      { unfold candle_data1. apply lookup_insert_eq. }
      exists inner'. split; [done|]. split; [|split].
      * intros nm r Hnm. destruct (Hfrom nm r Hnm) as [Hold|(tf & Htf & Hname)].
        -- destruct (decide (nm = Graph.name tf0)) as [->|Hnn].
           ++ rewrite lookup_insert_eq in Hold. injection Hold as ->.
              right. exists tf0. split; [left | done].
           ++ rewrite lookup_insert_ne in Hold by done. by left.
        -- right. exists tf. split; [by right | done].
      * intros nm Hnm. apply Hkeep.
        destruct (decide (nm = Graph.name tf0)) as [->|Hnn].
        -- rewrite lookup_insert_eq. eauto.
        -- by rewrite lookup_insert_ne.
      * intros tf c [Heq|Hin]%elem_of_cons.
        -- injection Heq as -> ->. apply Hkeep. rewrite lookup_insert_eq. eauto.
        -- by eapply Hall.
    + destruct (Hfinal symbol inner) as (inner' & Hlook & Hfrom & Hkeep & Hall).
      { unfold candle_data1. by rewrite lookup_insert_ne. }
      exists inner'. split; [done|]. split; [|split].
      * intros nm r Hnm. destruct (Hfrom nm r Hnm) as [Hold|(tf & Htf & Hname)].
        -- by left.
        -- right. exists tf. split; [by right | done].
      * done.
      * intros tf c [Heq|Hin]%elem_of_cons; [congruence | by eapply Hall].
Qed.
End Candles.

Lemma NoDup_fmap_eq {A B} (f : A -> B) (l : list A) x y :
  NoDup (f <$> l) -> x ∈ l -> y ∈ l -> f x = f y -> x = y.
Proof.
  induction l as [|a l IH]; intros Hnd Hx Hy Hf; [by apply elem_of_nil in Hx|].
  rewrite fmap_cons in Hnd. apply NoDup_cons in Hnd as [Hnotin Hnd].
  apply elem_of_cons in Hx as [->|Hx]; apply elem_of_cons in Hy as [->|Hy].
  - done.
  - exfalso. apply Hnotin. rewrite Hf. by apply list_elem_of_fmap_2.
  - exfalso. apply Hnotin. rewrite <- Hf. by apply list_elem_of_fmap_2.
  - by apply IH.
Qed.

(** C10: with pairwise distinct timeframe names, [fetch_all_candles]
    returns a mapping whose keys are the symbols; under each symbol the keys
    are the timeframe names, and the entry of a name is what [fetch_candles]
    returns for that symbol and that timeframe - [None] included, so the
    keys are all there when every request fails.  The order in which the
    tasks complete does not matter. *)
Theorem fetch_all_candles_keys (session : Session) (symbols : list string)
    (timeframes : list Graph.Timeframe) (completion : list nat) :
  NoDup (Graph.name <$> timeframes) ->
  (forall symbol tf, symbol ∈ symbols -> tf ∈ timeframes ->
     uninterrupted
       (session (Graph.candles_url symbol (Graph.unit tf) (Graph.count tf)))) ->
  completion ≡ₚ seq 0 (length symbols * length timeframes) ->
  exists candle_data,
    Graph.fetch_all_candles session symbols timeframes completion
      = Done (Ok candle_data) /\
    dom candle_data = list_to_set symbols /\
    forall symbol, symbol ∈ symbols ->
      exists inner,
        candle_data !! symbol = Some inner /\
        dom inner = list_to_set (Graph.name <$> timeframes) /\
        forall tf, tf ∈ timeframes ->
          exists r,
            inner !! Graph.name tf = Some r /\
            Graph.fetch_candles session symbol (Graph.unit tf) (Graph.count tf)
              = Ok r.
Proof.
  intros Hnames Hun Hperm.
  unfold Graph.fetch_all_candles. rewrite queue_tasks_eq.
  set (tasks := candle_tasks session timeframes symbols).
  assert (forall t : Graph.Task, t ∈ tasks <->
            exists symbol tf, symbol ∈ symbols /\ tf ∈ timeframes /\
              t = (symbol, tf, Graph.fetch_candles session symbol
                                 (Graph.unit tf) (Graph.count tf))) as Htasks
    by apply elem_of_tasks.
  destruct (map_returns (fun t : Graph.Task => t.2) tasks)
    as (results & Hmap & Hall).
  { intros t (symbol & tf & Hs & Htf & ->)%Htasks. cbn.
    by apply fetch_candles_returns, Hun. }
  pose proof (Forall2_length _ _ _ Hall) as Hlen.
  rewrite Hmap, gather_values_perm
    by (rewrite <- Hlen; subst tasks; by rewrite length_tasks).
  set (candle_data0 := reset_candles ∅ symbols).
  assert (forall symbol, candle_data0 !! symbol =
            if decide (symbol ∈ symbols) then Some ∅ else None) as Hreset.
  { intros symbol. subst candle_data0. rewrite reset_lookup.
    by rewrite lookup_empty. }
  destruct (assign_loop results tasks 0 candle_data0)
    as (final & Hrun & Hdom & Hfinal).
  { intros i t Hi. destruct (Forall2_lookup_l _ _ _ _ _ Hall Hi) as (r & Hr & Ht).
    eauto. }
  { intros t (symbol & tf & Hs & Htf & ->)%Htasks. cbn.
    rewrite Hreset, decide_True by done. eauto. }
  exists final. split.
  { rewrite <- Hrun. do 2 f_equal. }
  split.
  { rewrite Hdom. apply set_eq. intros symbol.
    rewrite elem_of_dom, elem_of_list_to_set, Hreset.
    destruct (decide (symbol ∈ symbols)) as [Hin|Hin].
    - split; [done | eauto].
    - split; [by intros [? ?] | done]. }
  intros symbol Hs.
  destruct (Hfinal symbol ∅) as (inner & Hlook & Hfrom & _ & Hall').
  { by rewrite Hreset, decide_True. }
  exists inner. split; [done|]. split.
  - apply set_eq. intros nm. rewrite elem_of_dom, elem_of_list_to_set. split.
    + intros [r Hr]. destruct (Hfrom nm r Hr) as [Hempty|(tf & Htf & <-)].
      { by rewrite lookup_empty in Hempty. }
      apply Htasks in Htf as (s' & tf' & _ & Htf' & [= -> -> _]).
      by apply list_elem_of_fmap_2.
    + intros (tf & -> & Htf)%list_elem_of_fmap.
      apply (Hall' tf (Graph.fetch_candles session symbol
                         (Graph.unit tf) (Graph.count tf))).
      apply Htasks. eauto.
  - intros tf Htf.
    destruct (Hall' tf (Graph.fetch_candles session symbol
                          (Graph.unit tf) (Graph.count tf))) as [r Hr].
    { apply Htasks. eauto. }
    exists r. split; [done|].
    destruct (Hfrom _ r Hr) as [Hempty|(tf' & Htf' & Hname)].
    { by rewrite lookup_empty in Hempty. }
    apply Htasks in Htf' as (s' & tf'' & _ & Htf'' & [= -> -> Hr']).
    by rewrite <- (NoDup_fmap_eq Graph.name timeframes tf'' tf Hnames Htf'' Htf Hname).
Qed.

Lemma fetch_all_candles_keys_witness :
  exists candle_data,
    Graph.fetch_all_candles failing_session ["KRW-BTC"; "KRW-ETH"] demo_timeframes
      [5; 0; 3; 1; 4; 2]%nat = Done (Ok candle_data) /\
    dom candle_data = list_to_set ["KRW-BTC"; "KRW-ETH"] /\
    forall symbol, symbol ∈ ["KRW-BTC"; "KRW-ETH"] ->
      exists inner,
        candle_data !! symbol = Some inner /\
        dom inner = list_to_set (Graph.name <$> demo_timeframes) /\
        forall tf, tf ∈ demo_timeframes ->
          exists r,
            inner !! Graph.name tf = Some r /\
            Graph.fetch_candles failing_session symbol
              (Graph.unit tf) (Graph.count tf) = Ok r.
Proof.
  apply (fetch_all_candles_keys failing_session ["KRW-BTC"; "KRW-ETH"]
           demo_timeframes [5; 0; 3; 1; 4; 2]%nat).
  - apply (bool_decide_unpack _). vm_compute. exact I.
  - intros symbol tf _ _. reflexivity.
  - apply (bool_decide_unpack _). vm_compute. exact I.
Defined.

(** Every request refused: the keys are all there, each entry is [None]. *)
Example fetch_all_candles_all_failed :
  Graph.fetch_all_candles failing_session ["KRW-BTC"; "KRW-ETH"] demo_timeframes
    [5; 0; 3; 1; 4; 2]%nat
  = Done (Ok {[ "KRW-BTC" := {[ "1H" := PyNone; "15M" := PyNone; "5M" := PyNone ]};
                "KRW-ETH" := {[ "1H" := PyNone; "15M" := PyNone; "5M" := PyNone ]} ]}).
Proof. vm_compute. reflexivity. Qed.


(** * Further properties *)

(** ** price_stock.py: what [fetch_ticker] returns *)

Lemma df_empty_last data row :
  last data = Some row -> PriceStock.df_empty data = true -> row = ∅.
Proof.
  intros [data' ->]%last_Some Hempty. unfold PriceStock.df_empty in Hempty.
  rewrite forallb_app in Hempty. apply andb_prop in Hempty as [_ Hrow].
  cbn [forallb] in Hrow. apply andb_prop in Hrow as [Hrow _].
  apply Nat.eqb_eq in Hrow. by apply map_size_empty_iff.
Qed.

Lemma stock_fetch_eq history symbol :
  PriceStock.fetch_ticker history symbol =
  match history symbol with
  | Raise e => if is_Exception e then Ok PyNone else Raise e
  | Ok data =>
      Ok match last_bar data with
         | Some bar => stock_record symbol bar
         | None => PyNone
         end
  end.
Proof.
  unfold PriceStock.fetch_ticker.
  destruct (history symbol) as [data|e]; cbn [mbind Exc_bind try_except];
    [|by destruct (is_Exception e)].
  unfold last_bar. destruct (last data) as [row|] eqn:Hlast; cbn [mbind option_bind].
  2: { apply last_None in Hlast. subst data. reflexivity. }
  destruct (PriceStock.df_empty data) eqn:Hempty.
  { apply (df_empty_last _ _ Hlast) in Hempty. subst row.
    rewrite lookup_empty. reflexivity. }
  unfold PriceStock.iloc_last, PriceStock.row_getitem. rewrite Hlast.
  cbn [mbind Exc_bind].
  destruct (row !! "Open") as [o|]; cbn [mbind Exc_bind option_bind]; [|done].
  destruct (row !! "Close") as [c|]; cbn [mbind Exc_bind option_bind]; [|done].
  destruct (row !! "High") as [h|]; cbn [mbind Exc_bind option_bind]; [|done].
  destruct (row !! "Low") as [l|]; cbn [mbind Exc_bind option_bind]; [|done].
  destruct (row !! "Volume") as [v|]; cbn [mbind Exc_bind option_bind]; done.
Qed.

(** X1: [fetch_ticker] of the stock variant returns a record exactly when
    the last row of the frame has the five columns Open, Close, High, Low
    and Volume, and builds it from that row alone; an empty frame, a missing
    column or an [Exception] of the history call give [None]. *)
Theorem stock_fetch_by_last_bar (history : PriceStock.History) (symbol : string) :
  PriceStock.fetch_ticker history symbol =
    match history symbol with
    | Raise e => if is_Exception e then Ok PyNone else Raise e
    | Ok data =>
        Ok match last_bar data with
           | Some bar => stock_record symbol bar
           | None => PyNone
           end
    end /\
  (forall earlier row, last_bar (earlier ++ [row]) = last_bar [row]) /\
  last_bar [] = None.
Proof.
  split; [apply stock_fetch_eq|]. split; [|reflexivity].
  intros earlier row. unfold last_bar. by rewrite last_snoc.
Qed.

Lemma stock_record_presentable symbol bar :
  stock_presentable (stock_record symbol bar) = true /\
  truthy (stock_record symbol bar) = true /\
  exists d, stock_record symbol bar = PyDict d /\
    d !! "symbol" = Some (PyStr symbol) /\
    d !! "change_rate" =
      Some (PyFloat (let '(o, c, _, _, _) := bar in
                     B64.mul (B64.div (B64.sub c o) o) (B64.of_Z 100))).
Proof.
  destruct bar as [[[[o c] h] l] v]. unfold stock_record.
  generalize (B64.mul (B64.div (B64.sub c o) o) (B64.of_Z 100)) as rate.
  intros rate. split; [vm_compute; reflexivity|].
  split; [vm_compute; reflexivity|].
  eexists. split; [reflexivity|]. split; vm_compute; reflexivity.
Qed.

Lemma stock_fetch_presentable history symbol v :
  PriceStock.fetch_ticker history symbol = Ok v ->
  stock_presentable v = true.
Proof.
  rewrite stock_fetch_eq. destruct (history symbol) as [data|e].
  - intros [= <-]. destruct (last_bar data); [|reflexivity].
    apply stock_record_presentable.
  - destruct (is_Exception e); [|discriminate]. by intros [= <-].
Qed.

Lemma stock_fetch_returns history symbol :
  history_uninterrupted (history symbol) ->
  exists v, PriceStock.fetch_ticker history symbol = Ok v.
Proof.
  rewrite stock_fetch_eq. unfold history_uninterrupted.
  destruct (history symbol) as [data|e]; [eauto|]. intros ->. eauto.
Qed.

(** X2: one cycle of the stock dashboard raises nothing.  Whatever the
    history calls return or raise, and in whatever order they complete,
    [fetch_all_tickers] returns one result per symbol and [create_table]
    builds a table from them with one row per symbol, in the order of the
    symbols: the row starts with the symbol when its last bar is complete,
    and is seven N/A cells otherwise. *)
Theorem stock_cycle_builds_table (history : PriceStock.History)
    (symbols : list string) (completion : list nat) (cols : list Column)
    (now : string) :
  (forall symbol, symbol ∈ symbols -> history_uninterrupted (history symbol)) ->
  completion ≡ₚ seq 0 (length symbols) ->
  exists tickers table,
    PriceStock.fetch_all_tickers history symbols completion = Done (Ok tickers) /\
    PriceStock.create_table cols now tickers = Ok table /\
    length (rows table) = length symbols /\
    forall i symbol, symbols !! i = Some symbol ->
      match history symbol with
      | Ok data =>
          match last_bar data with
          | Some _ => cell table i 0 = Some symbol
          | None => rows table !! i = Some (replicate 7 "N/A")
          end
      | Raise _ => rows table !! i = Some (replicate 7 "N/A")
      end.
Proof.
  intros Hun Hperm.
  destruct (map_returns (PriceStock.fetch_ticker history) symbols)
    as (tickers & Hmap & Hall).
  { intros symbol Hin. by apply stock_fetch_returns, Hun. }
  pose proof (Forall2_length _ _ _ Hall) as Hlen.
  assert (Forall (fun t => stock_presentable t = true) tickers) as Hok.
  { clear -Hall. induction Hall as [|s v ss vs Hv _ IH]; constructor; [|done].
    by eapply stock_fetch_presentable. }
  destruct (stock_table_built cols now tickers Hok) as (table & Htable & Hshows).
  exists tickers, table. split.
  { unfold PriceStock.fetch_all_tickers. cbv zeta. rewrite Hmap.
    apply gather_values_perm. by rewrite <- Hlen. }
  split; [done|]. split.
  { by rewrite <- (Forall2_length _ _ _ Hshows), Hlen. }
  intros i symbol Hi.
  destruct (Forall2_lookup_l _ _ _ _ _ Hall Hi) as (v & Hv & Hfetch).
  destruct (Forall2_lookup_l _ _ _ _ _ Hshows Hv) as (row & Hrow & Hshow).
  rewrite stock_fetch_eq in Hfetch.
  destruct (history symbol) as [data|e].
  - injection Hfetch as <-.
    destruct (last_bar data) as [bar|];
      [|cbn [stock_row_shows] in Hshow; by rewrite Hrow, Hshow].
    destruct (stock_record_presentable symbol bar)
      as (_ & Htruthy & d & Hd & Hsym & _).
    rewrite Hd in Hv, Htruthy.
    unfold PriceStock.create_table in Htable.
    destruct (stock_row _ _ _ _ _ (price_table_empty _ cols now) Htable Hv Htruthy)
      as (m & y & t & c & vol & h & l & Hm & _ & _ & _ & _ & _ & _ & Hrow').
    rewrite Hsym in Hm. injection Hm as <-.
    by rewrite (cell_of_row _ _ _ _ Hrow').
  - destruct (is_Exception e); [|discriminate]. injection Hfetch as <-.
    cbn [stock_row_shows] in Hshow. by rewrite Hrow, Hshow.
Qed.

Lemma stock_cycle_builds_table_witness :
  exists tickers table,
    PriceStock.fetch_all_tickers zero_open_history ["AAPL"; "MSFT"] [1; 0]%nat
      = Done (Ok tickers) /\
    PriceStock.create_table [] "" tickers = Ok table /\
    length (rows table) = length ["AAPL"; "MSFT"] /\
    forall i symbol, ["AAPL"; "MSFT"] !! i = Some symbol ->
      match zero_open_history symbol with
      | Ok data =>
          match last_bar data with
          | Some _ => cell table i 0 = Some symbol
          | None => rows table !! i = Some (replicate 7 "N/A")
          end
      | Raise _ => rows table !! i = Some (replicate 7 "N/A")
      end.
Proof.
  apply (stock_cycle_builds_table zero_open_history ["AAPL"; "MSFT"] [1; 0]%nat [] "").
  - intros symbol _. exact I.
  - apply perm_swap.
Defined.

Lemma sub_self s m e :
  B64.sub (S754_finite s m e) (S754_finite s m e) = S754_zero false.
Proof.
  unfold B64.sub, SFsub. rewrite Z.min_id. unfold shl_align.
  rewrite Z.sub_diag. reflexivity.
Qed.

Lemma stock_tabulates cols now d text :
  truthy (PyDict d) = true ->
  StockCell.change (PyDict d) = Ok text ->
  tabulates (PriceStock.create_table cols now) stock_presentable (PyDict d) 3 text.
Proof.
  intros Htruthy Htext tickers i Hok Hi.
  destruct (stock_table_built cols now tickers Hok) as (table & Htable & _).
  exists table. split; [done|].
  by eapply stock_renders_change.
Qed.

(** X3: a bar that closes at the positive price it opened at is fetched
    with a change rate of zero, and its row shows 0.00% in the green tag. *)
Theorem unchanged_price_shows_zero (history : PriceStock.History)
    (symbol : string) (data : PriceStock.DataFrame) (m : positive) (e : Z)
    (h l v : spec_float) (cols : list Column) (now : string) :
  history symbol = Ok data ->
  last_bar data = Some (S754_finite false m e, S754_finite false m e, h, l, v) ->
  exists d,
    PriceStock.fetch_ticker history symbol = Ok (PyDict d) /\
    d !! "change_rate" = Some (PyFloat (S754_zero false)) /\
    StockCell.change (PyDict d) = Ok "[green dim]0.00%[/green dim]" /\
    tabulates (PriceStock.create_table cols now) stock_presentable (PyDict d) 3
      "[green dim]0.00%[/green dim]".
Proof.
  intros Hhist Hbar.
  destruct (stock_record_presentable symbol
              (S754_finite false m e, S754_finite false m e, h, l, v))
    as (_ & Htruthy & d & Hd & _ & Hrate).
  rewrite sub_self in Hrate.
  replace (B64.mul (B64.div (S754_zero false) (S754_finite false m e)) (B64.of_Z 100))
    with (S754_zero false) in Hrate by (vm_compute; reflexivity).
  rewrite Hd in Htruthy.
  assert (StockCell.change (PyDict d) = Ok "[green dim]0.00%[/green dim]") as Hcell.
  { unfold StockCell.change, py_get. rewrite Hrate. vm_compute. reflexivity. }
  exists d. split.
  { rewrite stock_fetch_eq, Hhist, Hbar. by rewrite Hd. }
  split; [done|]. split; [done|]. by apply stock_tabulates.
Qed.

Lemma unchanged_price_shows_zero_witness :
  exists d,
    PriceStock.fetch_ticker
      (fun _ => Ok [ {[ "Open" := B64.of_Z 5; "Close" := B64.of_Z 5;
                        "High" := B64.of_Z 6; "Low" := B64.of_Z 4;
                        "Volume" := B64.of_Z 1000 ]} ]) "AAPL" = Ok (PyDict d) /\
    d !! "change_rate" = Some (PyFloat (S754_zero false)) /\
    StockCell.change (PyDict d) = Ok "[green dim]0.00%[/green dim]" /\
    tabulates (PriceStock.create_table [] "") stock_presentable (PyDict d) 3
      "[green dim]0.00%[/green dim]".
Proof.
  eapply (unchanged_price_shows_zero _ "AAPL" _ 5629499534213120 (-50)
            (B64.of_Z 6) (B64.of_Z 4) (B64.of_Z 1000) [] "").
  - reflexivity.
  - vm_compute. reflexivity.
Defined.

(** ** The Upbit fetchers: what a value they return comes from *)

(** X4: [fetch_ticker] returns something other than [None] only out of a
    response of status 200 with a payload that is not empty: the first
    element of a list payload, or the first character of a string payload.
    It returns that element as it is, whatever follows it. *)
Theorem fetch_ticker_value (session : Session) (symbol : string) (v : PyVal) :
  v <> PyNone ->
  (Upbit.fetch_ticker session symbol = Ok v <->
   exists data,
     session (Upbit.ticker_url symbol) = Response 200 (Ok data) /\
     ((exists rest, data = PyList (v :: rest)) \/
      (exists c rest, data = PyStr (String c rest) /\
                      v = PyStr (String c EmptyString)))).
Proof.
  intros Hv. unfold Upbit.fetch_ticker. cbv zeta. split.
  - destruct (session (Upbit.ticker_url symbol)) as [e|status [data|e]].
    + cbn [try_except]. destruct (is_ClientError e); [by intros [= <-]|].
      destruct (is_TimeoutError e); [by intros [= <-]|].
      destruct (is_Exception e); [by intros [= <-] | discriminate].
    + destruct (status =? 200) eqn:Hst; [|by intros [= <-]].
      apply Z.eqb_eq in Hst. subst status. cbn [mbind Exc_bind].
      destruct (truthy data) eqn:Htruthy; [|by intros [= <-]].
      destruct (py_getitem_int data 0) as [x|e] eqn:Hitem.
      * intros [= ->]. exists data. split; [done|].
        destruct data as [| | | |s|l|d]; try discriminate.
        -- destruct s as [|c rest]; [discriminate|]. injection Hitem as <-.
           right. eauto.
        -- destruct l as [|x rest]; [discriminate|]. injection Hitem as <-.
           left. eauto.
      * pose proof (py_getitem_int_raises _ _ _ Hitem) as He.
        rewrite (handlers_catch e PyNone He). by intros [= <-].
    + destruct (status =? 200); [|by intros [= <-]]. cbn [mbind Exc_bind try_except].
      destruct (is_ClientError e); [by intros [= <-]|].
      destruct (is_TimeoutError e); [by intros [= <-]|].
      destruct (is_Exception e); [by intros [= <-] | discriminate].
  - intros (data & -> & [[rest ->] | (c & rest & -> & ->)]); reflexivity.
Qed.

Lemma fetch_ticker_value_witness :
  Upbit.fetch_ticker demo_session "KRW-BTC"
  = Ok (PyDict {[ "market" := PyStr "KRW-BTC" ]}).
Proof.
  apply (fetch_ticker_value demo_session "KRW-BTC"); [discriminate|].
  eexists. split; [reflexivity|]. left. eauto.
Defined.

(** X5: [fetch_candles] returns [None], or else the payload of a response
    of status 200, unchanged, and only when the payload is not empty: it
    never returns an empty list. *)
Theorem fetch_candles_value (session : Session) (symbol : string)
    (unit count : Z) (v : PyVal) :
  (Graph.fetch_candles session symbol unit count = Ok v ->
   v = PyNone \/
   (truthy v = true /\
    session (Graph.candles_url symbol unit count) = Response 200 (Ok v))) /\
  (truthy v = true ->
   session (Graph.candles_url symbol unit count) = Response 200 (Ok v) ->
   Graph.fetch_candles session symbol unit count = Ok v) /\
  Graph.fetch_candles session symbol unit count <> Ok (PyList []).
Proof.
  assert (Graph.fetch_candles session symbol unit count = Ok v ->
          v = PyNone \/
          (truthy v = true /\
           session (Graph.candles_url symbol unit count) = Response 200 (Ok v)))
    as Hvalue.
  { unfold Graph.fetch_candles. cbv zeta.
    destruct (session (Graph.candles_url symbol unit count))
      as [e|status [data|e]].
    - cbn [try_except]. destruct (is_ClientError e); [intros [= <-]; by left|].
      destruct (is_TimeoutError e); [intros [= <-]; by left|].
      destruct (is_Exception e); [intros [= <-]; by left | discriminate].
    - destruct (status =? 200) eqn:Hst; [|intros [= <-]; by left].
      apply Z.eqb_eq in Hst. subst status. cbn [mbind Exc_bind].
      destruct (truthy data) eqn:Htruthy; intros [= <-]; [by right | by left].
    - destruct (status =? 200); [|intros [= <-]; by left].
      cbn [mbind Exc_bind try_except].
      destruct (is_ClientError e); [intros [= <-]; by left|].
      destruct (is_TimeoutError e); [intros [= <-]; by left|].
      destruct (is_Exception e); [intros [= <-]; by left | discriminate]. }
  split; [exact Hvalue|]. split.
  - intros Htruthy Hsession. unfold Graph.fetch_candles. cbv zeta.
    rewrite Hsession. cbn. by rewrite Htruthy.
  - clear Hvalue. intros Hempty.
    revert Hempty. unfold Graph.fetch_candles. cbv zeta.
    destruct (session (Graph.candles_url symbol unit count))
      as [e|status [data|e]].
    + cbn [try_except]. destruct (is_ClientError e); [discriminate|].
      destruct (is_TimeoutError e); [discriminate|].
      destruct (is_Exception e); discriminate.
    + destruct (status =? 200); [|discriminate]. cbn [mbind Exc_bind].
      destruct (truthy data) eqn:Htruthy; [|discriminate].
      intros [= ->]. discriminate.
    + destruct (status =? 200); [|discriminate].
      cbn [mbind Exc_bind try_except].
      destruct (is_ClientError e); [discriminate|].
      destruct (is_TimeoutError e); [discriminate|].
      destruct (is_Exception e); discriminate.
Qed.

Lemma fetch_candles_value_witness :
  Graph.fetch_candles
    (fun _ => Response 200 (Ok (PyList demo_candles))) "KRW-BTC" 60 60
  = Ok (PyList demo_candles).
Proof.
  apply (fetch_candles_value
           (fun _ => Response 200 (Ok (PyList demo_candles))) "KRW-BTC" 60 60);
    reflexivity.
Defined.

(** ** One cycle of the Upbit dashboards *)

(** X6: in a cycle of price.py or graph.py whose fetched records are all
    presentable, the table has one row per symbol, in the order of the
    symbols, and the row of every symbol whose fetch failed is six N/A
    cells: a failed symbol blanks its own row and no other. *)
Theorem upbit_cycle_rows (session : Session) (symbols : list string)
    (completion : list nat) (title : string) (cols : list Column) (now : string) :
  (forall symbol, symbol ∈ symbols ->
     uninterrupted (session (Upbit.ticker_url symbol))) ->
  (forall symbol v, symbol ∈ symbols ->
     Upbit.fetch_ticker session symbol = Ok v -> upbit_presentable v = true) ->
  completion ≡ₚ seq 0 (length symbols) ->
  exists tickers table,
    Price.fetch_all_tickers session symbols completion = Done (Ok tickers) /\
    Graph.fetch_all_tickers session symbols completion = Done (Ok tickers) /\
    Price.create_table title cols now tickers = Ok table /\
    Graph.create_table cols now tickers title = Ok table /\
    length (rows table) = length symbols /\
    forall i symbol, symbols !! i = Some symbol ->
      (FetchFailure (session (Upbit.ticker_url symbol)) ->
       rows table !! i = Some (replicate 6 "N/A")) /\
      (forall d, Upbit.fetch_ticker session symbol = Ok (PyDict d) ->
                 truthy (PyDict d) = true ->
                 forall text, UpbitCell.price (PyDict d) = Ok text ->
                              cell table i 1 = Some text).
Proof.
  intros Hun Hpres Hperm.
  destruct (map_returns (Upbit.fetch_ticker session) symbols)
    as (tickers & Hmap & Hall).
  { intros symbol Hin. by apply fetch_ticker_returns, Hun. }
  pose proof (Forall2_length _ _ _ Hall) as Hlen.
  assert (Forall (fun t => upbit_presentable t = true) tickers) as Hok.
  { apply Forall_forall. intros v [i Hv]%list_elem_of_lookup.
    destruct (Forall2_lookup_r _ _ _ _ _ Hall Hv) as (symbol & Hs & Hfetch).
    eapply Hpres; [|done]. by eapply list_elem_of_lookup_2. }
  destruct (upbit_table_built title cols now tickers Hok)
    as (table & Hprice & Hgraph & Hshows & Hcells).
  exists tickers, table.
  assert (gather (map (Upbit.fetch_ticker session) symbols) completion
          = Done (Ok tickers)) as Hgather.
  { rewrite Hmap. apply gather_values_perm. by rewrite <- Hlen. }
  split; [exact Hgather|]. split; [exact Hgather|].
  split; [done|]. split; [done|]. split.
  { by rewrite <- (Forall2_length _ _ _ Hshows), Hlen. }
  intros i symbol Hi.
  destruct (Forall2_lookup_l _ _ _ _ _ Hall Hi) as (v & Hv & Hfetch).
  split.
  - intros Hfail. rewrite (fetch_ticker_failure _ _ Hfail) in Hfetch.
    injection Hfetch as <-.
    destruct (Forall2_lookup_l _ _ _ _ _ Hshows Hv) as (row & Hrow & Hshow).
    cbn [upbit_row_shows] in Hshow. by rewrite Hrow, Hshow.
  - intros d Hd Htruthy text Htext. rewrite Hd in Hfetch. injection Hfetch as <-.
    by apply (Hcells i d Hv Htruthy).
Qed.

Lemma upbit_cycle_rows_witness :
  exists tickers table,
    Price.fetch_all_tickers demo_session ["KRW-ETH"; "KRW-BTC"] [1; 0]%nat
      = Done (Ok tickers) /\
    Graph.fetch_all_tickers demo_session ["KRW-ETH"; "KRW-BTC"] [1; 0]%nat
      = Done (Ok tickers) /\
    Price.create_table "" [] "" tickers = Ok table /\
    Graph.create_table [] "" tickers "" = Ok table /\
    length (rows table) = length ["KRW-ETH"; "KRW-BTC"] /\
    forall i symbol, ["KRW-ETH"; "KRW-BTC"] !! i = Some symbol ->
      (FetchFailure (demo_session (Upbit.ticker_url symbol)) ->
       rows table !! i = Some (replicate 6 "N/A")) /\
      (forall d, Upbit.fetch_ticker demo_session symbol = Ok (PyDict d) ->
                 truthy (PyDict d) = true ->
                 forall text, UpbitCell.price (PyDict d) = Ok text ->
                              cell table i 1 = Some text).
Proof.
  apply (upbit_cycle_rows demo_session ["KRW-ETH"; "KRW-BTC"] [1; 0]%nat "" [] "").
  - intros symbol _. unfold uninterrupted, demo_session.
    destruct (String.eqb _ _); [exact I | reflexivity].
  - intros symbol v _. unfold Upbit.fetch_ticker, demo_session. cbv zeta.
    destruct (String.eqb _ _); intros [= <-]; vm_compute; reflexivity.
  - apply perm_swap.
Defined.

(** ** The frame of a table *)

Section Frame.
Variable cells_of : PyVal -> Exc (list PyVal).
Variable body : Table -> PyVal -> Exc Table.
Hypothesis body_eq : forall table ticker,
  body table ticker = (cells ← cells_of ticker; add_row table cells).

Lemma for_each_frame tickers table0 table :
  for_each body tickers table0 = Ok table ->
  title table = title table0 /\ columns table = columns table0 /\
  length (rows table) = (length (rows table0) + length tickers)%nat.
Proof.
  revert table0. induction tickers as [|ticker tickers IH]; intros table0 H.
  - injection H as <-. cbn. split; [done|]. split; [done|]. lia.
  - cbn [for_each] in H. rewrite body_eq in H. unfold add_row in H.
    destruct (cells_of ticker) as [cells|]; [|discriminate].
    cbn [mbind Exc_bind] in H.
    destruct (render_cells cells) as [r|]; [|discriminate].
    cbn [mbind Exc_bind] in H.
    destruct (IH _ H) as (Ht & Hc & Hr). cbn [title columns rows] in Ht, Hc, Hr.
    split; [done|]. split; [done|].
    rewrite Hr, length_app. cbn [length]. lia.
Qed.
End Frame.

Lemma add_columns_frame table cols :
  title (add_columns table cols) = title table /\
  columns (add_columns table cols) = columns table ++ configured_columns cols.
Proof.
  unfold add_columns, configured_columns. revert table.
  induction cols as [|c cols IH]; intros table; cbn [foldl].
  - by rewrite app_nil_r.
  - destruct (IH (add_column table (col_name c) (default "dim" (col_style c))
                    (default "left" (col_justify c)))) as [-> ->].
    cbn [add_column title columns]. split; [done|].
    rewrite fmap_cons, <- app_assoc. reflexivity.
Qed.

(** X7: whenever one of the three [create_table] functions returns a
    table, its title is the configured title, a dash and the time, and it
    has exactly one row per ticker; and when the configuration declares at
    least as many columns as a row has cells (six, seven for the stocks),
    the columns of the table are the configured ones in their order, with
    the style "dim" and the justification "left" where the configuration
    gives none.  (With fewer declared columns the renderer adds a column of
    its own for each further cell of a row; the table of the model keeps
    the declared columns only, hence the condition.) *)
Theorem create_table_frame (title_ : string) (cols : list Column) (now : string)
    (tickers : list PyVal) (table : Table) :
  (Price.create_table title_ cols now tickers = Ok table \/
   Graph.create_table cols now tickers title_ = Ok table ->
   title table = title_ +:+ " - " +:+ now /\
   length (rows table) = length tickers /\
   (6 <= length cols -> columns table = configured_columns cols)%nat) /\
  (PriceStock.create_table cols now tickers = Ok table ->
   title table = "Stock Dashboard - " +:+ now /\
   length (rows table) = length tickers /\
   (7 <= length cols -> columns table = configured_columns cols)%nat).
Proof.
  split.
  - intros Hrun.
    assert (for_each Upbit.add_ticker tickers
              (add_columns (new_table (title_ +:+ " - " +:+ now)) cols) = Ok table)
      as Hloop by (by destruct Hrun).
    destruct (for_each_frame _ _ upbit_body _ _ _ Hloop) as (-> & -> & ->).
    destruct (add_columns_frame (new_table (title_ +:+ " - " +:+ now)) cols)
      as [-> ->].
    by rewrite add_columns_rows.
  - intros Hloop. unfold PriceStock.create_table in Hloop.
    destruct (for_each_frame _ _ stock_body _ _ _ Hloop) as (-> & -> & ->).
    destruct (add_columns_frame
                (new_table (PriceStock.DEFAULT_STOCK_PRICE_TABLE_TITLE
                            +:+ " - " +:+ now)) cols) as [-> ->].
    by rewrite add_columns_rows.
Qed.

Lemma create_table_frame_witness :
  let cols := [ mkColumn "Symbol" (Some "cyan dim") None;
                mkColumn "Last Price" None (Some "right");
                mkColumn "Change (%)" None (Some "right");
                mkColumn "Volume" None (Some "right");
                mkColumn "High" None (Some "right");
                mkColumn "Low" None None ] in
  exists table,
    Price.create_table "Upbit" cols "12:00" [PyNone; PyNone] = Ok table /\
    title table = "Upbit - 12:00" /\
    length (rows table) = 2%nat /\
    columns table = [ ("Symbol", "cyan dim", "left");
                      ("Last Price", "dim", "right");
                      ("Change (%)", "dim", "right");
                      ("Volume", "dim", "right");
                      ("High", "dim", "right");
                      ("Low", "dim", "left") ].
Proof.
  cbv zeta. eexists. split; [vm_compute; reflexivity|].
  match goal with
  | |- title ?t = _ /\ _ =>
      destruct (create_table_frame "Upbit"
                  [ mkColumn "Symbol" (Some "cyan dim") None;
                    mkColumn "Last Price" None (Some "right");
                    mkColumn "Change (%)" None (Some "right");
                    mkColumn "Volume" None (Some "right");
                    mkColumn "High" None (Some "right");
                    mkColumn "Low" None None ] "12:00" [PyNone; PyNone] t)
        as [Hframe _]
  end.
  destruct Hframe as (Htitle & Hrows & Hcols); [left; vm_compute; reflexivity|].
  split; [exact Htitle|]. split; [exact Hrows|].
  rewrite Hcols by (cbn [length]; lia). reflexivity.
Defined.

(** ** Which series can be drawn *)

Lemma closing_prices_of_inv candles prices :
  Graph.closing_prices_of candles = Ok prices ->
  Forall2 candle_closing candles prices.
Proof.
  revert prices. induction candles as [|candle candles IH]; intros prices.
  - intros [= <-]. constructor.
  - cbn [Graph.closing_prices_of]. unfold py_getitem_str.
    destruct candle as [| | | | | |d]; try discriminate.
    destruct (d !! "trade_price") as [price|] eqn:Hd; [|discriminate].
    cbn [mbind Exc_bind].
    destruct (Graph.closing_prices_of candles) as [rest|]; [|discriminate].
    cbn [mbind Exc_bind]. intros [= <-]. constructor; [|by apply IH].
    by exists d.
Qed.

Lemma closing_prices_of_raises candles e :
  Graph.closing_prices_of candles = Raise e -> e = TypeError \/ e = KeyError.
Proof.
  induction candles as [|candle candles IH]; [discriminate|].
  cbn [Graph.closing_prices_of]. unfold py_getitem_str.
  destruct candle as [| | | | | |d];
    try (cbn [mbind Exc_bind]; intros [= <-]; by left).
  destruct (d !! "trade_price") as [price|]; cbn [mbind Exc_bind];
    [|intros [= <-]; by right].
  destruct (Graph.closing_prices_of candles) as [rest|e'];
    cbn [mbind Exc_bind]; [discriminate|].
  intros [= <-]. by apply IH.
Qed.

Lemma closing_prices_not_candles {A} (f : A -> PyVal) (xs : list A) prices :
  (forall x d, f x <> PyDict d) -> xs <> [] ->
  Graph.closing_prices_of (reverse (map f xs)) <> Ok prices.
Proof.
  intros Hf Hne Hrun. apply closing_prices_of_inv in Hrun.
  apply Forall2_reverse in Hrun. rewrite reverse_involutive in Hrun.
  destruct xs as [|x xs]; [done|].
  apply Forall2_cons_inv_l in Hrun as (? & ? & (d & Hd & _) & _).
  by apply Hf in Hd.
Qed.

Lemma fetch_candles_truthy session symbol unit count v :
  Graph.fetch_candles session symbol unit count = Ok v ->
  v = PyNone \/ truthy v = true.
Proof.
  unfold Graph.fetch_candles. cbv zeta.
  destruct (session (Graph.candles_url symbol unit count))
    as [e|status [data|e]].
  - cbn [try_except]. destruct (is_ClientError e); [intros [= <-]; by left|].
    destruct (is_TimeoutError e); [intros [= <-]; by left|].
    destruct (is_Exception e); [intros [= <-]; by left | discriminate].
  - destruct (status =? 200); [|intros [= <-]; by left].
    cbn [mbind Exc_bind]. destruct (truthy data) eqn:Ht;
      cbn [try_except]; intros [= <-]; [by right | by left].
  - destruct (status =? 200); [|intros [= <-]; by left].
    cbn [mbind Exc_bind try_except].
    destruct (is_ClientError e); [intros [= <-]; by left|].
    destruct (is_TimeoutError e); [intros [= <-]; by left|].
    destruct (is_Exception e); [intros [= <-]; by left | discriminate].
Qed.

Lemma closing_prices_list candles prices :
  truthy candles = true ->
  Graph.closing_prices candles = Ok prices ->
  exists l, candles = PyList l /\ Forall2 candle_closing l (reverse prices).
Proof.
  intros Htruthy. unfold Graph.closing_prices.
  destruct candles as [|b|n|f|s|l|d]; cbn [py_reversed mbind Exc_bind];
    try discriminate.
  - intros Hrun. exfalso. revert Hrun.
    apply closing_prices_not_candles; [done|].
    destruct s; [discriminate Htruthy | done].
  - intros Hrun. exists l. split; [done|].
    apply closing_prices_of_inv, Forall2_reverse in Hrun.
    by rewrite reverse_involutive in Hrun.
  - intros Hrun. exfalso. revert Hrun.
    apply closing_prices_not_candles; [done|].
    intros Hnil. cbn [truthy] in Htruthy.
    apply (f_equal length) in Hnil. rewrite length_map_to_list in Hnil.
    cbn [length] in Hnil. by rewrite Hnil in Htruthy.
Qed.

Lemma closing_prices_raises candles e :
  Graph.closing_prices candles = Raise e -> e = TypeError \/ e = KeyError.
Proof.
  unfold Graph.closing_prices.
  destruct candles as [|b|n|f|s|l|d]; cbn [py_reversed mbind Exc_bind];
    try (intros [= <-]; by left); apply closing_prices_of_raises.
Qed.

Lemma panel_of_series symbol timeframe candles width height :
  candles <> PyNone ->
  Graph.create_plot_graph_panel symbol timeframe candles width height
  = (prices ← Graph.closing_prices candles;
     Ok (Graph.mkPanel (symbol +:+ " - " +:+ timeframe)
           (Graph.create_plotille_line_chart prices width height) "blue")).
Proof.
  intros Hsome. unfold Graph.create_plot_graph_panel.
  destruct candles; [done|..];
    by destruct (Graph.closing_prices _).
Qed.

(** X8: of the values [fetch_candles] can return, only [None] and a list
    whose every element is an object with a "trade_price" get as far as the
    chart.  A panel is made for no other value; and any other payload that
    came with status 200 (a number, a string, an object, a list with
    another kind of element) makes [create_plot_graph_panel] raise while
    the closing prices are collected, before anything is drawn, and what it
    raises there is a TypeError or a KeyError.  (Whether the chart library
    can draw the prices it is handed is not part of this.) *)
Theorem fetched_series_panel (session : Session) (symbol timeframe : string)
    (unit count width height : Z) (candles : PyVal) :
  Graph.fetch_candles session symbol unit count = Ok candles ->
  ((exists panel,
      Graph.create_plot_graph_panel symbol timeframe candles width height
      = Ok panel) ->
   candles = PyNone \/
   exists l prices, candles = PyList l /\ Forall2 candle_closing l prices) /\
  (candles <> PyNone ->
   (forall l prices, candles = PyList l -> ~ Forall2 candle_closing l prices) ->
   exists e,
     Graph.closing_prices candles = Raise e /\
     Graph.create_plot_graph_panel symbol timeframe candles width height
     = Raise e /\
     (e = TypeError \/ e = KeyError)).
Proof.
  intros Hfetch. apply fetch_candles_truthy in Hfetch. split.
  - intros [panel Hpanel]. destruct Hfetch as [->|Htruthy]; [by left|].
    assert (candles <> PyNone) as Hsome by (intros ->; discriminate).
    rewrite panel_of_series in Hpanel by done.
    destruct (Graph.closing_prices candles) as [prices|] eqn:Hrun;
      [|discriminate].
    right. destruct (closing_prices_list _ _ Htruthy Hrun) as (l & -> & Hall).
    by exists l, (reverse prices).
  - intros Hsome Hnot. destruct Hfetch as [->|Htruthy]; [done|].
    rewrite panel_of_series by done.
    destruct (Graph.closing_prices candles) as [prices|e] eqn:Hrun.
    + destruct (closing_prices_list _ _ Htruthy Hrun) as (l & -> & Hall).
      by destruct (Hnot l (reverse prices)).
    + exists e. split; [done|]. split; [done|].
      exact (closing_prices_raises _ _ Hrun).
Qed.

Lemma fetched_series_panel_witness :
  exists e,
    Graph.closing_prices (PyDict {[ "error" := PyStr "not found" ]}) = Raise e /\
    Graph.create_plot_graph_panel "KRW-BTC" "1H"
      (PyDict {[ "error" := PyStr "not found" ]}) 60 20 = Raise e /\
    (e = TypeError \/ e = KeyError).
Proof.
  apply (fetched_series_panel
           (fun _ => Response 200 (Ok (PyDict {[ "error" := PyStr "not found" ]})))
           "KRW-BTC" "1H" 60 60 60 20).
  - vm_compute. reflexivity.
  - discriminate.
  - intros l prices Hlist. discriminate Hlist.
Defined.

(** ** The panels of a cycle *)

Section Collect.
Context {A B : Type}.
Variable f : A -> Exc B.
Variable body : list B -> A -> Exc (list B).
Hypothesis body_eq : forall acc x, body acc x = (y ← f x; Ok (acc ++ [y])).

Lemma for_each_collect l acc r :
  for_each body l acc = Ok r <->
  exists ys, r = acc ++ ys /\ Forall2 (fun x y => f x = Ok y) l ys.
Proof.
  revert acc. induction l as [|x l IH]; intros acc; cbn [for_each].
  - split.
    + intros [= <-]. exists []. by rewrite app_nil_r.
    + intros (ys & -> & ->%Forall2_nil_inv_l). by rewrite app_nil_r.
  - rewrite body_eq. destruct (f x) as [y|e] eqn:Hfx; cbn [mbind Exc_bind].
    + rewrite IH. split.
      * intros (ys & -> & Hall). exists (y :: ys). rewrite <- app_assoc.
        split; [done|]. by constructor.
      * intros (ys & -> & Hall).
        apply Forall2_cons_inv_l in Hall as (y' & ys' & Hy & Hall & ->).
        assert (y' = y) as -> by congruence.
        exists ys'. by rewrite <- app_assoc.
    + split; [discriminate|]. intros (ys & _ & Hall).
      apply Forall2_cons_inv_l in Hall as (y' & ys' & Hy & _). congruence.
Qed.

Lemma for_each_collect_raises l acc e :
  for_each body l acc = Raise e <->
  exists done x later ys,
    l = done ++ x :: later /\ Forall2 (fun x y => f x = Ok y) done ys /\
    f x = Raise e.
Proof.
  revert acc. induction l as [|x l IH]; intros acc; cbn [for_each].
  - split; [discriminate|]. intros (done & ? & ? & ? & Hl & _).
    by destruct done.
  - rewrite body_eq. destruct (f x) as [y|e'] eqn:Hfx; cbn [mbind Exc_bind].
    + rewrite IH. split.
      * intros (done & x' & later & ys & -> & Hall & Hx).
        exists (x :: done), x', later, (y :: ys).
        split; [done|]. split; [by constructor | done].
      * intros (done & x' & later & ys & Hl & Hall & Hx).
        destruct done as [|x0 done]; cbn in Hl; injection Hl as -> ->.
        { congruence. }
        apply Forall2_cons_inv_l in Hall as (? & ys' & _ & Hall & ->).
        by exists done, x', later, ys'.
    + split.
      * intros [= <-]. exists [], x, l, []. split; [done|].
        split; [constructor | done].
      * intros (done & x' & later & ys & Hl & Hall & Hx).
        destruct done as [|x0 done]; cbn in Hl; injection Hl as -> ->.
        { congruence. }
        apply Forall2_cons_inv_l in Hall as (? & ? & Hy & _). congruence.
Qed.
End Collect.

Lemma create_graphs_inner symbol timeframes acc :
  for_each (fun panels '(timeframe, candles) =>
              panel ← Graph.create_plot_graph_panel symbol timeframe candles 60 20;
              Ok (panels ++ [panel])) timeframes acc
  = for_each (fun panels pair => panel ← panel_of pair; Ok (panels ++ [panel]))
      ((fun '(timeframe, candles) => (symbol, timeframe, candles)) <$> timeframes)
      acc.
Proof.
  revert acc. induction timeframes as [|[timeframe candles] timeframes IH];
    intros acc; [done|].
  rewrite fmap_cons. cbn [for_each panel_of].
  destruct (Graph.create_plot_graph_panel _ _ _ _ _); [|done].
  cbn [mbind Exc_bind]. apply IH.
Qed.

Lemma for_each_app {S A} (body : S -> A -> Exc S) l1 l2 s :
  for_each body (l1 ++ l2) s = (s' ← for_each body l1 s; for_each body l2 s').
Proof.
  revert s. induction l1 as [|x l1 IH]; intros s; [done|].
  cbn [app for_each]. destruct (body s x); [|done].
  cbn [mbind Exc_bind]. apply IH.
Qed.

Lemma create_graphs_eq candle_data :
  GraphView.create_graphs candle_data
  = for_each (fun panels pair => panel ← panel_of pair; Ok (panels ++ [panel]))
      (pairs_of candle_data) [].
Proof.
  unfold GraphView.create_graphs.
  enough (forall acc,
    for_each (fun panels '(symbol, timeframes) =>
       for_each (fun panels '(timeframe, candles) =>
          panel ← Graph.create_plot_graph_panel symbol timeframe candles 60 20;
          Ok (panels ++ [panel])) timeframes panels) candle_data acc
    = for_each (fun panels pair => panel ← panel_of pair; Ok (panels ++ [panel]))
        (pairs_of candle_data) acc) as Hacc by apply Hacc.
  induction candle_data as [|[symbol timeframes] candle_data IH]; intros acc;
    [done|].
  unfold pairs_of. cbn [for_each mbind list_bind]. rewrite for_each_app.
  rewrite create_graphs_inner.
  destruct (for_each _ (_ <$> timeframes) acc); [|done].
  cbn [mbind Exc_bind]. apply IH.
Qed.

Lemma panel_of_title pair panel :
  panel_of pair = Ok panel ->
  Graph.panel_title panel = pair.1.1 +:+ " - " +:+ pair.1.2 /\
  Graph.border_style panel = "blue".
Proof.
  destruct pair as [[symbol timeframe] candles].
  unfold panel_of, Graph.create_plot_graph_panel.
  destruct (match candles with PyNone => _ | _ => _ end) as [content|];
    [|discriminate].
  cbn [mbind Exc_bind]. by intros [= <-].
Qed.

Lemma panels_titles pairs panels :
  Forall2 (fun pair panel => panel_of pair = Ok panel) pairs panels ->
  Graph.panel_title <$> panels
    = (fun pair => pair.1.1 +:+ " - " +:+ pair.1.2) <$> pairs /\
  Forall (fun panel => Graph.border_style panel = "blue") panels.
Proof.
  induction 1 as [|pair panel pairs panels Hpanel _ [IHt IHb]].
  - split; [done | constructor].
  - destruct (panel_of_title _ _ Hpanel) as [Ht Hb].
    rewrite !fmap_cons, Ht, IHt. split; [done | by constructor].
Qed.

(** X9: [create_graphs] returns panels exactly when every series of the
    data can be drawn, and then there is one panel per symbol and
    timeframe, in the order of the iteration, titled "symbol - timeframe"
    and bordered in blue; it raises [e] exactly when the first series that
    cannot be drawn raises [e], and the panels made before are dropped. *)
Theorem create_graphs_panels (candle_data : GraphView.Items) :
  (forall panels,
     GraphView.create_graphs candle_data = Ok panels <->
     Forall2 (fun pair panel => panel_of pair = Ok panel)
       (pairs_of candle_data) panels) /\
  (forall panels,
     GraphView.create_graphs candle_data = Ok panels ->
     Graph.panel_title <$> panels
       = (fun pair => pair.1.1 +:+ " - " +:+ pair.1.2) <$> pairs_of candle_data /\
     Forall (fun panel => Graph.border_style panel = "blue") panels) /\
  (forall e,
     GraphView.create_graphs candle_data = Raise e <->
     exists drawn pair later panels,
       pairs_of candle_data = drawn ++ pair :: later /\
       Forall2 (fun pair panel => panel_of pair = Ok panel) drawn panels /\
       panel_of pair = Raise e).
Proof.
  rewrite create_graphs_eq.
  assert (forall panels,
     for_each (fun panels pair => panel ← panel_of pair; Ok (panels ++ [panel]))
       (pairs_of candle_data) [] = Ok panels <->
     Forall2 (fun pair panel => panel_of pair = Ok panel)
       (pairs_of candle_data) panels) as Hiff.
  { intros panels.
    rewrite (for_each_collect panel_of _ (fun _ _ => eq_refl)).
    split; [by intros (ys & -> & Hall) | intros Hall; by exists panels]. }
  split; [exact Hiff|]. split.
  - intros panels Hall%Hiff. by apply panels_titles.
  - intros e. apply (for_each_collect_raises panel_of _ (fun _ _ => eq_refl)).
Qed.

(** ** The layout of the graphs *)

Lemma slices_of_one {A} (l : list A) :
  map (fun i => take 1 (drop i l)) (seq 0 (length l)) = map (fun x => [x]) l.
Proof.
  apply list_eq. intros i. rewrite !list_lookup_fmap.
  destruct (l !! i) as [x|] eqn:Hi.
  - rewrite lookup_seq_lt by by eapply lookup_lt_Some.
    cbn [fmap option_fmap option_map Nat.add]. rewrite (drop_S _ _ _ Hi).
    reflexivity.
  - rewrite lookup_seq_ge by by apply lookup_ge_None. reflexivity.
Qed.

Lemma py_range_by_one n : GraphView.py_range n 1 = Ok (seq 0 n).
Proof.
  unfold GraphView.py_range. rewrite Nat.add_sub, Nat.div_1_r.
  f_equal. rewrite <- (map_id (seq 0 n)) at 2.
  apply map_ext. intros j. apply Nat.mul_1_r.
Qed.

(** X10: whatever the number of panels, the layout built for the graphs
    holds the last panel only: with one panel per row, each row replaces
    the children that the row before it had put in [graph_layout].  With
    no panel the layout is left empty. *)
Theorem arrange_graphs_keeps_last (graphs : list Graph.Panel) :
  GraphView.arrange_graphs graphs
  = Ok match last graphs with
       | None => GraphView.new_layout None
       | Some panel =>
           GraphView.mkLayout None GraphView.RowSplitter
             [GraphView.new_layout (Some panel)]
       end.
Proof.
  unfold GraphView.arrange_graphs, GraphView.columns_per_row.
  rewrite py_range_by_one. cbn [mbind Exc_bind]. rewrite slices_of_one.
  f_equal. induction graphs as [|panel graphs IH] using rev_ind; [done|].
  rewrite map_app, foldl_app, last_snoc. cbn [map foldl].
  destruct (foldl _ _ (map _ graphs)) as [r splitter layouts] eqn:Hfold.
  destruct (last graphs); injection IH as -> _ _; reflexivity.
Qed.

(** ** The timeframes of the command line *)

Lemma split_on_cons sep text : GraphView.split_on sep text <> [].
Proof.
  destruct text as [|c rest]; cbn [GraphView.split_on]; [done|].
  destruct (Ascii.eqb c sep); [done|].
  by destruct (GraphView.split_on sep rest).
Qed.

Lemma split_on_field sep (field : string) :
  ~ In sep (list_ascii_of_string field) ->
  GraphView.split_on sep field = [field].
Proof.
  induction field as [|c field IH]; [done|].
  cbn [list_ascii_of_string In GraphView.split_on]. intros Hnot.
  destruct (Ascii.eqb_spec c sep) as [->|_]; [by destruct Hnot; left|].
  rewrite IH; [done|]. intros Hin. apply Hnot. by right.
Qed.

Lemma split_on_app sep (field rest : string) :
  ~ In sep (list_ascii_of_string field) ->
  GraphView.split_on sep (field +:+ String sep rest)
  = field :: GraphView.split_on sep rest.
Proof.
  induction field as [|c field IH].
  - intros _. simpl.
    by rewrite Ascii.eqb_refl.
  - simpl. intros Hnot.
    destruct (Ascii.eqb_spec c sep) as [->|_]; [by destruct Hnot; left|].
    rewrite IH; [done|]. intros Hin. apply Hnot. by right.
Qed.

Lemma split_on_inv sep text field fields :
  GraphView.split_on sep text = field :: fields ->
  ~ In sep (list_ascii_of_string field) /\
  ((fields = [] /\ text = field) \/
   exists rest, text = field +:+ String sep rest /\
                GraphView.split_on sep rest = fields).
Proof.
  revert field fields. induction text as [|c text IH]; intros field fields.
  - intros [= <- <-]. split; [by intros []|]. by left.
  - cbn [GraphView.split_on].
    destruct (Ascii.eqb_spec c sep) as [->|Hc].
    + intros [= <- <-]. split; [by intros []|]. right. by exists text.
    + destruct (GraphView.split_on sep text) as [|field' fields'] eqn:Hsplit;
        [by apply split_on_cons in Hsplit|].
      intros [= <- <-]. destruct (IH _ _ eq_refl) as [Hnot Hrest].
      split.
      * cbn [list_ascii_of_string In]. intros [Heq|Hin]; [by apply Hc | done].
      * destruct Hrest as [[-> ->]|(rest & -> & Hrest)]; [by left|].
        right. by exists rest.
Qed.

(** X11: a timeframe of the command line is accepted exactly when it is
    three fields joined by two colons, none of the fields holding a colon,
    the second and the third being integers for [int]; then the fields are
    its name, unit and count.  Anything else raises ValueError, as "1H:60"
    and "1H:60:60:1" do. *)
Theorem parse_timeframe_format (py_int : string -> option Z) (tf : string) :
  (forall name unit count,
     GraphView.parse_timeframe py_int tf = Ok (Graph.mkTimeframe name unit count)
     <->
     exists unit_text count_text,
       tf = name +:+ ":" +:+ unit_text +:+ ":" +:+ count_text /\
       ~ In ":"%char (list_ascii_of_string name) /\
       ~ In ":"%char (list_ascii_of_string unit_text) /\
       ~ In ":"%char (list_ascii_of_string count_text) /\
       py_int unit_text = Some unit /\ py_int count_text = Some count) /\
  (forall e, GraphView.parse_timeframe py_int tf = Raise e -> e = ValueError) /\
  (forall a b c d : string,
     (~ In ":"%char (list_ascii_of_string a) ->
      ~ In ":"%char (list_ascii_of_string b) ->
      tf = a +:+ ":" +:+ b ->
      GraphView.parse_timeframe py_int tf = Raise ValueError) /\
     (tf = a +:+ ":" +:+ b +:+ ":" +:+ c +:+ ":" +:+ d ->
      ~ In ":"%char (list_ascii_of_string a) ->
      ~ In ":"%char (list_ascii_of_string b) ->
      ~ In ":"%char (list_ascii_of_string c) ->
      GraphView.parse_timeframe py_int tf = Raise ValueError)).
Proof.
  split; [|split].
  - intros name unit count. unfold GraphView.parse_timeframe. split.
    + destruct (GraphView.split_on ":" tf) as [|f1 [|f2 [|f3 [|f4 fs]]]] eqn:Hs;
        try discriminate.
      destruct (py_int f2) as [u|] eqn:Hu; [|discriminate].
      destruct (py_int f3) as [k|] eqn:Hk; [|discriminate].
      intros [= -> -> ->].
      apply split_on_inv in Hs as [Hn1 [[? _]|(r1 & -> & Hs)]]; [done|].
      apply split_on_inv in Hs as [Hn2 [[? _]|(r2 & -> & Hs)]]; [done|].
      apply split_on_inv in Hs as [Hn3 [[_ ->]|(r3 & _ & Hs)]];
        [|by apply split_on_cons in Hs].
      by exists f2, f3.
    + intros (unit_text & count_text & -> & Hn1 & Hn2 & Hn3 & Hu & Hk).
      change (name +:+ ":" +:+ unit_text +:+ ":" +:+ count_text)
        with (name +:+ String ":" (unit_text +:+ String ":" count_text)).
      rewrite (split_on_app _ _ _ Hn1).
      rewrite (split_on_app _ _ _ Hn2), (split_on_field _ _ Hn3).
      by rewrite Hu, Hk.
  - intros e. unfold GraphView.parse_timeframe.
    destruct (GraphView.split_on ":" tf) as [|f1 [|f2 [|f3 [|f4 fs]]]];
      try (by intros [= <-]).
    destruct (py_int f2); [|by intros [= <-]].
    destruct (py_int f3); [discriminate | by intros [= <-]].
  - intros a b c d. unfold GraphView.parse_timeframe. split.
    + intros Ha Hb ->. change (a +:+ ":" +:+ b) with (a +:+ String ":" b).
      by rewrite (split_on_app _ _ _ Ha), (split_on_field _ _ Hb).
    + intros -> Ha Hb Hc.
      change (a +:+ ":" +:+ b +:+ ":" +:+ c +:+ ":" +:+ d)
        with (a +:+ String ":" (b +:+ String ":" (c +:+ String ":" d))).
      rewrite (split_on_app _ _ _ Ha), (split_on_app _ _ _ Hb).
      rewrite (split_on_app _ _ _ Hc).
      pose proof (split_on_cons ":" d).
      by destruct (GraphView.split_on ":" d).
Qed.

Lemma parse_timeframe_format_witness :
  GraphView.parse_timeframe
    (fun text => if String.eqb text "60" then Some 60 else None) "1H:60:60"
  = Ok (Graph.mkTimeframe "1H" 60 60).
Proof.
  apply (parse_timeframe_format
           (fun text => if String.eqb text "60" then Some 60 else None)
           "1H:60:60").
  exists "60", "60". split; [reflexivity|].
  repeat split; try reflexivity; vm_compute; intuition discriminate.
Defined.

Lemma parse_timeframe_raises py_int tf e :
  GraphView.parse_timeframe py_int tf = Raise e -> e = ValueError.
Proof.
  unfold GraphView.parse_timeframe.
  destruct (GraphView.split_on ":" tf) as [|f1 [|f2 [|f3 [|f4 fs]]]];
    try (by intros [= <-]).
  destruct (py_int f2); [|by intros [= <-]].
  destruct (py_int f3); [discriminate | by intros [= <-]].
Qed.

Lemma cli_body_eq py_int (acc : list Graph.Timeframe) (tf : string) :
  try_except (parsed ← GraphView.parse_timeframe py_int tf; Ok (acc ++ [parsed]))
    [ (GraphView.is_ValueError, fun _ => Raise SystemExit) ]
  = (parsed ← try_except (GraphView.parse_timeframe py_int tf)
                [ (GraphView.is_ValueError, fun _ => Raise SystemExit) ];
     Ok (acc ++ [parsed])).
Proof.
  destruct (GraphView.parse_timeframe py_int tf) as [parsed|e]; [done|].
  cbn [mbind Exc_bind try_except]. by destruct (GraphView.is_ValueError e).
Qed.

(** X12: the timeframes of the command line are taken all or none: [cli]
    gets the parsed timeframes, in the order given, exactly when every one
    of them parses; if one does not, what leaves the loop is SystemExit,
    never the ValueError, and nothing else can leave it. *)
Theorem cli_timeframes_all_or_exit (py_int : string -> option Z)
    (timeframe : list string) :
  (forall selected,
     GraphView.cli_timeframes py_int timeframe = Ok selected <->
     Forall2 (fun tf parsed => GraphView.parse_timeframe py_int tf = Ok parsed)
       timeframe selected) /\
  (forall e,
     GraphView.cli_timeframes py_int timeframe = Raise e <->
     e = SystemExit /\
     exists tf, tf ∈ timeframe /\
                GraphView.parse_timeframe py_int tf = Raise ValueError).
Proof.
  set (handled := fun tf =>
         try_except (GraphView.parse_timeframe py_int tf)
           [ (GraphView.is_ValueError,
              fun _ : PyExc => @Raise Graph.Timeframe SystemExit) ]).
  assert (forall tf parsed,
            handled tf = Ok parsed <->
            GraphView.parse_timeframe py_int tf = Ok parsed) as Hok.
  { intros tf parsed. unfold handled.
    destruct (GraphView.parse_timeframe py_int tf) as [p|e] eqn:Hp; [done|].
    apply parse_timeframe_raises in Hp as ->. by cbn. }
  assert (forall tf e,
            handled tf = Raise e <->
            e = SystemExit /\
            GraphView.parse_timeframe py_int tf = Raise ValueError) as Hraise.
  { intros tf e. unfold handled.
    destruct (GraphView.parse_timeframe py_int tf) as [p|e'] eqn:Hp.
    - split; [discriminate | by intros [_ ?]].
    - apply parse_timeframe_raises in Hp as ->. cbn. split.
      + by intros [= <-].
      + by intros [-> _]. }
  assert (forall selected,
     GraphView.cli_timeframes py_int timeframe = Ok selected <->
     Forall2 (fun tf parsed => GraphView.parse_timeframe py_int tf = Ok parsed)
       timeframe selected) as Hiff.
  { intros selected. unfold GraphView.cli_timeframes.
    rewrite (for_each_collect handled _ (cli_body_eq py_int)). split.
    - intros (ys & -> & Hall). eapply Forall2_impl; [exact Hall|].
      intros tf parsed. apply Hok.
    - intros Hall. exists selected. split; [done|].
      eapply Forall2_impl; [exact Hall|]. intros tf parsed. apply Hok. }
  split; [exact Hiff|].
  intros e. unfold GraphView.cli_timeframes.
  rewrite (for_each_collect_raises handled _ (cli_body_eq py_int)). split.
  - intros (done & tf & later & ys & -> & _ & [-> Htf]%Hraise).
    split; [done|]. exists tf. split; [|done].
    apply elem_of_app. right. by left.
  - intros [-> (tf & Hin & Htf)].
    destruct (for_each
                (fun selected_timeframes tf =>
                   try_except
                     (parsed ← GraphView.parse_timeframe py_int tf;
                      Ok (selected_timeframes ++ [parsed]))
                     [ (GraphView.is_ValueError, fun _ => Raise SystemExit) ])
                timeframe []) as [selected|e] eqn:Hrun.
    + apply Hiff in Hrun.
      apply list_elem_of_lookup in Hin as [i Hi].
      destruct (Forall2_lookup_l _ _ _ _ _ Hrun Hi) as (p & _ & Hp). congruence.
    + pose proof Hrun as Hrun'.
      apply (for_each_collect_raises handled _ (cli_body_eq py_int)) in Hrun'.
      destruct Hrun' as (done & tf' & later & ys & Hl & Hall & Hx).
      pose proof Hx as [-> _]%Hraise.
      by exists done, tf', later, ys.
Qed.

(** ** The loop of price.py *)

Lemma upbit_cycle_table symbols title cols (c : PriceLoop.Cycle) :
  (forall symbol, symbol ∈ symbols ->
     uninterrupted (PriceLoop.session c (Upbit.ticker_url symbol))) ->
  (forall symbol v, symbol ∈ symbols ->
     Upbit.fetch_ticker (PriceLoop.session c) symbol = Ok v ->
     upbit_presentable v = true) ->
  PriceLoop.completion c ≡ₚ seq 0 (length symbols) ->
  exists table,
    PriceLoop.cycle_table symbols title cols c = Done (Ok table) /\
    length (rows table) = length symbols.
Proof.
  intros Hun Hpres Hperm.
  destruct (map_returns (Upbit.fetch_ticker (PriceLoop.session c)) symbols)
    as (tickers & Hmap & Hall).
  { intros symbol Hin. by apply fetch_ticker_returns, Hun. }
  pose proof (Forall2_length _ _ _ Hall) as Hlen.
  assert (Forall (fun t => upbit_presentable t = true) tickers) as Hok.
  { apply Forall_forall. intros v [i Hv]%list_elem_of_lookup.
    destruct (Forall2_lookup_r _ _ _ _ _ Hall Hv) as (symbol & Hs & Hfetch).
    eapply Hpres; [|done]. by eapply list_elem_of_lookup_2. }
  destruct (upbit_table_built title cols (PriceLoop.now c) tickers Hok)
    as (table & Hprice & _ & Hshows & _).
  exists table. split.
  - assert (Price.fetch_all_tickers (PriceLoop.session c) symbols
              (PriceLoop.completion c) = Done (Ok tickers)) as Hgather.
    { change (gather (map (Upbit.fetch_ticker (PriceLoop.session c)) symbols)
                (PriceLoop.completion c) = Done (Ok tickers)).
      rewrite Hmap. apply gather_values_perm. by rewrite <- Hlen. }
    unfold PriceLoop.cycle_table. by rewrite Hgather, Hprice.
  - by rewrite <- (Forall2_length _ _ _ Hshows), Hlen.
Qed.

Lemma main_app symbols interval title cols shown rest events :
  PriceLoop.main symbols interval title cols shown = (events, PriceLoop.Looping) ->
  PriceLoop.main symbols interval title cols (shown ++ rest)
  = (events ++ (PriceLoop.main symbols interval title cols rest).1,
     (PriceLoop.main symbols interval title cols rest).2).
Proof.
  revert events. induction shown as [|c shown IH]; intros events.
  - intros [= <-]. cbn [app]. by destruct (PriceLoop.main _ _ _ _ rest).
  - cbn [app PriceLoop.main].
    destruct (PriceLoop.cycle_table symbols title cols c) as [[table|e]|];
      try discriminate.
    destruct (PriceLoop.main symbols interval title cols shown)
      as [events' run] eqn:Hshown.
    intros [= <- ->]. by rewrite (IH events' eq_refl).
Qed.

(** X13: the loop of price.py.  As long as every cycle fetches without
    interruption and gets presentable records, each cycle shows one table
    with a row per configured symbol and then sleeps for the update
    interval, and the loop goes on.  The first cycle whose fetch or table
    raises ends the loop with that exception: nothing is shown for it, and
    no later cycle is run. *)
Theorem main_loop (symbols : list string) (interval : Z) (title : string)
    (cols : list Column) :
  (forall cycles,
     Forall (fun c =>
       (forall symbol, symbol ∈ symbols ->
          uninterrupted (PriceLoop.session c (Upbit.ticker_url symbol))) /\
       (forall symbol v, symbol ∈ symbols ->
          Upbit.fetch_ticker (PriceLoop.session c) symbol = Ok v ->
          upbit_presentable v = true) /\
       PriceLoop.completion c ≡ₚ seq 0 (length symbols)) cycles ->
     exists tables,
       PriceLoop.main symbols interval title cols cycles
       = (tables ≫= (fun table => [PriceLoop.LiveUpdate table;
                                    PriceLoop.Sleep interval]),
          PriceLoop.Looping) /\
       Forall2 (fun c table =>
                  PriceLoop.cycle_table symbols title cols c = Done (Ok table) /\
                  length (rows table) = length symbols) cycles tables) /\
  (forall shown c later events e,
     PriceLoop.main symbols interval title cols shown
       = (events, PriceLoop.Looping) ->
     PriceLoop.cycle_table symbols title cols c = Done (Raise e) ->
     PriceLoop.main symbols interval title cols (shown ++ c :: later)
       = (events, PriceLoop.Escaped e)).
Proof.
  split.
  - induction 1 as [|c cycles (Hun & Hpres & Hperm) _ (tables & Hmain & Hall)].
    + exists []. split; [done | constructor].
    + destruct (upbit_cycle_table symbols title cols c Hun Hpres Hperm)
        as (table & Htable & Hrows).
      exists (table :: tables). split; [|by constructor].
      cbn [PriceLoop.main]. by rewrite Htable, Hmain.
  - intros shown c later events e Hshown Hc.
    rewrite (main_app _ _ _ _ _ _ _ Hshown). cbn [PriceLoop.main].
    rewrite Hc. cbn [fst snd]. by rewrite app_nil_r.
Qed.

Lemma main_loop_witness :
  PriceLoop.main ["KRW-BTC"] 10 "" []
    ([PriceLoop.mkCycle demo_session [0%nat] "12:00"] ++
     PriceLoop.mkCycle
       (fun _ => Response 200
                   (Ok (PyList [PyDict {[ "signed_change_rate" := PyNone ]}])))
       [0%nat] "12:01"
     :: [PriceLoop.mkCycle demo_session [0%nat] "12:02"])
  = ([PriceLoop.LiveUpdate
        (mkTable " - 12:00" []
           [["KRW-BTC"; "N/A"; "[green dim]0.00%[/green dim]"; "0.00"; "N/A";
             "N/A"]]);
      PriceLoop.Sleep 10], PriceLoop.Escaped TypeError).
Proof.
  apply (main_loop ["KRW-BTC"] 10 "" []); vm_compute; reflexivity.
Defined.

(** ** Loading the configuration *)

(** X14: [load_config] returns what [yaml.safe_load] made of the file, as
    it is, exactly when the file opens and parses; every failure that is an
    [Exception] (a missing file, a YAML error, any other) becomes
    SystemExit, and only an exception outside [Exception] passes through
    unchanged. *)
Theorem load_config_outcome (opened : Exc string)
    (safe_load : string -> Exc PyVal) :
  (forall config,
     Config.load_config opened safe_load = Ok config <->
     exists file, opened = Ok file /\ safe_load file = Ok config) /\
  (forall e,
     Config.load_config opened safe_load = Raise e <->
     exists e0,
       (opened = Raise e0 \/
        exists file, opened = Ok file /\ safe_load file = Raise e0) /\
       e = if is_Exception e0 then SystemExit else e0).
Proof.
  assert (forall e0 : PyExc,
    try_except (@Raise PyVal e0)
      [ (Config.is_named "FileNotFoundError", fun _ => Raise SystemExit);
        (Config.is_named "YAMLError", fun _ => Raise SystemExit);
        (is_Exception, fun _ => Raise SystemExit) ]
    = Raise (if is_Exception e0 then SystemExit else e0)) as Hcaught.
  { intros e0. cbn [try_except].
    destruct e0; try reflexivity. cbn [Config.is_named is_Exception].
    by repeat destruct (String.eqb _ _). }
  unfold Config.load_config.
  destruct opened as [file|e0]; cbn [mbind Exc_bind].
  - destruct (safe_load file) as [config|e0] eqn:Hload; cbn [mbind Exc_bind].
    + split.
      * intros config'. cbn [try_except]. split.
        -- intros [= <-]. by exists file.
        -- intros (file' & [= <-] & Hc). congruence.
      * intros e. cbn [try_except]. split; [discriminate|].
        intros (e0 & [?|(file' & [= <-] & ?)] & _); congruence.
    + rewrite Hcaught. split.
      * intros config. split; [discriminate|].
        intros (file' & [= <-] & ?). congruence.
      * intros e. split.
        -- intros [= <-]. exists e0. split; [|done]. right. by exists file.
        -- intros (e1 & [?|(file' & [= <-] & ?)] & ->); [done|].
           by assert (e1 = e0) as -> by congruence.
  - rewrite Hcaught. split.
    + intros config. split; [discriminate|]. by intros (file & ? & _).
    + intros e. split.
      * intros [= <-]. exists e0. split; [by left | done].
      * intros (e1 & [[= <-]|(file & ? & _)] & ->); done.
Qed.

Lemma cli_timeframes_raises py_int timeframe e :
  GraphView.cli_timeframes py_int timeframe = Raise e -> e = SystemExit.
Proof.
  unfold GraphView.cli_timeframes.
  rewrite (for_each_collect_raises _ _ (cli_body_eq py_int)).
  intros (done & tf & later & ys & _ & _ & Htf).
  destruct (GraphView.parse_timeframe py_int tf) as [p|e'] eqn:Hp;
    [discriminate|].
  apply parse_timeframe_raises in Hp as ->. cbn in Htf. by injection Htf.
Qed.

Lemma py_get_not_dict config_data key dflt :
  (forall d, config_data <> PyDict d) ->
  py_get config_data key dflt = Raise AttributeError.
Proof. intros Hnot. destruct config_data; try done. by destruct (Hnot d). Qed.

(** X15: the settings of [cli].  What is given on the command line wins
    over the configuration file, an update interval of 0 included, while
    the table title is always read from the file.  Because of that, and
    because [load_config] does not check what the file holds, a file that
    is not a mapping (an empty one loads as [None]) makes [cli] raise
    whatever the command line gives: AttributeError, or SystemExit when a
    timeframe of the command line is malformed. *)
Theorem cli_select_outcome (py_int : string -> option Z)
    (DEFAULT_GRAPH_SYMBOLS DEFAULT_GRAPH_TIMEFRAMES DEFAULT_GRAPH_UPDATE_INTERVAL
       DEFAULT_GRAPH_TABLE_TITLE config_data : PyVal)
    (symbols timeframe : list string) (update_interval : option Z) :
  (forall d parsed seconds,
     config_data = PyDict d -> symbols <> [] -> timeframe <> [] ->
     GraphView.cli_timeframes py_int timeframe = Ok parsed ->
     update_interval = Some seconds ->
     Config.cli_select py_int DEFAULT_GRAPH_SYMBOLS DEFAULT_GRAPH_TIMEFRAMES
       DEFAULT_GRAPH_UPDATE_INTERVAL DEFAULT_GRAPH_TABLE_TITLE
       config_data symbols timeframe update_interval
     = Ok (Config.mkSelection (PyList (PyStr <$> symbols))
             (PyList (Config.timeframe_dict <$> parsed)) (PyInt seconds)
             (default DEFAULT_GRAPH_TABLE_TITLE (d !! "table_title")))) /\
  (forall d,
     config_data = PyDict d -> symbols = [] -> timeframe = [] ->
     update_interval = None ->
     Config.cli_select py_int DEFAULT_GRAPH_SYMBOLS DEFAULT_GRAPH_TIMEFRAMES
       DEFAULT_GRAPH_UPDATE_INTERVAL DEFAULT_GRAPH_TABLE_TITLE
       config_data symbols timeframe update_interval
     = Ok (Config.mkSelection
             (default DEFAULT_GRAPH_SYMBOLS (d !! "symbols"))
             (default DEFAULT_GRAPH_TIMEFRAMES (d !! "timeframes"))
             (default DEFAULT_GRAPH_UPDATE_INTERVAL (d !! "update_interval"))
             (default DEFAULT_GRAPH_TABLE_TITLE (d !! "table_title")))) /\
  ((forall d, config_data <> PyDict d) ->
   exists e,
     Config.cli_select py_int DEFAULT_GRAPH_SYMBOLS DEFAULT_GRAPH_TIMEFRAMES
       DEFAULT_GRAPH_UPDATE_INTERVAL DEFAULT_GRAPH_TABLE_TITLE
       config_data symbols timeframe update_interval = Raise e /\
     (e = AttributeError \/
      e = SystemExit /\ timeframe <> [] /\
      GraphView.cli_timeframes py_int timeframe = Raise SystemExit)).
Proof.
  split; [|split].
  - intros d parsed seconds -> Hs Ht Hparsed ->. unfold Config.cli_select.
    destruct symbols; [done|]. destruct timeframe; [done|].
    rewrite Hparsed. reflexivity.
  - intros d -> -> -> ->. reflexivity.
  - intros Hnot. unfold Config.cli_select.
    rewrite !(py_get_not_dict config_data) by done.
    destruct symbols as [|symbol symbols]; cbn [mbind Exc_bind];
      [exists AttributeError; split; [done | by left]|].
    destruct timeframe as [|tf timeframe]; cbn [mbind Exc_bind];
      [exists AttributeError; split; [done | by left]|].
    destruct (GraphView.cli_timeframes py_int (tf :: timeframe))
      as [parsed|e] eqn:Hparsed; cbn [mbind Exc_bind].
    + exists AttributeError. split; [|by left].
      by destruct update_interval.
    + apply cli_timeframes_raises in Hparsed as Hexit. subst e.
      exists SystemExit. split; [done|]. right. done.
Qed.

Lemma cli_select_outcome_witness :
  exists e,
    Config.cli_select (fun _ => Some 60) PyNone PyNone PyNone PyNone
      PyNone ["KRW-BTC"] ["1H:60:60"] (Some 0) = Raise e /\
    (e = AttributeError \/
     e = SystemExit /\ ["1H:60:60"] <> [] /\
     GraphView.cli_timeframes (fun _ => Some 60) ["1H:60:60"] = Raise SystemExit).
Proof.
  apply (cli_select_outcome (fun _ => Some 60) PyNone PyNone PyNone PyNone
           PyNone ["KRW-BTC"] ["1H:60:60"] (Some 0)).
  discriminate.
Defined.

Lemma create_graphs_panels_witness :
  GraphView.create_graphs [("KRW-BTC", [("1H", PyNone); ("5M", PyList [])])]
  = Ok [ Graph.mkPanel "KRW-BTC - 1H" (Graph.Text Graph.NO_DATA) "blue";
         Graph.mkPanel "KRW-BTC - 5M" (Graph.Text Graph.NO_DATA) "blue" ].
Proof.
  apply (create_graphs_panels
           [("KRW-BTC", [("1H", PyNone); ("5M", PyList [])])]).
  repeat constructor.
Defined.

Lemma cli_timeframes_all_or_exit_witness :
  GraphView.cli_timeframes (fun _ => Some 60) ["1H:60:60"; "5M:5"]
  = Raise SystemExit.
Proof.
  apply (cli_timeframes_all_or_exit (fun _ => Some 60) ["1H:60:60"; "5M:5"]).
  split; [reflexivity|]. exists "5M:5". split; [|reflexivity].
  apply list_elem_of_further, list_elem_of_here.
Defined.

Lemma load_config_outcome_witness :
  Config.load_config (Raise (OtherException "FileNotFoundError"))
    (fun _ => Ok PyNone) = Raise SystemExit.
Proof.
  apply (load_config_outcome (Raise (OtherException "FileNotFoundError"))
           (fun _ => Ok PyNone)).
  exists (OtherException "FileNotFoundError"). split; [by left | reflexivity].
Defined.
